(** * Frozen-core orbital selection (pyscf/dh/util/frozen_core.py)

    A shallow embedding of [ElementConfiguration], the [FrozenRuleBase]
    hierarchy and [FrozenCore], together with the properties of the
    specification that concern them.

    Conventions of the embedding:
    - a Python [int] is a [Z]; [//] and [%] are [Z.div] and [Z.modulo]
      (the quotient is rounded towards minus infinity and the remainder has
      the sign of the divisor), and a zero divisor raises;
    - an index into a list or array is a [nat] once it has been normalised
      the way NumPy does (negative indices count from the end);
    - a NumPy integer or boolean array of two dimensions is a list of rows;
    - a float, and with it an occupation number, is the rational number
      it stands for (a [Q]); arithmetic on floats is exact here, the
      rounding of floating-point operations is not represented;
    - a Python exception is a value of [exn], and a function that may raise
      returns a [result];
    - the attributes of a [FrozenCore] object are the fields of a record and
      its methods pass that record along. *)

From Stdlib Require Import String Ascii ZArith QArith Qabs Qround List Lia Lqa Bool
  Sorted Permutation.
Import ListNotations.
Local Open Scope Z_scope.

(** ** Exceptions and results *)

Inductive exn : Type :=
| ValueError
| AssertionError
| TypeError
| IndexError
| KeyError
| ZeroDivisionError
| NotImplementedError.

Inductive result (A : Type) : Type :=
| Ok (a : A)
| Raise (e : exn).

Arguments Ok {A} a.
Arguments Raise {A} e.

Definition bind {A B : Type} (r : result A) (k : A -> result B) : result B :=
  match r with
  | Ok a => k a
  | Raise e => Raise e
  end.

Notation "x <- r ;; k" := (bind r (fun x => k))
  (at level 61, r at next level, right associativity).

(** [assert c, e]: continue when [c] holds, raise [e] otherwise. *)
Definition check (c : bool) (e : exn) : result unit :=
  if c then Ok tt else Raise e.

(** A [for] loop whose body may raise: the state is threaded through the
    items from left to right and the first exception ends the loop. *)
Fixpoint for_each {A S : Type} (body : S -> A -> result S) (items : list A) (s : S)
  : result S :=
  match items with
  | [] => Ok s
  | x :: rest => s' <- body s x ;; for_each body rest s'
  end.

(** ** NumPy arrays *)

Module Np.

(** Items of a list paired with their position, as [enumerate] does. *)
Fixpoint enumerate_from {A : Type} (i : nat) (l : list A) : list (nat * A) :=
  match l with
  | [] => []
  | x :: rest => (i, x) :: enumerate_from (S i) rest
  end.

Definition enumerate {A : Type} (l : list A) : list (nat * A) := enumerate_from 0 l.

Fixpoint mapi_from {A B : Type} (f : nat -> A -> B) (i : nat) (l : list A) : list B :=
  match l with
  | [] => []
  | x :: rest => f i x :: mapi_from f (S i) rest
  end.

(** Rebuild a list from its items and their positions. *)
Definition mapi {A B : Type} (f : nat -> A -> B) (l : list A) : list B :=
  mapi_from f 0 l.

Definition sum (l : list Z) : Z := fold_right Z.add 0 l.

(** A two-dimensional array is the list of its rows. *)
Definition array2 (A : Type) : Type := list (list A).

Definition full {A : Type} (rows cols : nat) (v : A) : array2 A :=
  repeat (repeat v cols) rows.

Definition get (t : array2 Z) (r c : nat) : Z := nth c (nth r t []) 0.

(** [t.sum()] *)
Definition sum2 (t : array2 Z) : Z := sum (map sum t).

(** The stop (or start) of a slice over an axis of length [len]: a negative
    bound counts from the end, and the bound is clipped to the axis. *)
Definition slice_bound (len : nat) (k : Z) : nat :=
  if k <? 0 then Z.to_nat (Z.max 0 (k + Z.of_nat len))
  else Nat.min (Z.to_nat k) len.

(** An integer index into an axis of length [len]: a negative index counts
    from the end, an index outside the axis raises [IndexError]. *)
Definition index (len : nat) (k : Z) : result nat :=
  if (0 <=? k) && (k <? Z.of_nat len) then Ok (Z.to_nat k)
  else if (k <? 0) && (- Z.of_nat len <=? k) then Ok (Z.to_nat (k + Z.of_nat len))
  else Raise IndexError.

(** [t[lo:hi, c] = v] with normalised bounds [lo] and [hi]. *)
Definition set_col_range {A : Type} (t : array2 A) (lo hi c : nat) (v : A) : array2 A :=
  mapi (fun r row =>
          if (lo <=? r)%nat && (r <? hi)%nat
          then mapi (fun j x => if (j =? c)%nat then v else x) row
          else row) t.

(** [t[r, c] = v] with a normalised row index. *)
Definition set_cell {A : Type} (t : array2 A) (r c : nat) (v : A) : array2 A :=
  set_col_range t r (S r) c v.

(** [t[:hi, c].sum()] with a normalised bound [hi]. *)
Definition col_prefix_sum (t : array2 Z) (hi c : nat) : Z :=
  sum (map (fun row => nth c row 0) (firstn hi t)).

(** [row[lo:hi] = v] on one row, with normalised bounds. *)
Definition set_range {A : Type} (row : list A) (lo hi : nat) (v : A) : list A :=
  mapi (fun j x => if (lo <=? j)%nat && (j <? hi)%nat then v else x) row.

(** [row[j] = v] on one row, with a normalised index. *)
Definition set_item {A : Type} (row : list A) (j : nat) (v : A) : list A :=
  set_range row j (S j) v.

(** [a.sum()] of an array of floats *)
Definition fsum (a : list Q) : Q := fold_left Qplus a 0%Q.

(** [np.round(x)]: the nearest whole number, and of two equally near ones
    the even one. *)
Definition round (x : Q) : Q :=
  let below := Qfloor x in
  inject_Z (match (x - inject_Z below ?= 1 # 2)%Q with
            | Lt => below
            | Gt => below + 1
            | Eq => if Z.even below then below else below + 1
            end).

(** The default tolerances of [np.isclose] and [np.allclose], [1e-08] and
    [1e-05]. *)
Definition atol : Q := 1 # 100000000.
Definition rtol : Q := 1 # 100000.

(** [abs(a - b) <= atol + rtol * abs(b)] *)
Definition isclose (a b : Q) : bool := Qle_bool (Qabs (a - b)) (atol + rtol * Qabs b).

(** [np.allclose(a, b)] for two arrays of one shape *)
Definition allclose (a b : list Q) : bool :=
  forallb (fun p => isclose (fst p) (snd p)) (combine a b).

End Np.

(** [int(x)] of a float: its integer part, the rounding is towards zero. *)
Definition int (x : Q) : Z := Z.quot (Qnum x) (Z.pos (Qden x)).

(** ** Electron configurations *)

Definition MAX_LEVEL : nat := 7.
Definition MAX_ANG : nat := 4.

(** The argument [level] of [get_active_table]: an [int] or a list of them. *)
Inductive level_arg : Type :=
| LevelInt (n : Z)
| LevelVec (l : list Z).

Module ElementConfiguration.
Section WithConfiguration.

(** [pyscf.data.elements.CONFIGURATION]: for every element, the number of
    s, p, d and f electrons of its ground state.  The table belongs to the
    package this module extends, and the embedding is parametric in it. *)
Variable CONFIGURATION : list (list Z).

(** The object: the charge of the element of concern. *)
Record t : Type := Build { element : nat }.

(** [__init__].  [elements.charge] has already turned a symbol into its
    charge. *)
Definition init (elem : nat) : result t :=
  if Z.of_nat (length CONFIGURATION) - 1 <? Z.of_nat elem
  then Raise ValueError
  else Ok (Build elem).

(** [angular_num[l]], also written [2 + 4 * angular] in the source. *)
Definition angular_num (l : nat) : Z := 2 + 4 * Z.of_nat l.

(** One iteration of the loop of [get_configuration_table]. *)
Definition fill_angular (config : list Z) (table : Np.array2 Z) (angular : nat)
  : result (Np.array2 Z) :=
  match nth_error config angular with
  | None => Raise IndexError
  | Some angular_elec =>
      if angular_elec =? 0 then Ok table
      else
        let n_start := Z.of_nat angular in
        let n_end := n_start + angular_elec / angular_num angular in
        let table :=
          Np.set_col_range table
            (Np.slice_bound MAX_LEVEL n_start) (Np.slice_bound MAX_LEVEL n_end)
            angular (angular_num angular) in
        _ <- check (n_end <=? Z.of_nat MAX_LEVEL) AssertionError ;;
        if n_end <? Z.of_nat MAX_LEVEL then
          r <- Np.index MAX_LEVEL n_end ;;
          Ok (Np.set_cell table r angular (angular_elec mod angular_num angular))
        else Ok table
  end.

Definition get_configuration_table (self : t) : result (Np.array2 Z) :=
  match nth_error CONFIGURATION (element self) with
  | None => Raise IndexError
  | Some config =>
      for_each (fill_angular config) (seq 0 MAX_ANG) (Np.full MAX_LEVEL MAX_ANG 0)
  end.

(** [np.arange(MAX_LEVEL)[table[:, 0] > 0]] *)
Definition non_empty_level (table : Np.array2 Z) : list nat :=
  filter (fun r => 0 <? Np.get table r 0) (seq 0 (length table)).

(** One iteration of the loop of [get_active_table]. *)
Definition strip_angular (is_active : bool) (table : Np.array2 Z) (item : nat * Z)
  : result (Np.array2 Z) :=
  let '(angular, active) := item in
  let rows := length table in
  if negb is_active then
    let n := Np.slice_bound rows active in
    if negb (Np.col_prefix_sum table n angular mod (2 + 4 * Z.of_nat angular) =? 0)
    then Raise ValueError
    else Ok (Np.set_col_range table 0 n angular 0)
  else
    match non_empty_level table with
    | [] => Ok table
    | r :: others =>
        let non_empty_largest := Z.of_nat (fold_left Nat.max others r) in
        let freeze_level := non_empty_largest - active + 1 in
        if freeze_level <=? 0 then Ok table
        else
          let n := Np.slice_bound rows freeze_level in
          if negb (Np.col_prefix_sum table n angular mod (2 + 4 * Z.of_nat angular) =? 0)
          then Raise ValueError
          else Ok (Np.set_col_range table 0 n angular 0)
    end.

(** [get_active_table].  The list built for an [int] level is bound to a
    name that is not read again, and [len(level)] of an [int] raises. *)
Definition get_active_table (self : t) (level : level_arg) (is_active : bool)
  : result (Np.array2 Z) :=
  table <- get_configuration_table self ;;
  match level with
  | LevelInt _ => Raise TypeError
  | LevelVec level =>
      _ <- check (length level =? MAX_ANG)%nat AssertionError ;;
      _ <- check (0 <=? fold_right Z.min (hd 0 level) level) AssertionError ;;
      for_each (strip_angular is_active) (Np.enumerate level) table
  end.

Definition get_num_core_electrons (self : t) (active_level : level_arg)
           (by_valence : bool) : result Z :=
  total <- get_configuration_table self ;;
  active <- get_active_table self active_level by_valence ;;
  Ok (Np.sum2 total - Np.sum2 active).

End WithConfiguration.
End ElementConfiguration.

(** ** Frozen rules *)

Module FrozenRule.
Section WithConfiguration.

Variable CONFIGURATION : list (list Z).

(** A rule object: [active_levels] holds one row of [MAX_ANG] level counts
    per element, [is_active] tells which way the counts are read. *)
Record t : Type := Build { active_levels : Np.array2 Z; is_active : bool }.

(** [FrozenRuleBase.get_num_core] *)
Definition get_num_core (self : t) (elem : nat) : result Z :=
  cfg <- ElementConfiguration.init CONFIGURATION elem ;;
  let chrg := ElementConfiguration.element cfg in
  cfg <- ElementConfiguration.init CONFIGURATION elem ;;
  match nth_error (active_levels self) chrg with
  | None => Raise IndexError
  | Some level =>
      ElementConfiguration.get_num_core_electrons CONFIGURATION cfg
        (LevelVec level) (is_active self)
  end.

Definition idx_alk_metal : list nat := [3; 4; 11; 12; 19; 20; 37; 38; 55; 56; 87; 88]%nat.

Definition idx_transition : list nat :=
  (seq 21 10 ++ seq 39 10 ++ seq 72 9 ++ seq 104 9)%list.

Definition idx_p_main : list nat :=
  (seq 5 6 ++ seq 13 6 ++ seq 31 6 ++ seq 49 6 ++ seq 81 6 ++ seq 113 6)%list.

Definition idx_la : list nat := seq 57 15.

Definition idx_ac : list nat := seq 89 15.

Definition idx_p_metal_loid : list nat :=
  [5; 13; 14; 31; 32; 33; 49; 50; 51; 52; 81; 82; 83; 84; 113; 114; 115; 116]%nat.

(** [np.zeros((len(CONFIGURATION), MAX_ANG), dtype=int)] *)
Definition zeros : Np.array2 Z := Np.full (length CONFIGURATION) MAX_ANG 0.

(** [levels[idx] = v] for a list of row indices: an index beyond the last
    row raises. *)
Definition assign_rows (levels : Np.array2 Z) (idx : list nat) (v : list Z)
  : result (Np.array2 Z) :=
  if forallb (fun i => (i <? length levels)%nat) idx
  then Ok (Np.mapi (fun i row => if existsb (Nat.eqb i) idx then v else row) levels)
  else Raise IndexError.

(** [levels[lo:hi] = v] for a slice of rows: the slice is clipped. *)
Definition assign_slice (levels : Np.array2 Z) (lo hi : nat) (v : list Z) : Np.array2 Z :=
  Np.mapi (fun i row => if (lo <=? i)%nat && (i <? hi)%nat then v else row) levels.

(** [levels[:] = v] *)
Definition assign_all (levels : Np.array2 Z) (v : list Z) : Np.array2 Z :=
  map (fun _ => v) levels.

(** [define_active_levels] of every rule class. *)

Definition FrozenRuleNone : t := Build zeros false.

Definition FrozenRuleORCA : result t :=
  let levels := assign_slice zeros 0 3 [1; 1; 1; 1] in
  levels <- assign_rows levels idx_alk_metal [2; 2; 3; 3] ;;
  levels <- assign_rows levels idx_la [2; 2; 3; 3] ;;
  levels <- assign_rows levels idx_ac [2; 2; 3; 3] ;;
  levels <- assign_rows levels idx_transition [2; 2; 2; 3] ;;
  levels <- assign_rows levels idx_p_main [1; 1; 2; 2] ;;
  Ok (Build (assign_slice levels 104 113 [1; 1; 2; 2]) true).

Definition FrozenRuleNobleGasCore : t := Build (assign_all zeros [1; 1; 2; 3]) true.

Definition FrozenRuleInnerNobleGasCore : t := Build (assign_all zeros [2; 2; 3; 4]) true.

Definition FrozenRuleSmallCore : result t :=
  let levels := assign_all zeros [1; 1; 2; 3] in
  levels <- assign_rows levels idx_alk_metal [2; 2; 2; 3] ;;
  Ok (Build (assign_slice levels 3 5 [1; 1; 2; 3]) true).

Definition FrozenRuleLargeCore : result t :=
  let levels := assign_all zeros [1; 1; 2; 3] in
  levels <- assign_rows levels idx_p_main [1; 1; 1; 2] ;;
  levels <- assign_rows levels idx_transition [1; 1; 2; 2] ;;
  Ok (Build levels true).

(** The registry [FrozenRules].  It is built when the module is loaded, in
    the order of the dictionary display; an exception there leaves no
    registry. *)
Definition FrozenRules : result (list (string * t)) :=
  orca1 <- FrozenRuleORCA ;;
  orca2 <- FrozenRuleORCA ;;
  small <- FrozenRuleSmallCore ;;
  large <- FrozenRuleLargeCore ;;
  Ok [ ("none"%string, FrozenRuleNone);
       ("pyscf"%string, orca1);
       ("orca"%string, orca2);
       ("freezenoblegascore"%string, FrozenRuleNobleGasCore);
       ("freezeinnernoblegascore"%string, FrozenRuleInnerNobleGasCore);
       ("smallcore"%string, small);
       ("largecore"%string, large) ].

End WithConfiguration.
End FrozenRule.

(** ** The selection of frozen orbitals *)

(** An array of one or of two dimensions. *)
Inductive ndarray (A : Type) : Type :=
| Arr1 (items : list A)
| Arr2 (rows : list (list A)).

Arguments Arr1 {A} items.
Arguments Arr2 {A} rows.

(** [a.shape] *)
Definition shape {A : Type} (a : ndarray A) : list nat :=
  match a with
  | Arr1 items => [length items]
  | Arr2 rows => [length rows; length (hd [] rows)]
  end.

(** What the module reads of a [gto.Mole]: for every atom the pair of
    [mol.atom_charge(idx)] and [elements.charge(mol.atom_symbol(idx))], and
    the number of electrons of the molecule. *)
Record Mole : Type := {
  atoms : list (Z * nat);
  nelectron : Z
}.

(** An item of a tuple given as rule. *)
Inductive tuple_item : Type :=
| TInt (n : Z)
| TStr (s : string)
| TOther.

(** The rule of one atom: a rule name, a rule object, a pair of integers, or
    a value of another type. *)
Inductive atom_rule : Type :=
| AtomStr (s : string)
| AtomObj (r : FrozenRule.t)
| AtomPair (occ vir : Z)
| AtomOther.

(** The forms of the attribute [rule]. *)
Inductive rule_spec : Type :=
| RuleNone
| RuleList (l : list Z)
| RuleLists (l : list (list Z))
| RuleArray (a : list Z)
| RuleTuple (items : list tuple_item)
| RuleDict (d : list (nat * atom_rule))
| RuleStr (s : string)
| RuleObj (r : FrozenRule.t)
| RuleInt (n : Z).

(** [rule_atom.lower()] followed by [re.sub("[-_ ]", "", _)], on ASCII. *)
Definition lower_ascii (c : ascii) : ascii :=
  let n := nat_of_ascii c in
  if (65 <=? n)%nat && (n <=? 90)%nat then ascii_of_nat (n + 32) else c.

Fixpoint normalize_name (s : string) : string :=
  match s with
  | EmptyString => EmptyString
  | String c rest =>
      let c := lower_ascii c in
      if (Ascii.eqb c "-" || Ascii.eqb c "_" || Ascii.eqb c " ")%bool
      then normalize_name rest
      else String c (normalize_name rest)
  end.

(** [d[key]] on the items of a dictionary in insertion order: the last
    binding of a key is the one the dictionary holds. *)
Fixpoint dict_get {K V : Type} (eqb : K -> K -> bool) (d : list (K * V)) (key : K)
  : result V :=
  match d with
  | [] => Raise KeyError
  | (k, v) :: rest =>
      match dict_get eqb rest key with
      | Ok v' => Ok v'
      | Raise _ => if eqb k key then Ok v else Raise KeyError
      end
  end.

(** Ascending sort by the order [leb], as [ndarray.sort] along the last
    axis. *)
Fixpoint insert_sorted {A : Type} (leb : A -> A -> bool) (x : A) (l : list A) : list A :=
  match l with
  | [] => [x]
  | y :: rest => if leb x y then x :: l else y :: insert_sorted leb x rest
  end.

Definition sort {A : Type} (leb : A -> A -> bool) (l : list A) : list A :=
  fold_right (insert_sorted leb) [] l.

Definition list_eqb {A : Type} (eqb : A -> A -> bool) (l1 l2 : list A) : bool :=
  (length l1 =? length l2)%nat && forallb (fun p => eqb (fst p) (snd p)) (combine l1 l2).

Module FrozenCore.
Section WithConfiguration.

Variable CONFIGURATION : list (list Z).

(** The attributes of a [FrozenCore] object.  The occupation numbers are
    floats; of the orbital energies only the shape is kept, which is all
    that is read of them before the rule is dispatched.  The sentinel
    [NotImplemented] of the two derived attributes is [None]. *)
Record t : Type := Build {
  mol : Mole;
  mo_occ : ndarray Q;
  mo_energy : option (list nat);
  rule : rule_spec;
  ecp_only : bool;
  _mask : option (ndarray bool);
  _frozen : option (ndarray nat)
}.

(** [__init__] *)
Definition init (mol : Mole) (mo_occ : ndarray Q) (rule : rule_spec)
           (ecp_only : bool) (mo_energy : option (list nat)) : t :=
  Build mol mo_occ mo_energy rule ecp_only None None.

Definition reset (self : t) : t :=
  Build (mol self) (mo_occ self) (mo_energy self) (rule self) (ecp_only self) None None.

(** The occupation numbers with two dimensions. *)
Definition rows_of {A : Type} (a : ndarray A) : list (list A) :=
  match a with
  | Arr1 items => [items]
  | Arr2 rows => rows
  end.

(** [a.ndim] *)
Definition ndim {A : Type} (a : ndarray A) : nat := length (shape a).

(** [np.allclose(mo_occ_sorted[..., ::-1], self.mo_occ)] on one row, where
    [mo_occ_sorted] is the row in ascending order *)
Definition sorted_descending (row : list Q) : bool :=
  Np.allclose (rev (sort Qle_bool row)) row.

(** [check_sanity].  An array of this embedding has one or two dimensions,
    so that the first assertion holds of every array that can be written
    down here. *)
Definition check_sanity (self : t) : result unit :=
  _ <- check ((ndim (mo_occ self) =? 1)%nat || (ndim (mo_occ self) =? 2)%nat)
         AssertionError ;;
  _ <- check (Qeq_bool (Np.fsum (concat (rows_of (mo_occ self))))
                       (inject_Z (nelectron (mol self)))) AssertionError ;;
  _ <- match mo_energy self with
       | Some energy_shape =>
           check (list_eqb Nat.eqb (shape (mo_occ self)) energy_shape) AssertionError
       | None => Ok tt
       end ;;
  _ <- check (forallb (fun row => Np.allclose (map Np.round row) row)
                      (rows_of (mo_occ self))) AssertionError ;;
  check (forallb sorted_descending (rows_of (mo_occ self))) AssertionError.

(** The frozen numbers of one atom as its rule gives them, before the
    electrons of a pseudopotential are taken into account. *)
Definition rule_numbers (rule_atom : atom_rule) (nchrg : nat) : result (Z * Z) :=
  match rule_atom with
  | AtomStr name =>
      registry <- FrozenRule.FrozenRules CONFIGURATION ;;
      r <- dict_get String.eqb registry (normalize_name name) ;;
      f_occ_atom <- FrozenRule.get_num_core CONFIGURATION r nchrg ;;
      Ok (f_occ_atom, 0)
  | AtomObj r =>
      f_occ_atom <- FrozenRule.get_num_core CONFIGURATION r nchrg ;;
      Ok (f_occ_atom, 0)
  | AtomPair occ vir => Ok (occ, vir)
  | AtomOther => Ok (0, 0)
  end.

(** The rule of the atom of charge [nchrg]. *)
Definition rule_of_atom (rule : rule_spec) (nchrg : nat) : result atom_rule :=
  match rule with
  | RuleDict d => dict_get Nat.eqb d nchrg
  | RuleStr s => Ok (AtomStr s)
  | RuleObj r => Ok (AtomObj r)
  | _ => Ok AtomOther
  end.

(** The body of the loop of [parse_frozen_numbers]. *)
Definition add_atom (rule : rule_spec) (ecp_only : bool) (acc : Z * Z) (atom : Z * nat)
  : result (Z * Z) :=
  let '(f_occ, f_vir) := acc in
  let '(nelec, nchrg) := atom in
  let is_ecp := negb (nelec =? Z.of_nat nchrg) in
  rule_atom <- rule_of_atom rule nchrg ;;
  numbers <- rule_numbers rule_atom nchrg ;;
  let '(f_occ_atom, f_vir_atom) := numbers in
  let f_occ_atom :=
    if is_ecp && ecp_only then 0
    else if is_ecp then f_occ_atom - Z.min f_occ_atom (Z.of_nat nchrg - nelec)
    else f_occ_atom in
  Ok (f_occ + f_occ_atom, f_vir + f_vir_atom).

Definition parse_frozen_numbers (mol : Mole) (rule : rule_spec) (ecp_only : bool)
  : result (Z * Z) :=
  match rule with
  | RuleNone => Ok (0, 0)
  | RuleTuple items =>
      match items with
      | [TInt occ; TInt vir] => Ok (occ, vir)
      | _ => Raise AssertionError
      end
  | _ => for_each (add_atom rule ecp_only) (atoms mol) (0, 0)
  end.

(** [np.max(mo_occ)], which raises on an array without items. *)
Definition np_max (rows : list (list Q)) : result Q :=
  match concat rows with
  | [] => Raise ValueError
  | x :: rest => Ok (fold_left (fun m y => if Qle_bool m y then y else m) rest x)
  end.

Definition parse_active_mask_by_elec (mo_occ : list (list Q)) (f_occ f_vir : Z)
  : result (list (list bool)) :=
  max_occ <- np_max mo_occ ;;
  let orb_elec := int max_occ in
  let nset := Z.of_nat (length mo_occ) in
  let nmo := length (hd [] mo_occ) in
  _ <- check (negb (nset * orb_elec =? 0)) ZeroDivisionError ;;
  if negb ((f_occ mod (nset * orb_elec) =? 0) && (f_vir mod (nset * orb_elec) =? 0))
  then Raise ValueError
  else
    let n_occ_frz := f_occ / (nset * orb_elec) in
    let n_vir_frz := f_vir / (nset * orb_elec) in
    let mask := Np.full (length mo_occ) nmo true in
    let mask := map (fun row => Np.set_range row 0 (Np.slice_bound nmo n_occ_frz) false) mask in
    if 0 <? n_vir_frz
    then Ok (map (fun row => Np.set_range row (Np.slice_bound nmo (- n_vir_frz)) nmo false) mask)
    else Ok mask.

(** [row[arr] = False] for a list of indices, each of which is normalised. *)
Definition clear_items (nmo : nat) (arr : list Z) (row : list bool) : result (list bool) :=
  for_each (fun row k => j <- Np.index nmo k ;; Ok (Np.set_item row j false)) arr row.

(** [for i, arr_i in enumerate(arr): mask[i, arr_i] = False] *)
Fixpoint clear_rows (nmo : nat) (arr : list (list Z)) (mask : list (list bool))
  : result (list (list bool)) :=
  match arr, mask with
  | arr_i :: arr', row :: mask' =>
      row <- clear_items nmo arr_i row ;;
      mask' <- clear_rows nmo arr' mask' ;;
      Ok (row :: mask')
  | _, _ => Ok mask
  end.

(** [mask.shape = self.mo_occ.shape] *)
Definition reshape_like {A B : Type} (a : ndarray A) (rows : list (list B)) : ndarray B :=
  match a with
  | Arr1 _ => Arr1 (concat rows)
  | Arr2 _ => Arr2 rows
  end.

Definition get_active_mask (self : t) : result (ndarray bool) :=
  _ <- check_sanity self ;;
  let nset := match mo_occ self with Arr2 rows => length rows | Arr1 _ => 1%nat end in
  let nmo := match mo_occ self with
             | Arr2 rows => length (hd [] rows)
             | Arr1 items => length items
             end in
  let mo_occ2 := rows_of (mo_occ self) in
  _ <- match mo_energy self with
       | Some energy_shape =>
           let energy_shape :=
             match energy_shape with
             | [n] => [n]
             | dims => [1%nat; fold_right Nat.mul 1%nat dims]
             end in
           check (list_eqb Nat.eqb [nset; nmo] energy_shape) AssertionError
       | None => Ok tt
       end ;;
  let mask := Np.full nset nmo true in
  mask <-
    match rule self with
    | RuleList [] | RuleLists [] => Raise IndexError
    | RuleList arr =>
        (* one list of frozen orbitals *)
        for_each (fun mask k =>
                    j <- Np.index nmo k ;;
                    Ok (map (fun row => Np.set_item row j false) mask)) arr mask
    | RuleLists arr =>
        (* one list of frozen orbitals per occupation set *)
        _ <- check (length arr =? nset)%nat AssertionError ;;
        clear_rows nmo arr mask
    | RuleTuple [] => Raise IndexError
    | RuleTuple _ =>
        (* [isinstance(self.rule[0], "str")]: the second argument is a
           string, not a type *)
        Raise TypeError
    | rule =>
        (* rule-based frozen core; [list or np.ndarray] is [list], so an
           array of indices comes here as well *)
        numbers <- parse_frozen_numbers (mol self) rule (ecp_only self) ;;
        parse_active_mask_by_elec mo_occ2 (fst numbers) (snd numbers)
    end ;;
  Ok (reshape_like (mo_occ self) mask).

(** The property [mask]. *)
Definition mask (self : t) : result (ndarray bool) * t :=
  match _mask self with
  | Some m => (Ok m, self)
  | None =>
      match get_active_mask self with
      | Ok m =>
          (Ok m, Build (mol self) (mo_occ self) (mo_energy self) (rule self)
                       (ecp_only self) (Some m) (_frozen self))
      | Raise e => (Raise e, self)
      end
  end.

(** [np.arange(len(row))[row]] *)
Definition where_true (row : list bool) : list nat :=
  map fst (filter snd (Np.enumerate row)).

Definition frozen (self : t) : result (ndarray nat) * t :=
  match _frozen self with
  | Some f => (Ok f, self)
  | None =>
      match mask self with
      | (Ok m, self) =>
          let frozen := match m with
                        | Arr1 items => Arr1 (where_true items)
                        | Arr2 rows => Arr2 (map where_true rows)
                        end in
          (Ok frozen, Build (mol self) (mo_occ self) (mo_energy self) (rule self)
                            (ecp_only self) (_mask self) (Some frozen))
      | (Raise e, self) => (Raise e, self)
      end
  end.

End WithConfiguration.
End FrozenCore.

(** ** A table of ground-state configurations

    The numbers of s, p, d and f electrons of the ground states of the
    elements 0 (a ghost atom) to 118, in the layout of [CONFIGURATION]; the
    row of element [Z] holds [Z] electrons.  It instantiates the parameter
    of the embedding wherever a concrete table is needed. *)
Definition ground_state_configuration : list (list Z) :=
  [
    [0; 0; 0; 0];
    [1; 0; 0; 0];
    [2; 0; 0; 0];
    [3; 0; 0; 0];
    [4; 0; 0; 0];
    [4; 1; 0; 0];
    [4; 2; 0; 0];
    [4; 3; 0; 0];
    [4; 4; 0; 0];
    [4; 5; 0; 0];
    [4; 6; 0; 0];
    [5; 6; 0; 0];
    [6; 6; 0; 0];
    [6; 7; 0; 0];
    [6; 8; 0; 0];
    [6; 9; 0; 0];
    [6; 10; 0; 0];
    [6; 11; 0; 0];
    [6; 12; 0; 0];
    [7; 12; 0; 0];
    [8; 12; 0; 0];
    [8; 12; 1; 0];
    [8; 12; 2; 0];
    [8; 12; 3; 0];
    [7; 12; 5; 0];
    [8; 12; 5; 0];
    [8; 12; 6; 0];
    [8; 12; 7; 0];
    [8; 12; 8; 0];
    [7; 12; 10; 0];
    [8; 12; 10; 0];
    [8; 13; 10; 0];
    [8; 14; 10; 0];
    [8; 15; 10; 0];
    [8; 16; 10; 0];
    [8; 17; 10; 0];
    [8; 18; 10; 0];
    [9; 18; 10; 0];
    [10; 18; 10; 0];
    [10; 18; 11; 0];
    [10; 18; 12; 0];
    [9; 18; 14; 0];
    [9; 18; 15; 0];
    [10; 18; 15; 0];
    [9; 18; 17; 0];
    [9; 18; 18; 0];
    [8; 18; 20; 0];
    [9; 18; 20; 0];
    [10; 18; 20; 0];
    [10; 19; 20; 0];
    [10; 20; 20; 0];
    [10; 21; 20; 0];
    [10; 22; 20; 0];
    [10; 23; 20; 0];
    [10; 24; 20; 0];
    [11; 24; 20; 0];
    [12; 24; 20; 0];
    [12; 24; 21; 0];
    [12; 24; 21; 1];
    [12; 24; 20; 3];
    [12; 24; 20; 4];
    [12; 24; 20; 5];
    [12; 24; 20; 6];
    [12; 24; 20; 7];
    [12; 24; 21; 7];
    [12; 24; 21; 8];
    [12; 24; 20; 10];
    [12; 24; 20; 11];
    [12; 24; 20; 12];
    [12; 24; 20; 13];
    [12; 24; 20; 14];
    [12; 24; 21; 14];
    [12; 24; 22; 14];
    [12; 24; 23; 14];
    [12; 24; 24; 14];
    [12; 24; 25; 14];
    [12; 24; 26; 14];
    [12; 24; 27; 14];
    [11; 24; 29; 14];
    [11; 24; 30; 14];
    [12; 24; 30; 14];
    [12; 25; 30; 14];
    [12; 26; 30; 14];
    [12; 27; 30; 14];
    [12; 28; 30; 14];
    [12; 29; 30; 14];
    [12; 30; 30; 14];
    [13; 30; 30; 14];
    [14; 30; 30; 14];
    [14; 30; 31; 14];
    [14; 30; 32; 14];
    [14; 30; 31; 16];
    [14; 30; 31; 17];
    [14; 30; 31; 18];
    [14; 30; 30; 20];
    [14; 30; 30; 21];
    [14; 30; 31; 21];
    [14; 30; 31; 22];
    [14; 30; 30; 24];
    [14; 30; 30; 25];
    [14; 30; 30; 26];
    [14; 30; 30; 27];
    [14; 30; 30; 28];
    [14; 30; 31; 28];
    [14; 30; 32; 28];
    [14; 30; 33; 28];
    [14; 30; 34; 28];
    [14; 30; 35; 28];
    [14; 30; 36; 28];
    [14; 30; 37; 28];
    [14; 30; 38; 28];
    [14; 30; 39; 28];
    [14; 30; 40; 28];
    [14; 31; 40; 28];
    [14; 32; 40; 28];
    [14; 33; 40; 28];
    [14; 34; 40; 28];
    [14; 35; 40; 28];
    [14; 36; 40; 28]
  ].

(** ** Definitions used by the statements *)

(** The table whose cell of level [r] and angular momentum [c] is [g r c]. *)
Definition tab (g : nat -> nat -> Z) : Np.array2 Z :=
  map (fun r => map (g r) (seq 0 MAX_ANG)) (seq 0 MAX_LEVEL).

(** The cell of level [r] in the column of angular momentum [c] that holds
    [e] electrons: full levels from level [c] on, then the remainder. *)
Definition config_cell (c : nat) (e : Z) (r : nat) : Z :=
  if e =? 0 then 0
  else
    let n_end := Z.of_nat c + e / ElementConfiguration.angular_num c in
    if (c <=? r)%nat && (Z.of_nat r <? n_end) then ElementConfiguration.angular_num c
    else if Z.of_nat r =? n_end then e mod ElementConfiguration.angular_num c
    else 0.

(** A row of [CONFIGURATION] fits the table: it has one entry per angular
    momentum, and column [c] holds no more electrons than the levels [c] to
    [MAX_LEVEL - 1] admit. *)
Definition row_fits (row : list Z) : bool :=
  (length row =? MAX_ANG)%nat &&
  forallb (fun item : nat * Z =>
             let (c, e) := item in
             (0 <=? e) && (e <=? (Z.of_nat MAX_LEVEL - Z.of_nat c) * ElementConfiguration.angular_num c))
          (Np.enumerate row).

(** [CONFIGURATION] covers the elements 0 to 118 and every row fits. *)
Definition table_fits (CONFIGURATION : list (list Z)) : bool :=
  (length CONFIGURATION =? 119)%nat && forallb row_fits CONFIGURATION.

(** The electrons an element has according to [CONFIGURATION]. *)
Definition canonical_electron_count (CONFIGURATION : list (list Z)) (element : nat) : Z :=
  Np.sum (nth element CONFIGURATION []).

(** The highest level of column [col] that holds electrons, if there is one. *)
Definition highest_nonempty_level (table : Np.array2 Z) (col : nat) : option nat :=
  match filter (fun r => 0 <? Np.get table r col) (seq 0 (length table)) with
  | [] => None
  | r :: others => Some (fold_left Nat.max others r)
  end.

(** The cut point of a column that keeps its top [N] levels, counted from
    the highest nonempty level of the column [ref]; without such a level
    nothing lies below the cut. *)
Definition cut_point (table : Np.array2 Z) (ref : nat) (N : Z) : Z :=
  match highest_nonempty_level table ref with
  | None => 0
  | Some h => Z.of_nat h - N + 1
  end.

(** The table with every cell below the cut of its column set to zero. *)
Definition zero_below (table : Np.array2 Z) (cut : nat -> Z) : Np.array2 Z :=
  Np.mapi (fun r row => Np.mapi (fun c x => if Z.of_nat r <? cut c then 0 else x) row) table.

(** The electrons of column [c] below the cut. *)
Definition below_cut_sum (table : Np.array2 Z) (cut : Z) (c : nat) : Z :=
  Np.sum (map (fun r => if Z.of_nat r <? cut then Np.get table r c else 0)
              (seq 0 (length table))).

(** The active table for given cut points: the cells below the cuts are
    zeroed, provided that what is stripped from every column is a whole
    number of shells. *)
Definition active_table_with_cuts (table : Np.array2 Z) (cut : nat -> Z)
  : result (Np.array2 Z) :=
  if forallb (fun c => (cut c <=? 0)
                       || (below_cut_sum table (cut c) c mod (2 + 4 * Z.of_nat c) =? 0))
             (seq 0 MAX_ANG)
  then Ok (zero_below table cut)
  else Raise ValueError.

(** The reading in which every column is cut relative to its own highest
    nonempty level. *)
Definition active_table_own_column (table : Np.array2 Z) (level : list Z)
  : result (Np.array2 Z) :=
  active_table_with_cuts table (fun c => cut_point table c (nth c level 0)).

(** The reading in which every column is cut relative to the highest
    nonempty level of the s column. *)
Definition active_table_s_column (table : Np.array2 Z) (level : list Z)
  : result (Np.array2 Z) :=
  active_table_with_cuts table (fun c => cut_point table 0 (nth c level 0)).

(** A rule reaches the loop over the atoms of [parse_frozen_numbers] unless
    it is [None] or a tuple. *)
Definition resolved_per_atom (rule : rule_spec) : bool :=
  match rule with
  | RuleNone | RuleTuple _ => false
  | _ => true
  end.

(** Add [d] to the frozen numbers of a result. *)
Definition shift (d : Z * Z) (r : result (Z * Z)) : result (Z * Z) :=
  match r with
  | Ok (F, V) => Ok (F + fst d, V + snd d)
  | Raise e => Raise e
  end.

(** Molecules of the examples: a beryllium atom, a water molecule, and the
    molecule of the self-test of the module, whose iodine atom has a
    pseudopotential for 28 of its 53 electrons. *)
Definition beryllium : Mole := {| atoms := [(4, 4%nat)]; nelectron := 4 |}.

Definition water : Mole :=
  {| atoms := [(8, 8%nat); (1, 1%nat); (1, 1%nat)]; nelectron := 10 |}.

Definition hypoiodous_acid : Mole :=
  {| atoms := [(25, 53%nat); (1, 1%nat); (8, 8%nat)]; nelectron := 34 |}.

(** The numbers of core electrons of the elements 0 to 118 for a rule. *)
Definition core_electrons (CONFIGURATION : list (list Z)) (rule : result FrozenRule.t)
  : result (list (result Z)) :=
  r <- rule ;; Ok (map (FrozenRule.get_num_core CONFIGURATION r) (seq 0 119)).

(** The numbers of core electrons that the documentation of the rule classes
    displays, in the order of the atomic numbers. *)
Definition documented_ORCA : list Z :=
  [
    0; 0; 0; 0; 0; 2; 2; 2; 2; 2; 2; 2; 2; 10; 10; 10; 10; 10; 10; 10; 10; 10;
    10; 10; 10; 10; 10; 10; 10; 10; 10; 18; 18; 18; 18; 18; 18; 18; 18; 28;
    28; 28; 28; 28; 28; 28; 10; 28; 28; 36; 36; 36; 36; 36; 36; 36; 36; 36;
    36; 36; 36; 36; 36; 36; 36; 36; 36; 36; 36; 36; 36; 36; 46; 46; 46; 46;
    46; 46; 46; 46; 46; 68; 68; 68; 68; 68; 68; 68; 68; 68; 68; 68; 68; 68;
    68; 68; 68; 68; 68; 68; 68; 68; 68; 68; 100; 100; 100; 100; 100; 100; 100;
    100; 100; 100; 100; 100; 100; 100; 100
  ].

Definition documented_NobleGasCore : list Z :=
  [
    0; 0; 0; 2; 2; 2; 2; 2; 2; 2; 2; 10; 10; 10; 10; 10; 10; 10; 10; 18; 18;
    18; 18; 18; 18; 18; 18; 18; 18; 18; 18; 18; 18; 18; 18; 18; 18; 36; 36;
    36; 36; 36; 36; 36; 36; 36; 18; 36; 36; 36; 36; 36; 36; 36; 36; 54; 54;
    54; 54; 54; 54; 54; 54; 54; 54; 54; 54; 54; 54; 54; 54; 54; 54; 54; 54;
    54; 54; 54; 54; 54; 54; 54; 54; 54; 54; 54; 54; 86; 86; 86; 86; 86; 86;
    86; 86; 86; 86; 86; 86; 86; 86; 86; 86; 86; 86; 86; 86; 86; 86; 86; 86;
    86; 86; 86; 86; 86; 86; 86; 86
  ].

Definition documented_InnerNobleGasCore : list Z :=
  [
    0; 0; 0; 0; 0; 0; 0; 0; 0; 0; 0; 2; 2; 2; 2; 2; 2; 2; 2; 10; 10; 10; 10;
    10; 10; 10; 10; 10; 10; 10; 10; 10; 10; 10; 10; 10; 10; 18; 18; 18; 18;
    18; 18; 18; 18; 18; 10; 18; 18; 18; 18; 18; 18; 18; 18; 36; 36; 36; 36;
    36; 36; 36; 36; 36; 36; 36; 36; 36; 36; 36; 36; 36; 36; 36; 36; 36; 36;
    36; 36; 36; 36; 36; 36; 36; 36; 36; 36; 54; 54; 54; 54; 54; 54; 54; 54;
    54; 54; 54; 54; 54; 54; 54; 54; 54; 54; 54; 54; 54; 54; 54; 54; 54; 54;
    54; 54; 54; 54; 54; 54
  ].

Definition documented_SmallCore : list Z :=
  [
    0; 0; 0; 2; 2; 2; 2; 2; 2; 2; 2; 2; 2; 10; 10; 10; 10; 10; 10; 10; 10; 18;
    18; 18; 18; 18; 18; 18; 18; 18; 18; 18; 18; 18; 18; 18; 18; 28; 28; 36;
    36; 36; 36; 36; 36; 36; 18; 36; 36; 36; 36; 36; 36; 36; 36; 46; 46; 54;
    54; 54; 54; 54; 54; 54; 54; 54; 54; 54; 54; 54; 54; 54; 54; 54; 54; 54;
    54; 54; 54; 54; 54; 54; 54; 54; 54; 54; 54; 78; 78; 86; 86; 86; 86; 86;
    86; 86; 86; 86; 86; 86; 86; 86; 86; 86; 86; 86; 86; 86; 86; 86; 86; 86;
    86; 86; 86; 86; 86; 86; 86
  ].

Definition documented_LargeCore : list Z :=
  [
    0; 0; 0; 2; 2; 2; 2; 2; 2; 2; 2; 10; 10; 10; 10; 10; 10; 10; 10; 18; 18;
    18; 18; 18; 18; 18; 18; 18; 18; 18; 18; 28; 28; 28; 28; 28; 28; 36; 36;
    36; 36; 36; 36; 36; 36; 36; 18; 36; 36; 46; 46; 46; 46; 46; 46; 54; 54;
    54; 54; 54; 54; 54; 54; 54; 54; 54; 54; 54; 54; 54; 54; 54; 68; 68; 68;
    68; 68; 68; 68; 68; 68; 78; 78; 78; 78; 78; 78; 86; 86; 86; 86; 86; 86;
    86; 86; 86; 86; 86; 86; 86; 86; 86; 86; 86; 100; 100; 100; 100; 100; 100;
    100; 100; 100; 110; 110; 110; 110; 110; 110
  ].

(** Occupation arrays of the examples: a closed shell of five doubly
    occupied orbitals out of seven, and an open shell of five orbitals with
    three and two electrons. *)
Definition closed_shell_occ : list (list Q) := [[2; 2; 2; 2; 2; 0; 0]]%Q.

Definition open_shell_occ : list (list Q) := [[1; 1; 1; 0; 0]; [1; 1; 0; 0; 0]]%Q.

(** [m] is the largest item of [l]. *)
Definition largest (m : Q) (l : list Q) : Prop :=
  In m l /\ Forall (fun x => (x <= m)%Q) l.

(** [n] is the integer part of [x]: the whole number next to [x] on the
    side of zero. *)
Definition integer_part (x : Q) (n : Z) : Prop :=
  ((0 <= x)%Q -> (inject_Z n <= x)%Q /\ (x < inject_Z n + 1)%Q) /\
  ((x <= 0)%Q -> (inject_Z n - 1 < x)%Q /\ (x <= inject_Z n)%Q).

(** [n] is a whole multiple of [d], for a capacity [d] that need not be a
    whole number. *)
Definition evenly_divisible (n : Z) (d : Q) : Prop :=
  exists k : Z, (inject_Z n == inject_Z k * d)%Q.

(** Occupation numbers that are close to whole numbers without being
    whole, four electrons in two orbitals: 2 + 2^-17 and 2 - 2^-17, which a
    float holds exactly. *)
Definition nearly_whole_occ : list (list Q) := [[262145 # 131072; 262143 # 131072]]%Q.

(** ** Further definitions used by the statements *)

(** A row of occupation numbers never rises from one orbital to the next. *)
Definition non_increasing (row : list Z) : Prop := Sorted (fun a b => b <= a) row.

(** Every row has [n] entries. *)
Definition rows_have {A : Type} (n : nat) (rows : list (list A)) : Prop :=
  Forall (fun row => length row = n) rows.

(** The object without its orbital energies. *)
Definition without_energy (self : FrozenCore.t) : FrozenCore.t :=
  FrozenCore.Build (FrozenCore.mol self) (FrozenCore.mo_occ self) None
    (FrozenCore.rule self) (FrozenCore.ecp_only self)
    (FrozenCore._mask self) (FrozenCore._frozen self).

(** An index is within an axis of length [nmo], counting from either end. *)
Definition in_axis (nmo : nat) (k : Z) : Prop := - Z.of_nat nmo <= k < Z.of_nat nmo.

(** The row with the listed orbitals cleared. *)
Definition clear_all (nmo : nat) (l : list Z) (row : list bool) : list bool :=
  fold_left (fun row k => match Np.index nmo k with
                          | Ok j => Np.set_item row j false
                          | Raise _ => row
                          end) l row.

(** The keys of the registry [FrozenRules]. *)
Definition registry_names : list string :=
  ["none"; "pyscf"; "orca"; "freezenoblegascore"; "freezeinnernoblegascore";
   "smallcore"; "largecore"]%string.

(** The characters that the lookup of a rule name removes. *)
Definition is_separator (c : ascii) : bool :=
  (Ascii.eqb c "-" || Ascii.eqb c "_" || Ascii.eqb c " ")%bool.

(** The rules that reach the loop over the atoms of [parse_frozen_numbers]
    and match none of its cases. *)
Definition untyped_rule (rule : rule_spec) : bool :=
  match rule with
  | RuleList _ | RuleLists _ | RuleArray _ | RuleInt _ => true
  | _ => false
  end.

(** The rules that [get_active_mask] resolves to numbers of frozen
    electrons, in its last branch. *)
Definition rule_based (rule : rule_spec) : bool :=
  match rule with
  | RuleList _ | RuleLists _ | RuleTuple _ => false
  | _ => true
  end.

(** The groups of elements of [FrozenRuleBase], one after the other. *)
Definition element_groups : list nat :=
  (FrozenRule.idx_alk_metal ++ FrozenRule.idx_transition ++ FrozenRule.idx_p_main
   ++ FrozenRule.idx_la ++ FrozenRule.idx_ac)%list.

(** The levels of a rule: one row of four non-negative entries per element,
    with at least one s level where the rule counts active levels. *)
Definition levels_well_formed (r : FrozenRule.t) : bool :=
  (length (FrozenRule.active_levels r) =? 119)%nat &&
  forallb (fun row => (length row =? 4)%nat && forallb (Z.leb 0) row
                      && (negb (FrozenRule.is_active r) || (1 <=? hd 0 row)))
          (FrozenRule.active_levels r).

(** Further examples: a boron atom, a bare proton, and the selections used
    with beryllium and water. *)
Definition boron : Mole := {| atoms := [(5, 5%nat)]; nelectron := 5 |}.

Definition proton : Mole := {| atoms := [(0, 1%nat)]; nelectron := 0 |}.

Definition beryllium_frozen_list : FrozenCore.t :=
  FrozenCore.init beryllium (Arr1 [2; 2; 0]%Q) (RuleList [0]) false None.

Definition beryllium_frozen_list_done : FrozenCore.t :=
  FrozenCore.Build beryllium (Arr1 [2; 2; 0]%Q) None (RuleList [0]) false
    (Some (Arr1 [false; true; true])) (Some (Arr1 [1; 2]%nat)).

Definition water_noble_gas_core : FrozenCore.t :=
  FrozenCore.init water (Arr1 [2; 2; 2; 2; 2; 0; 0]%Q) (RuleStr "FreezeNobleGasCore") false None.

(** ** Orbital counts and the reshuffling of orbitals (pyscf/dh/energy/rdhbase.py)

    The methods of [RDHBase] that read the mask of active orbitals.  The
    mask itself comes from [util.parse_frozen_list], the numbers of orbitals
    and of occupied orbitals from the mean-field object and the molecule;
    the three are fields of the object here. *)

Module RDHBase.

Record t : Type := Build {
  mask_act : list bool;
  nmo : nat;
  nocc : nat
}.

(** [a.sum()] of a boolean array *)
Definition count_true (a : list bool) : nat := length (filter (fun b => b) a).

(** [nCore]: [(~mask_act[:self.nocc]).sum()] *)
Definition nCore (self : t) : nat := count_true (map negb (firstn (nocc self) (mask_act self))).

(** [nOcc]: [mask_act[:self.nocc].sum()] *)
Definition nOcc (self : t) : nat := count_true (firstn (nocc self) (mask_act self)).

(** [nVir]: [mask_act[self.nocc:].sum()] *)
Definition nVir (self : t) : nat := count_true (skipn (nocc self) (mask_act self)).

(** [nFrzvir]: [(~mask_act[self.nocc:]).sum()] *)
Definition nFrzvir (self : t) : nat :=
  count_true (map negb (skipn (nocc self) (mask_act self))).

(** [nact]: [self.get_mask_act().sum()] *)
Definition nact (self : t) : nat := count_true (mask_act self).

Definition get_idx_frz_categories (self : t) : nat * nat * nat * nat :=
  (nCore self, nocc self, (nocc self + nVir self)%nat, nmo self).

(** [get_shuffle_frz].  A boolean index has to be as long as the array it
    indexes.  The warning that is logged when the indices are not in their
    natural order is left out. *)
Definition get_shuffle_frz (self : t) : result (list nat) :=
  _ <- check (length (mask_act self) =? nmo self)%nat IndexError ;;
  let frozen := FrozenCore.where_true (map negb (mask_act self)) in
  let active := FrozenCore.where_true (mask_act self) in
  let shuffle_frz_occ := (firstn (nocc self) frozen ++ firstn (nocc self) active)%list in
  let shuffle_frz_vir := (skipn (nocc self) active ++ skipn (nocc self) frozen)%list in
  Ok (shuffle_frz_occ ++ shuffle_frz_vir)%list.

(** [a[idx]] for an array of indices: every index has to lie in the array. *)
Fixpoint take {A : Type} (a : list A) (idx : list nat) : result (list A) :=
  match idx with
  | [] => Ok []
  | i :: rest =>
      match nth_error a i with
      | None => Raise IndexError
      | Some x => r <- take a rest ;; Ok (x :: r)
      end
  end.

(** [mo_energy] and [mo_occ]: the array of the mean-field object, reshuffled *)
Definition reshuffled {A : Type} (self : t) (a : list A) : result (list A) :=
  shuffle_frz <- get_shuffle_frz self ;;
  take a shuffle_frz.

(** [mo_energy_act]: [self.mo_energy[self.nCore:self.nCore+self.nact]] *)
Definition mo_energy_act {A : Type} (self : t) (scf_mo_energy : list A) : result (list A) :=
  mo_energy <- reshuffled self scf_mo_energy ;;
  Ok (firstn (nact self) (skipn (nCore self) mo_energy)).

End RDHBase.

(** A calculation of six orbitals, three of them occupied, whose orbitals 0
    and 2 are frozen. *)
Definition two_frozen_of_six : RDHBase.t :=
  RDHBase.Build [false; true; false; true; true; true] 6 3.

(** * Properties *)

(** ** Tables in normal form

    A table of [MAX_LEVEL] levels and [MAX_ANG] angular momenta is [tab g]
    for the function [g] of its cells; the assignments of the source map
    such tables to such tables. *)

Ltac nat_cases n bound :=
  let rec go k :=
    lazymatch k with
    | O => exfalso; lia
    | S ?k' => destruct n as [|n]; [ | go k' ]
    end in
  go bound.

Lemma tab_ext (g g' : nat -> nat -> Z) :
  (forall r c, (r < MAX_LEVEL)%nat -> (c < MAX_ANG)%nat -> g r c = g' r c) ->
  tab g = tab g'.
Proof.
  intros H. unfold tab.
  apply map_ext_in. intros r Hr. apply in_seq in Hr.
  apply map_ext_in. intros c Hc. apply in_seq in Hc.
  apply H; lia.
Qed.

Lemma full_tab : Np.full MAX_LEVEL MAX_ANG 0 = tab (fun _ _ => 0).
Proof. reflexivity. Qed.

Lemma set_col_range_tab (g : nat -> nat -> Z) (lo hi c : nat) (v : Z) :
  Np.set_col_range (tab g) lo hi c v =
  tab (fun r c' => if (lo <=? r)%nat && (r <? hi)%nat && (c' =? c)%nat then v else g r c').
Proof.
  unfold tab, Np.set_col_range, Np.mapi.
  cbn [MAX_LEVEL MAX_ANG seq map Np.mapi_from].
  repeat (f_equal; [ destruct (_ && _); reflexivity | ]).
  f_equal. destruct (_ && _); reflexivity.
Qed.

Lemma get_tab (g : nat -> nat -> Z) (r c : nat) :
  (r < MAX_LEVEL)%nat -> (c < MAX_ANG)%nat -> Np.get (tab g) r c = g r c.
Proof.
  unfold MAX_LEVEL, MAX_ANG. intros Hr Hc.
  do 7 (destruct r as [|r]; [ do 4 (destruct c as [|c]; [ reflexivity | ]); lia | ]).
  lia.
Qed.

Lemma sum2_tab (g : nat -> nat -> Z) :
  Np.sum2 (tab g) =
  Np.sum (map (fun c => Np.sum (map (fun r => g r c) (seq 0 MAX_LEVEL))) (seq 0 MAX_ANG)).
Proof. cbn. lia. Qed.

Lemma zero_below_tab (g : nat -> nat -> Z) (cut : nat -> Z) :
  zero_below (tab g) cut = tab (fun r c => if Z.of_nat r <? cut c then 0 else g r c).
Proof. reflexivity. Qed.

(** ** The configuration table *)

Lemma quotient_in_range (c : nat) (e : Z) :
  (c < MAX_ANG)%nat ->
  0 <= e <= (Z.of_nat MAX_LEVEL - Z.of_nat c) * ElementConfiguration.angular_num c ->
  exists q : nat,
    e / ElementConfiguration.angular_num c = Z.of_nat q /\ (q <= 7 - c)%nat.
Proof.
  intros Hc He.
  exists (Z.to_nat (e / ElementConfiguration.angular_num c)).
  unfold MAX_LEVEL, MAX_ANG, ElementConfiguration.angular_num in *.
  assert (0 <= e / (2 + 4 * Z.of_nat c) <= 7 - Z.of_nat c).
  { split; [ apply Z.div_pos; lia | ].
    apply Z.div_le_upper_bound; lia. }
  split; lia.
Qed.

Lemma fill_angular_tab (config : list Z) (g : nat -> nat -> Z) (c : nat) (e : Z) :
  nth_error config c = Some e ->
  (c < MAX_ANG)%nat ->
  0 <= e <= (Z.of_nat MAX_LEVEL - Z.of_nat c) * ElementConfiguration.angular_num c ->
  (forall r, g r c = 0) ->
  ElementConfiguration.fill_angular config (tab g) c =
  Ok (tab (fun r c' => if (c' =? c)%nat then config_cell c e r else g r c')).
Proof.
  intros Hnth Hc He Hzero.
  unfold ElementConfiguration.fill_angular. rewrite Hnth.
  destruct (Z.eqb_spec e 0) as [-> | Hne].
  - f_equal. apply tab_ext. intros r c' _ _.
    destruct (Nat.eqb_spec c' c) as [-> | _]; [ now rewrite Hzero | reflexivity ].
  - destruct (quotient_in_range c e Hc He) as (q & Hq & Hqle).
    unfold config_cell.
    replace (e =? 0) with false by (symmetry; now apply Z.eqb_neq).
    rewrite Hq.
    generalize (e mod ElementConfiguration.angular_num c). intros rem.
    unfold MAX_ANG in Hc.
    nat_cases c 4%nat; nat_cases q 8%nat; try (exfalso; lia);
      cbn -[tab Np.set_col_range];
      unfold Np.set_cell; rewrite ?set_col_range_tab;
      f_equal; apply tab_ext; intros r c' Hr Hc'; unfold MAX_LEVEL, MAX_ANG in Hr, Hc';
      nat_cases r 7%nat; nat_cases c' 4%nat; try reflexivity; try apply Hzero.
Qed.

Lemma row_fits_inv (row : list Z) :
  row_fits row = true ->
  exists e0 e1 e2 e3,
    row = [e0; e1; e2; e3] /\
    0 <= e0 <= 14 /\ 0 <= e1 <= 36 /\ 0 <= e2 <= 50 /\ 0 <= e3 <= 56.
Proof.
  unfold row_fits. intros H. apply andb_prop in H as [Hlen H].
  apply Nat.eqb_eq in Hlen.
  destruct row as [|e0 [|e1 [|e2 [|e3 [|? ?]]]]]; try discriminate.
  exists e0, e1, e2, e3. split; [ reflexivity | ].
  cbn in H. unfold ElementConfiguration.angular_num in H. cbn in H.
  repeat (apply andb_prop in H as [? H]). lia.
Qed.

Lemma table_fits_length (CONFIGURATION : list (list Z)) :
  table_fits CONFIGURATION = true -> length CONFIGURATION = 119%nat.
Proof.
  unfold table_fits. intros H. apply andb_prop in H as [Hlen _].
  now apply Nat.eqb_eq in Hlen.
Qed.

Lemma table_fits_row (CONFIGURATION : list (list Z)) (elem : nat) :
  table_fits CONFIGURATION = true -> (elem <= 118)%nat ->
  exists config, nth_error CONFIGURATION elem = Some config /\ row_fits config = true.
Proof.
  intros H Hle. pose proof (table_fits_length _ H) as Hlen.
  unfold table_fits in H. apply andb_prop in H as [_ Hrows].
  destruct (nth_error CONFIGURATION elem) as [config|] eqn:Hnth.
  - exists config. split; [ reflexivity | ].
    rewrite forallb_forall in Hrows. apply Hrows. eapply nth_error_In; eassumption.
  - apply nth_error_None in Hnth. lia.
Qed.

Lemma init_ok (CONFIGURATION : list (list Z)) (elem : nat) :
  table_fits CONFIGURATION = true -> (elem <= 118)%nat ->
  ElementConfiguration.init CONFIGURATION elem = Ok (ElementConfiguration.Build elem).
Proof.
  intros Hfit Hle. unfold ElementConfiguration.init.
  rewrite (table_fits_length _ Hfit).
  destruct (Z.ltb_spec (Z.of_nat 119 - 1) (Z.of_nat elem)); [ lia | reflexivity ].
Qed.

(** The table of an element, cell by cell. *)
Lemma get_configuration_table_tab (CONFIGURATION : list (list Z)) (elem : nat)
      (config : list Z) :
  nth_error CONFIGURATION elem = Some config ->
  row_fits config = true ->
  ElementConfiguration.get_configuration_table CONFIGURATION (ElementConfiguration.Build elem)
  = Ok (tab (fun r c => config_cell c (nth c config 0) r)).
Proof.
  intros Hnth Hfit.
  destruct (row_fits_inv _ Hfit) as (e0 & e1 & e2 & e3 & -> & H0 & H1 & H2 & H3).
  unfold ElementConfiguration.get_configuration_table. cbn [ElementConfiguration.element].
  rewrite Hnth. cbn [seq MAX_ANG for_each]. rewrite full_tab.
  rewrite (fill_angular_tab _ _ 0%nat e0);
    [ | reflexivity | unfold MAX_ANG; lia | cbn; lia | intros; reflexivity ].
  cbn [bind].
  rewrite (fill_angular_tab _ _ 1%nat e1);
    [ | reflexivity | unfold MAX_ANG; lia | cbn; lia | intros; reflexivity ].
  cbn [bind].
  rewrite (fill_angular_tab _ _ 2%nat e2);
    [ | reflexivity | unfold MAX_ANG; lia | cbn; lia | intros; reflexivity ].
  cbn [bind].
  rewrite (fill_angular_tab _ _ 3%nat e3);
    [ | reflexivity | unfold MAX_ANG; lia | cbn; lia | intros; reflexivity ].
  reflexivity.
Qed.

(** A column of the table holds the electrons of its angular momentum. *)
Lemma config_cell_column_sum (c : nat) (e : Z) :
  (c < MAX_ANG)%nat ->
  0 <= e <= (Z.of_nat MAX_LEVEL - Z.of_nat c) * ElementConfiguration.angular_num c ->
  Np.sum (map (config_cell c e) (seq 0 MAX_LEVEL)) = e.
Proof.
  intros Hc He. unfold config_cell.
  destruct (Z.eqb_spec e 0) as [-> | Hne]; [ reflexivity | ].
  pose proof (Z.div_mod e (ElementConfiguration.angular_num c)) as Hdm.
  assert (Hmod : 0 <= e mod ElementConfiguration.angular_num c
                 < ElementConfiguration.angular_num c)
    by (apply Z.mod_pos_bound; unfold ElementConfiguration.angular_num; lia).
  destruct (quotient_in_range c e Hc He) as (q & Hq & Hqle). rewrite Hq in *.
  remember (e mod ElementConfiguration.angular_num c) as rem eqn:Hrem. clear Hrem.
  unfold MAX_ANG in Hc. unfold MAX_LEVEL, ElementConfiguration.angular_num in *.
  nat_cases c 4%nat; nat_cases q 8%nat; try (exfalso; lia);
    repeat match goal with
           | |- context [Z.of_nat ?a + Z.of_nat ?b] =>
               let v := eval cbv in (Z.of_nat a + Z.of_nat b) in
               change (Z.of_nat a + Z.of_nat b) with v
           end;
    cbn -[Z.add Z.mul]; lia.
Qed.

(** C7.  For every element 0 to 118 of a configuration table that fits, the
    cells of the table of 7 levels and 4 angular momenta that
    [get_configuration_table] returns add up to the electrons the element
    has according to [CONFIGURATION]: the distribution over the levels,
    remainder included, loses and duplicates nothing. *)
Theorem configuration_table_total (CONFIGURATION : list (list Z)) (elem : nat) :
  table_fits CONFIGURATION = true ->
  (elem <= 118)%nat ->
  exists cfg table,
    ElementConfiguration.init CONFIGURATION elem = Ok cfg /\
    ElementConfiguration.get_configuration_table CONFIGURATION cfg = Ok table /\
    Np.sum2 table = canonical_electron_count CONFIGURATION elem.
Proof.
  intros Hfit Hle.
  destruct (table_fits_row _ _ Hfit Hle) as (config & Hnth & Hrow).
  exists (ElementConfiguration.Build elem). eexists. split; [ | split ].
  - now apply init_ok.
  - apply get_configuration_table_tab; eassumption.
  - rewrite sum2_tab. unfold canonical_electron_count.
    rewrite (nth_error_nth _ _ _ Hnth).
    destruct (row_fits_inv _ Hrow) as (e0 & e1 & e2 & e3 & -> & H0 & H1 & H2 & H3).
    cbn [seq MAX_ANG map nth].
    rewrite !config_cell_column_sum; unfold MAX_ANG; cbn; lia.
Qed.

(** The table of ground states fits, and its row of element [Z] holds [Z]
    electrons. *)
Lemma ground_state_configuration_fits : table_fits ground_state_configuration = true.
Proof. vm_compute. reflexivity. Qed.

Lemma ground_state_configuration_counts :
  map (canonical_electron_count ground_state_configuration) (seq 0 119)
  = map Z.of_nat (seq 0 119).
Proof. vm_compute. reflexivity. Qed.

Lemma configuration_table_total_witness :
  table_fits ground_state_configuration = true /\
  (26 <= 118)%nat /\
  exists cfg table,
    ElementConfiguration.init ground_state_configuration 26 = Ok cfg /\
    ElementConfiguration.get_configuration_table ground_state_configuration cfg = Ok table /\
    Np.sum2 table = canonical_electron_count ground_state_configuration 26.
Proof.
  split; [ reflexivity | ]. split; [ lia | ].
  apply (configuration_table_total ground_state_configuration 26); [ reflexivity | lia ].
Defined.

(** ** The rule that freezes nothing *)

Lemma strip_angular_false_zero (g : nat -> nat -> Z) (c : nat) :
  ElementConfiguration.strip_angular false (tab g) (c, 0) = Ok (tab g).
Proof.
  unfold ElementConfiguration.strip_angular. cbn [negb].
  change (Datatypes.length (tab g)) with 7%nat.
  change (Np.slice_bound 7 0) with 0%nat.
  change (Np.col_prefix_sum (tab g) 0 c) with 0.
  rewrite Z.mod_0_l by lia. cbn [Z.eqb negb].
  rewrite set_col_range_tab. reflexivity.
Qed.

(** C8.  The registry holds under the name "none" the rule whose levels are
    all zero and are counted from the nucleus, and for every element 0 to 118
    of a configuration table that fits, [get_num_core] of that rule is 0. *)
Theorem none_rule_freezes_nothing (CONFIGURATION : list (list Z)) (elem : nat) :
  table_fits CONFIGURATION = true ->
  (elem <= 118)%nat ->
  (exists registry,
      FrozenRule.FrozenRules CONFIGURATION = Ok registry /\
      dict_get String.eqb registry "none"%string
      = Ok (FrozenRule.FrozenRuleNone CONFIGURATION)) /\
  FrozenRule.get_num_core CONFIGURATION (FrozenRule.FrozenRuleNone CONFIGURATION) elem = Ok 0.
Proof.
  intros Hfit Hle.
  pose proof (table_fits_length _ Hfit) as Hlen.
  split.
  - unfold FrozenRule.FrozenRules, FrozenRule.FrozenRuleORCA, FrozenRule.FrozenRuleSmallCore,
      FrozenRule.FrozenRuleLargeCore, FrozenRule.FrozenRuleNone,
      FrozenRule.FrozenRuleNobleGasCore, FrozenRule.FrozenRuleInnerNobleGasCore,
      FrozenRule.zeros.
    rewrite Hlen. eexists. split; reflexivity.
  - destruct (table_fits_row _ _ Hfit Hle) as (config & Hnth & Hrow).
    unfold FrozenRule.get_num_core. rewrite (init_ok _ _ Hfit Hle). cbn [bind].
    cbn [ElementConfiguration.element FrozenRule.active_levels FrozenRule.is_active
           FrozenRule.FrozenRuleNone].
    unfold FrozenRule.zeros, Np.full. rewrite nth_error_repeat by lia.
    unfold ElementConfiguration.get_num_core_electrons, ElementConfiguration.get_active_table.
    rewrite (get_configuration_table_tab _ _ _ Hnth Hrow).
    cbn [bind MAX_ANG repeat length Nat.eqb check hd fold_right Z.min Z.leb Z.compare
           Np.enumerate Np.enumerate_from for_each].
    repeat (rewrite strip_angular_false_zero; cbn [bind for_each]).
    f_equal. lia.
Qed.

Lemma none_rule_freezes_nothing_witness :
  table_fits ground_state_configuration = true /\
  (53 <= 118)%nat /\
  (exists registry,
      FrozenRule.FrozenRules ground_state_configuration = Ok registry /\
      dict_get String.eqb registry "none"%string
      = Ok (FrozenRule.FrozenRuleNone ground_state_configuration)) /\
  FrozenRule.get_num_core ground_state_configuration
    (FrozenRule.FrozenRuleNone ground_state_configuration) 53 = Ok 0.
Proof.
  split; [ reflexivity | ]. split; [ lia | ].
  apply (none_rule_freezes_nothing ground_state_configuration 53); [ reflexivity | lia ].
Defined.

(** ** The documented numbers of core electrons

    With the table of ground states, the embedding yields for every rule
    class the numbers that its documentation displays. *)
(** X23.  With the ground-state configurations of the elements 0 to 118 as
    CONFIGURATION (the table of pyscf.data.elements as transcribed in the
    file), get_num_core gives for the rules ORCA, NobleGasCore,
    InnerNobleGasCore, SmallCore and LargeCore exactly the numbers of core
    electrons printed in the docstrings of the five classes, for all 119
    elements. *)
Lemma documented_core_electrons :
  core_electrons ground_state_configuration
    (FrozenRule.FrozenRuleORCA ground_state_configuration)
  = Ok (map Ok documented_ORCA) /\
  core_electrons ground_state_configuration
    (Ok (FrozenRule.FrozenRuleNobleGasCore ground_state_configuration))
  = Ok (map Ok documented_NobleGasCore) /\
  core_electrons ground_state_configuration
    (Ok (FrozenRule.FrozenRuleInnerNobleGasCore ground_state_configuration))
  = Ok (map Ok documented_InnerNobleGasCore) /\
  core_electrons ground_state_configuration
    (FrozenRule.FrozenRuleSmallCore ground_state_configuration)
  = Ok (map Ok documented_SmallCore) /\
  core_electrons ground_state_configuration
    (FrozenRule.FrozenRuleLargeCore ground_state_configuration)
  = Ok (map Ok documented_LargeCore).
Proof. repeat split; vm_compute; reflexivity. Qed.

(** ** The active table of a rule that keeps the top levels *)

Lemma fold_max_spec (l : list nat) (r : nat) :
  In (fold_left Nat.max l r) (r :: l) /\
  forall x, In x (r :: l) -> (x <= fold_left Nat.max l r)%nat.
Proof.
  revert r. induction l as [|y l IH]; intros r; cbn [fold_left].
  - split; [ now left | ]. intros x [Hx | []]. lia.
  - destruct (IH (Nat.max r y)) as [Hin Hub]. split.
    + destruct Hin as [Heq | Hin]; [ | right; now right ].
      rewrite <- Heq. destruct (Nat.max_spec r y) as [[_ ->] | [_ ->]];
        [ right; now left | now left ].
    + pose proof (Hub (Nat.max r y) (or_introl eq_refl)) as Hmax.
      intros x [Hx | [Hx | Hx]]; [ lia | lia | ].
      apply Hub. now right.
Qed.

Lemma nonempty_levels (table : Np.array2 Z) (col x : nat) :
  In x (filter (fun r => 0 <? Np.get table r col) (seq 0 (length table))) <->
  (x < length table)%nat /\ 0 < Np.get table x col.
Proof. rewrite filter_In, in_seq, Z.ltb_lt. lia. Qed.

(** The highest nonempty level holds electrons and no level above it does. *)
Lemma highest_nonempty_level_some (table : Np.array2 Z) (col h : nat) :
  highest_nonempty_level table col = Some h <->
  (h < length table)%nat /\ 0 < Np.get table h col /\
  forall r, (h < r < length table)%nat -> Np.get table r col <= 0.
Proof.
  unfold highest_nonempty_level.
  pose proof (nonempty_levels table col) as Hmem.
  destruct (filter _ (seq 0 (length table))) as [|r others].
  - split; [ discriminate | ]. intros (Hlt & Hpos & _).
    exfalso. apply (proj2 (Hmem h)). split; assumption.
  - destruct (fold_max_spec others r) as [Hin Hub].
    split.
    + intros [= <-]. apply Hmem in Hin as [Hlt Hpos]. repeat split; try assumption.
      intros x Hx. destruct (Z.leb_spec (Np.get table x col) 0) as [|Hgt]; [ assumption | ].
      exfalso. assert (Hx' : In x (r :: others)) by (apply Hmem; split; lia).
      apply Hub in Hx'. lia.
    + intros (Hlt & Hpos & Habove). f_equal.
      assert (Hh : In h (r :: others)) by (apply Hmem; split; assumption).
      apply Hub in Hh. apply Hmem in Hin as [Hmlt Hmpos].
      destruct (Nat.eq_dec (fold_left Nat.max others r) h) as [|Hne]; [ assumption | ].
      exfalso. specialize (Habove (fold_left Nat.max others r)). lia.
Qed.

Lemma below_cut_sum_tab (g : nat -> nat -> Z) (cut : Z) (c : nat) :
  (c < MAX_ANG)%nat ->
  below_cut_sum (tab g) cut c =
  Np.sum (map (fun r => if Z.of_nat r <? cut then g r c else 0) (seq 0 MAX_LEVEL)).
Proof.
  intros Hc. unfold below_cut_sum. change (length (tab g)) with MAX_LEVEL.
  f_equal. apply map_ext_in. intros r Hr. apply in_seq in Hr.
  rewrite get_tab by lia. reflexivity.
Qed.

Lemma below_cut_sum_tab_ext (g g' : nat -> nat -> Z) (cut : Z) (c : nat) :
  (c < MAX_ANG)%nat ->
  (forall r, g' r c = g r c) ->
  below_cut_sum (tab g') cut c = below_cut_sum (tab g) cut c.
Proof.
  intros Hc Hsame. rewrite !below_cut_sum_tab by assumption.
  f_equal. apply map_ext. intros r. now rewrite Hsame.
Qed.

Lemma col_prefix_sum_tab (g : nat -> nat -> Z) (cut : Z) (c : nat) :
  (c < MAX_ANG)%nat -> 0 < cut ->
  Np.col_prefix_sum (tab g) (Np.slice_bound MAX_LEVEL cut) c = below_cut_sum (tab g) cut c.
Proof.
  intros Hc Hcut. rewrite below_cut_sum_tab by assumption.
  unfold Np.slice_bound. destruct (Z.ltb_spec cut 0); [ lia | ].
  unfold MAX_LEVEL, MAX_ANG in *.
  assert (Hn : exists n, (n <= 7)%nat /\ Nat.min (Z.to_nat cut) 7 = n /\
                         forall r, (r < 7)%nat -> (Z.of_nat r <? cut) = (r <? n)%nat).
  { exists (Nat.min (Z.to_nat cut) 7). repeat split; [ lia | ].
    intros r Hr.
    destruct (Z.ltb_spec (Z.of_nat r) cut), (Nat.ltb_spec r (Nat.min (Z.to_nat cut) 7));
      try reflexivity; lia. }
  destruct Hn as (n & Hn & -> & Hcmp).
  cbn [seq map]. rewrite !Hcmp by lia.
  nat_cases c 4%nat; nat_cases n 8%nat; cbn -[Z.add]; lia.
Qed.

(** One iteration of the loop when the s column is empty. *)
Lemma strip_angular_true_none (g : nat -> nat -> Z) (c : nat) (N : Z) :
  highest_nonempty_level (tab g) 0 = None ->
  ElementConfiguration.strip_angular true (tab g) (c, N) = Ok (tab g).
Proof.
  unfold highest_nonempty_level, ElementConfiguration.strip_angular,
    ElementConfiguration.non_empty_level.
  cbn [negb]. destruct (filter _ _); [ reflexivity | discriminate ].
Qed.

(** One iteration of the loop when [h] is the highest nonempty level of the
    s column. *)
Lemma strip_angular_true_some (g : nat -> nat -> Z) (c h : nat) (N : Z) :
  (c < MAX_ANG)%nat ->
  highest_nonempty_level (tab g) 0 = Some h ->
  ElementConfiguration.strip_angular true (tab g) (c, N) =
  let cut := Z.of_nat h - N + 1 in
  if (cut <=? 0) || (below_cut_sum (tab g) cut c mod (2 + 4 * Z.of_nat c) =? 0)
  then Ok (tab (fun r c' => if (Z.of_nat r <? cut) && (c' =? c)%nat then 0 else g r c'))
  else Raise ValueError.
Proof.
  intros Hc Hh.
  unfold highest_nonempty_level in Hh.
  unfold ElementConfiguration.strip_angular, ElementConfiguration.non_empty_level.
  cbn [negb]. destruct (filter _ _) as [|r others]; [ discriminate | ].
  injection Hh as ->. cbv zeta.
  destruct (Z.leb_spec (Z.of_nat h - N + 1) 0) as [Hle | Hgt]; cbn [orb].
  - f_equal. apply tab_ext. intros x c' _ _.
    destruct (Z.ltb_spec (Z.of_nat x) (Z.of_nat h - N + 1)); [ lia | reflexivity ].
  - change (length (tab g)) with MAX_LEVEL.
    rewrite col_prefix_sum_tab by assumption.
    destruct (_ =? 0); cbn [negb]; [ | reflexivity ].
    rewrite set_col_range_tab. f_equal. apply tab_ext. intros x c' Hx _.
    unfold Np.slice_bound. destruct (Z.ltb_spec (Z.of_nat h - N + 1) 0); [ lia | ].
    cbn [Nat.leb andb].
    replace (x <? Nat.min (Z.to_nat (Z.of_nat h - N + 1)) MAX_LEVEL)%nat
      with (Z.of_nat x <? Z.of_nat h - N + 1); [ reflexivity | ].
    destruct (Z.ltb_spec (Z.of_nat x) (Z.of_nat h - N + 1)),
      (Nat.ltb_spec x (Nat.min (Z.to_nat (Z.of_nat h - N + 1)) MAX_LEVEL));
      try reflexivity; lia.
Qed.

(** The highest nonempty level of the s column survives every change that
    leaves the s column alone from that level upwards. *)
Lemma highest_nonempty_level_tab_stable (g g' : nat -> nat -> Z) (h : nat) :
  highest_nonempty_level (tab g) 0 = Some h ->
  (forall r, (h <= r < MAX_LEVEL)%nat -> g' r 0%nat = g r 0%nat) ->
  highest_nonempty_level (tab g') 0 = Some h.
Proof.
  rewrite !highest_nonempty_level_some. change (length (tab g)) with MAX_LEVEL.
  change (length (tab g')) with MAX_LEVEL.
  intros (Hlt & Hpos & Habove) Hsame. split; [ assumption | ].
  rewrite get_tab in * by (unfold MAX_ANG; lia). split.
  - rewrite Hsame by lia. assumption.
  - intros r Hr. specialize (Habove r Hr).
    rewrite get_tab in * by (unfold MAX_ANG; lia). rewrite Hsame by lia. assumption.
Qed.

(** C3 (as amended).  For every element 0 to 118 of a configuration table
    that fits and every level vector with an s entry of at least 1 and
    non-negative p, d and f entries, [get_active_table] with [is_active=true]
    cuts every column at (highest nonempty level of the s column) - N + 1,
    where N is the entry of that column: the levels of the column below the
    cut are zeroed, after the validation that what is stripped is a whole
    number of shells; without a nonempty s level the table is returned as it
    is. *)
Theorem active_table_cut_from_s_column
        (CONFIGURATION : list (list Z)) (elem : nat) (n0 n1 n2 n3 : Z) :
  table_fits CONFIGURATION = true ->
  (elem <= 118)%nat ->
  1 <= n0 -> 0 <= n1 -> 0 <= n2 -> 0 <= n3 ->
  exists cfg table,
    ElementConfiguration.init CONFIGURATION elem = Ok cfg /\
    ElementConfiguration.get_configuration_table CONFIGURATION cfg = Ok table /\
    ElementConfiguration.get_active_table CONFIGURATION cfg (LevelVec [n0; n1; n2; n3]) true
    = active_table_s_column table [n0; n1; n2; n3].
Proof.
  intros Hfit Hle H0 H1 H2 H3.
  destruct (table_fits_row _ _ Hfit Hle) as (config & Hnth & Hrow).
  exists (ElementConfiguration.Build elem). eexists.
  split; [ now apply init_ok | ].
  split; [ apply get_configuration_table_tab; eassumption | ].
  unfold ElementConfiguration.get_active_table.
  rewrite (get_configuration_table_tab _ _ _ Hnth Hrow). cbn [bind].
  set (G := fun r c : nat => config_cell c (nth c config 0) r).
  replace (check (length [n0; n1; n2; n3] =? MAX_ANG)%nat AssertionError) with (Ok tt)
    by reflexivity.
  cbn [bind hd fold_right].
  replace (0 <=? Z.min n0 (Z.min n1 (Z.min n2 (Z.min n3 n0)))) with true
    by (symmetry; apply Z.leb_le; lia).
  cbn [check bind Np.enumerate Np.enumerate_from for_each].
  unfold active_table_s_column, active_table_with_cuts, cut_point.
  destruct (highest_nonempty_level (tab G) 0) as [h|] eqn:Hh.
  - cbn [seq MAX_ANG forallb nth].
    (* the s column: its highest nonempty level stays, as the cut is not above it *)
    rewrite (strip_angular_true_some G 0 h n0) by (unfold MAX_ANG; lia || assumption).
    cbv zeta. destruct (_ || _); cbn [bind andb]; [ | reflexivity ].
    match goal with |- context [ElementConfiguration.strip_angular true (tab ?g1) _] =>
      set (G1 := g1) end.
    assert (Hh1 : highest_nonempty_level (tab G1) 0 = Some h).
    { apply (highest_nonempty_level_tab_stable G); [ assumption | ].
      intros r Hr. unfold G1.
      destruct (Z.ltb_spec (Z.of_nat r) (Z.of_nat h - n0 + 1)); [ lia | reflexivity ]. }
    (* the p column *)
    rewrite (strip_angular_true_some G1 1 h n1) by (unfold MAX_ANG; lia || assumption).
    cbv zeta.
    rewrite (below_cut_sum_tab_ext G G1)
      by (unfold MAX_ANG; lia || (intros; unfold G1; now rewrite ?andb_false_r)).
    destruct (_ || _); cbn [bind andb]; [ | reflexivity ].
    match goal with |- context [ElementConfiguration.strip_angular true (tab ?g2) _] =>
      set (G2 := g2) end.
    assert (Hh2 : highest_nonempty_level (tab G2) 0 = Some h).
    { apply (highest_nonempty_level_tab_stable G1); [ assumption | ].
      intros r Hr. unfold G2. rewrite andb_false_r. reflexivity. }
    (* the d column *)
    rewrite (strip_angular_true_some G2 2 h n2) by (unfold MAX_ANG; lia || assumption).
    cbv zeta.
    rewrite (below_cut_sum_tab_ext G G2)
      by (unfold MAX_ANG; lia || (intros; unfold G2, G1; now rewrite ?andb_false_r)).
    destruct (_ || _); cbn [bind andb]; [ | reflexivity ].
    match goal with |- context [ElementConfiguration.strip_angular true (tab ?g3) _] =>
      set (G3 := g3) end.
    assert (Hh3 : highest_nonempty_level (tab G3) 0 = Some h).
    { apply (highest_nonempty_level_tab_stable G2); [ assumption | ].
      intros r Hr. unfold G3. rewrite andb_false_r. reflexivity. }
    (* the f column *)
    rewrite (strip_angular_true_some G3 3 h n3) by (unfold MAX_ANG; lia || assumption).
    cbv zeta.
    rewrite (below_cut_sum_tab_ext G G3)
      by (unfold MAX_ANG; lia || (intros; unfold G3, G2, G1; now rewrite ?andb_false_r)).
    destruct (_ || _); cbn [bind andb]; [ | reflexivity ].
    rewrite zero_below_tab. f_equal. apply tab_ext. intros r c _ Hc.
    unfold MAX_ANG in Hc. unfold G3, G2, G1.
    nat_cases c 4%nat; cbn [Nat.eqb nth]; rewrite ?andb_false_r, ?andb_true_r;
      destruct (_ <? _); reflexivity.
  - repeat (rewrite strip_angular_true_none by assumption; cbn [bind]).
    cbn [seq MAX_ANG forallb Z.leb Z.compare orb andb].
    rewrite zero_below_tab. reflexivity.
Qed.

Lemma active_table_cut_from_s_column_witness :
  table_fits ground_state_configuration = true /\
  (19 <= 118)%nat /\ 1 <= 1 /\ 0 <= 1 /\ 0 <= 2 /\ 0 <= 3 /\
  exists cfg table,
    ElementConfiguration.init ground_state_configuration 19 = Ok cfg /\
    ElementConfiguration.get_configuration_table ground_state_configuration cfg = Ok table /\
    ElementConfiguration.get_active_table ground_state_configuration cfg
      (LevelVec [1; 1; 2; 3]) true
    = active_table_s_column table [1; 1; 2; 3].
Proof.
  split; [ reflexivity | ]. repeat (split; [ lia | ]).
  apply (active_table_cut_from_s_column ground_state_configuration 19 1 1 2 3);
    [ reflexivity | lia .. ].
Defined.

(** C3 (as stated) fails for potassium with the levels of the rule
    FreezeNobleGasCore: the highest nonempty p level is 3p, so a cut taken
    from the p column would keep the 3p shell, whereas the code, which takes
    the cut from the s column (4s is occupied), strips it. *)
Lemma active_table_own_column_counterexample :
  exists table,
    ElementConfiguration.get_configuration_table ground_state_configuration
      (ElementConfiguration.Build 19) = Ok table /\
    table = [[2; 0; 0; 0]; [2; 6; 0; 0]; [2; 6; 0; 0]; [1; 0; 0; 0];
             [0; 0; 0; 0]; [0; 0; 0; 0]; [0; 0; 0; 0]] /\
    ElementConfiguration.get_active_table ground_state_configuration
      (ElementConfiguration.Build 19) (LevelVec [1; 1; 2; 3]) true
    = Ok [[0; 0; 0; 0]; [0; 0; 0; 0]; [0; 0; 0; 0]; [1; 0; 0; 0];
          [0; 0; 0; 0]; [0; 0; 0; 0]; [0; 0; 0; 0]] /\
    active_table_own_column table [1; 1; 2; 3]
    = Ok [[0; 0; 0; 0]; [0; 0; 0; 0]; [0; 6; 0; 0]; [1; 0; 0; 0];
          [0; 0; 0; 0]; [0; 0; 0; 0]; [0; 0; 0; 0]] /\
    ElementConfiguration.get_active_table ground_state_configuration
      (ElementConfiguration.Build 19) (LevelVec [1; 1; 2; 3]) true
    <> active_table_own_column table [1; 1; 2; 3].
Proof.
  eexists. split; [ reflexivity | ]. split; [ reflexivity | ].
  split; [ reflexivity | ]. split; [ reflexivity | ].
  vm_compute. discriminate.
Qed.

(** With an s entry of 0 the s column is stripped whole, after which the
    loop finds no nonempty s level and leaves the other columns alone: for
    argon and the levels [0; 1; 1; 1] the 2p shell stays, although it lies
    below the cut taken from the s column of the configuration table. *)
Example active_table_without_s_levels :
  ElementConfiguration.get_active_table ground_state_configuration
    (ElementConfiguration.Build 18) (LevelVec [0; 1; 1; 1]) true
  = Ok [[0; 0; 0; 0]; [0; 6; 0; 0]; [0; 6; 0; 0]; [0; 0; 0; 0];
        [0; 0; 0; 0]; [0; 0; 0; 0]; [0; 0; 0; 0]] /\
  active_table_s_column
    [[2; 0; 0; 0]; [2; 6; 0; 0]; [2; 6; 0; 0]; [0; 0; 0; 0];
     [0; 0; 0; 0]; [0; 0; 0; 0]; [0; 0; 0; 0]] [0; 1; 1; 1]
  = Ok [[0; 0; 0; 0]; [0; 0; 0; 0]; [0; 6; 0; 0]; [0; 0; 0; 0];
        [0; 0; 0; 0]; [0; 0; 0; 0]; [0; 0; 0; 0]].
Proof. split; reflexivity. Qed.

(** ** The mask of the rule-based selection *)

Lemma length_mapi_from {A B : Type} (f : nat -> A -> B) (i : nat) (l : list A) :
  length (Np.mapi_from f i l) = length l.
Proof. revert i. induction l as [|x l IH]; intros i; cbn; [ reflexivity | now rewrite IH ]. Qed.

Lemma nth_mapi_from {A B : Type} (f : nat -> A -> B) (i j : nat) (l : list A) (d : A) (d' : B) :
  (j < length l)%nat ->
  nth j (Np.mapi_from f i l) d' = f (i + j)%nat (nth j l d).
Proof.
  revert i j. induction l as [|x l IH]; intros i j Hj; cbn in Hj; [ lia | ].
  destruct j as [|j]; cbn.
  - now rewrite Nat.add_0_r.
  - rewrite IH by lia. f_equal. lia.
Qed.

Lemma length_set_range {A : Type} (row : list A) (lo hi : nat) (v : A) :
  length (Np.set_range row lo hi v) = length row.
Proof. apply length_mapi_from. Qed.

Lemma nth_set_range {A : Type} (row : list A) (lo hi j : nat) (v d : A) :
  (j < length row)%nat ->
  nth j (Np.set_range row lo hi v) d = if (lo <=? j)%nat && (j <? hi)%nat then v else nth j row d.
Proof.
  intros Hj. unfold Np.set_range, Np.mapi. now rewrite (nth_mapi_from _ _ _ _ d).
Qed.

Lemma np_max_nonempty (mo_occ : list (list Q)) (x : Q) :
  FrozenCore.np_max mo_occ = Ok x -> (1 <= length mo_occ)%nat.
Proof.
  unfold FrozenCore.np_max. destruct mo_occ; cbn; [ discriminate | lia ].
Qed.

(** [int] gives the integer part, and a number has one integer part. *)
Lemma int_integer_part (x : Q) : integer_part x (int x).
Proof.
  destruct x as [a b]. unfold integer_part, int. cbn [Qnum Qden]. split; intros Hx.
  - assert (Ha : 0 <= a) by (unfold Qle in Hx; cbn in Hx; lia).
    rewrite Z.quot_div_nonneg by lia.
    change (a / Z.pos b) with (Qfloor (a # b)). split.
    + apply Qfloor_le.
    + rewrite <- (inject_Z_plus _ 1). apply Qlt_floor.
  - assert (Ha : a <= 0) by (unfold Qle in Hx; cbn in Hx; lia).
    assert (Hq : Z.quot a (Z.pos b) = Qceiling (a # b)).
    { unfold Qceiling, Qfloor. cbn [Qopp Qnum Qden].
      rewrite <- (Z.opp_involutive a) at 1. rewrite Z.quot_opp_l by lia.
      now rewrite Z.quot_div_nonneg by lia. }
    rewrite Hq. split.
    + setoid_replace (inject_Z (Qceiling (a # b)) - 1)%Q
        with (inject_Z (Qceiling (a # b) - 1)).
      * apply Qceiling_lt.
      * unfold Z.sub. rewrite inject_Z_plus. reflexivity.
    + apply Qle_ceiling.
Qed.

Lemma integer_part_unique (x y : Q) (n n' : Z) :
  (x == y)%Q -> integer_part x n -> integer_part y n' -> n = n'.
Proof.
  intros Hxy [Hpos Hneg] [Hpos' Hneg'].
  assert (Hlt : forall a b : Z, (inject_Z a < inject_Z b + 1)%Q -> a <= b).
  { intros a b H. rewrite <- (inject_Z_plus _ 1), <- Zlt_Qlt in H. lia. }
  destruct (Qlt_le_dec x 0) as [Hx | Hx].
  - destruct Hneg as [H1 H2]; [ lra | ]. destruct Hneg' as [H1' H2']; [ lra | ].
    assert (n' <= n) by (apply Hlt; lra). assert (n <= n') by (apply Hlt; lra). lia.
  - destruct Hpos as [H1 H2]; [ lra | ]. destruct Hpos' as [H1' H2']; [ lra | ].
    assert (n' <= n) by (apply Hlt; lra). assert (n <= n') by (apply Hlt; lra). lia.
Qed.

(** [np_max] returns the largest item. *)
Lemma fold_max_largest (rest : list Q) (x : Q) :
  largest (fold_left (fun m y => if Qle_bool m y then y else m) rest x) (x :: rest).
Proof.
  unfold largest. revert x. induction rest as [|y rest IH]; intros x; cbn [fold_left].
  - split; [ now left | ]. constructor; [ apply Qle_refl | constructor ].
  - destruct (Qle_bool x y) eqn:Hxy.
    + destruct (IH y) as [Hin Hall]. split.
      * destruct Hin as [<- | Hin]; [ right; now left | right; now right ].
      * apply Forall_inv in Hall as Hy. apply Forall_inv_tail in Hall.
        apply Qle_bool_iff in Hxy.
        constructor; [ now apply Qle_trans with y | constructor; assumption ].
    + destruct (IH x) as [Hin Hall]. split.
      * destruct Hin as [<- | Hin]; [ now left | right; now right ].
      * apply Forall_inv in Hall as Hx. apply Forall_inv_tail in Hall.
        assert (Hyx : (y <= x)%Q).
        { apply Qlt_le_weak, Qnot_le_lt. intros H. apply Qle_bool_iff in H. congruence. }
        constructor; [ exact Hx | constructor; [ | exact Hall ] ].
        now apply Qle_trans with x.
Qed.

Lemma np_max_largest (mo_occ : list (list Q)) (m : Q) :
  FrozenCore.np_max mo_occ = Ok m -> largest m (concat mo_occ).
Proof.
  unfold FrozenCore.np_max. destruct (concat mo_occ) as [|x rest]; [ discriminate | ].
  intros [= <-]. apply fold_max_largest.
Qed.

Lemma largest_np_max (mo_occ : list (list Q)) (m : Q) :
  largest m (concat mo_occ) ->
  exists m', FrozenCore.np_max mo_occ = Ok m' /\ (m' == m)%Q.
Proof.
  intros [Hin Hall]. unfold FrozenCore.np_max.
  destruct (concat mo_occ) as [|x rest] eqn:Hitems; [ destruct Hin | ].
  eexists. split; [ reflexivity | ].
  destruct (fold_max_largest rest x) as [Hin' Hall'].
  rewrite Forall_forall in Hall, Hall'.
  apply Qle_antisym; [ now apply Hall | now apply Hall' ].
Qed.

(** The capacity that the code computes from the largest occupation
    number. *)
Lemma capacity_of_largest (mo_occ : list (list Q)) (m : Q) (orb_elec : Z) :
  largest m (concat mo_occ) -> integer_part m orb_elec ->
  exists max_occ, FrozenCore.np_max mo_occ = Ok max_occ /\ int max_occ = orb_elec.
Proof.
  intros Hm Hint. destruct (largest_np_max mo_occ m Hm) as (m' & Hmax & Heq).
  exists m'. split; [ exact Hmax | ].
  exact (integer_part_unique m' m _ _ Heq (int_integer_part m') Hint).
Qed.

(** The run of [parse_active_mask_by_elec] on an occupation array whose
    capacity is not zero. *)
Lemma parse_active_mask_by_elec_run
      (mo_occ : list (list Q)) (f_occ f_vir : Z) (max_occ : Q) (orb_elec : Z) :
  FrozenCore.np_max mo_occ = Ok max_occ ->
  int max_occ = orb_elec ->
  orb_elec <> 0 ->
  let nset := length mo_occ in
  let nmo := length (hd [] mo_occ) in
  let per_orbital := Z.of_nat nset * orb_elec in
  per_orbital <> 0 /\
  FrozenCore.parse_active_mask_by_elec mo_occ f_occ f_vir =
  if negb ((f_occ mod per_orbital =? 0) && (f_vir mod per_orbital =? 0))
  then Raise ValueError
  else
    let row :=
      Np.set_range (repeat true nmo) 0 (Np.slice_bound nmo (f_occ / per_orbital)) false in
    if 0 <? f_vir / per_orbital
    then Ok (repeat (Np.set_range row (Np.slice_bound nmo (- (f_vir / per_orbital)))
                                  nmo false) nset)
    else Ok (repeat row nset).
Proof.
  intros Hmax Hint Hnz nset nmo per_orbital.
  pose proof (np_max_nonempty _ _ Hmax) as Hn.
  assert (Hper : per_orbital <> 0) by (unfold per_orbital; fold nset in Hn; nia).
  split; [ exact Hper | ].
  unfold FrozenCore.parse_active_mask_by_elec. rewrite Hmax. cbn [bind]. rewrite Hint.
  fold nset nmo per_orbital.
  replace (per_orbital =? 0) with false by (symmetry; now apply Z.eqb_neq).
  cbn [negb check bind]. unfold Np.full. rewrite !map_repeat. reflexivity.
Qed.

(** When both numbers are whole numbers of orbitals, a mask is returned and
    every occupation set gets the same row. *)
Lemma parse_active_mask_by_elec_rows
      (mo_occ : list (list Q)) (f_occ f_vir : Z) (max_occ : Q) (orb_elec : Z) :
  FrozenCore.np_max mo_occ = Ok max_occ ->
  int max_occ = orb_elec ->
  orb_elec <> 0 ->
  let nset := length mo_occ in
  let nmo := length (hd [] mo_occ) in
  let per_orbital := Z.of_nat nset * orb_elec in
  (per_orbital | f_occ) -> (per_orbital | f_vir) ->
  exists row,
    FrozenCore.parse_active_mask_by_elec mo_occ f_occ f_vir = Ok (repeat row nset) /\
    length row = nmo /\
    forall j, (j < nmo)%nat ->
      nth j row true =
      negb ((j <? Np.slice_bound nmo (f_occ / per_orbital))%nat
            || (0 <? f_vir / per_orbital)
               && (Np.slice_bound nmo (- (f_vir / per_orbital)) <=? j)%nat).
Proof.
  intros Hmax Hint Hnz nset nmo per_orbital Hdo Hdv.
  destruct (parse_active_mask_by_elec_run mo_occ f_occ f_vir max_occ orb_elec Hmax Hint Hnz)
    as [Hper Hrun].
  fold nset nmo per_orbital in Hrun. rewrite Hrun.
  apply Z.mod_divide in Hdo; [ | assumption ]. apply Z.mod_divide in Hdv; [ | assumption ].
  rewrite Hdo, Hdv. cbn [Z.eqb andb negb]. cbv zeta.
  destruct (0 <? f_vir / per_orbital); eexists; (split; [ reflexivity | ]);
    (split; [ now rewrite ?length_set_range, repeat_length | ]);
    intros j Hj; rewrite ?nth_set_range by (rewrite ?length_set_range, repeat_length; lia);
    rewrite nth_repeat; cbn [Nat.leb andb].
  - destruct (Nat.ltb_spec j nmo); [ | lia ].
    destruct (j <? _)%nat, (_ <=? j)%nat; reflexivity.
  - destruct (j <? _)%nat; reflexivity.
Qed.

(** The same row for a positive capacity and non-negative numbers of
    electrons. *)
Lemma parse_active_mask_by_elec_ok
      (mo_occ : list (list Q)) (f_occ f_vir : Z) (max_occ : Q) (orb_elec : Z) :
  FrozenCore.np_max mo_occ = Ok max_occ ->
  int max_occ = orb_elec ->
  0 < orb_elec -> 0 <= f_occ -> 0 <= f_vir ->
  let nset := length mo_occ in
  let nmo := length (hd [] mo_occ) in
  let per_orbital := Z.of_nat nset * orb_elec in
  (per_orbital | f_occ) -> (per_orbital | f_vir) ->
  exists row,
    FrozenCore.parse_active_mask_by_elec mo_occ f_occ f_vir = Ok (repeat row nset) /\
    length row = nmo /\
    forall j, (j < nmo)%nat ->
      nth j row true =
      negb ((Z.of_nat j <? f_occ / per_orbital)
            || (Z.of_nat nmo - f_vir / per_orbital <=? Z.of_nat j)).
Proof.
  cbv zeta. intros Hmax Hint Hpos Hocc Hvir Hdo Hdv.
  pose proof (np_max_nonempty _ _ Hmax) as Hn.
  destruct (parse_active_mask_by_elec_rows mo_occ f_occ f_vir max_occ orb_elec Hmax Hint
              ltac:(lia) Hdo Hdv) as (row & Heq & Hlen & Hrow).
  exists row. split; [ exact Heq | ]. split; [ exact Hlen | ].
  intros j Hj. rewrite (Hrow j Hj). clear Hrow Heq.
  set (nmo := length (hd [] mo_occ)) in *.
  set (per_orbital := Z.of_nat (length mo_occ) * orb_elec) in *.
  assert (Hper : 0 < per_orbital) by (unfold per_orbital; nia).
  assert (Hqo : 0 <= f_occ / per_orbital) by (apply Z.div_pos; lia).
  assert (Hqv : 0 <= f_vir / per_orbital) by (apply Z.div_pos; lia).
  unfold Np.slice_bound.
  destruct (Z.ltb_spec (f_occ / per_orbital) 0); [ lia | ].
  destruct (Z.ltb_spec 0 (f_vir / per_orbital)) as [Hv | Hv]; cbn [andb].
  - destruct (Z.ltb_spec (- (f_vir / per_orbital)) 0); [ | lia ].
    destruct (Nat.leb_spec (Z.to_nat (Z.max 0 (- (f_vir / per_orbital) + Z.of_nat nmo))) j),
      (Nat.ltb_spec j (Nat.min (Z.to_nat (f_occ / per_orbital)) nmo)),
      (Z.ltb_spec (Z.of_nat j) (f_occ / per_orbital)),
      (Z.leb_spec (Z.of_nat nmo - f_vir / per_orbital) (Z.of_nat j));
      cbn; try reflexivity; lia.
  - destruct (Nat.ltb_spec j (Nat.min (Z.to_nat (f_occ / per_orbital)) nmo)),
      (Z.ltb_spec (Z.of_nat j) (f_occ / per_orbital)),
      (Z.leb_spec (Z.of_nat nmo - f_vir / per_orbital) (Z.of_nat j));
      cbn; try reflexivity; lia.
Qed.

(** C6 (amended).  Let [m] be the largest occupation number of the array
    and let its integer part [orb_elec], the capacity of an orbital, be
    other than zero.  [parse_active_mask_by_elec] raises [ValueError] if and
    only if the frozen-occupied or the frozen-virtual number of electrons is
    not a multiple of (number of occupation sets) * [orb_elec]; when both
    are, it returns a mask of one row per set, in which, for a positive
    capacity and non-negative numbers, orbital [j] is frozen exactly when it
    is among the lowest [f_occ / per_orbital] or the highest
    [f_vir / per_orbital] orbitals. *)
Theorem parse_active_mask_by_elec_validation
        (mo_occ : list (list Q)) (m : Q) (f_occ f_vir orb_elec : Z) :
  largest m (concat mo_occ) ->
  integer_part m orb_elec ->
  orb_elec <> 0 ->
  let nset := length mo_occ in
  let nmo := length (hd [] mo_occ) in
  let per_orbital := Z.of_nat nset * orb_elec in
  (FrozenCore.parse_active_mask_by_elec mo_occ f_occ f_vir = Raise ValueError <->
   ~ ((per_orbital | f_occ) /\ (per_orbital | f_vir))) /\
  ((per_orbital | f_occ) -> (per_orbital | f_vir) ->
   exists mask,
     FrozenCore.parse_active_mask_by_elec mo_occ f_occ f_vir = Ok mask /\
     length mask = nset /\
     (0 < orb_elec -> 0 <= f_occ -> 0 <= f_vir ->
      forall ch j, (ch < nset)%nat -> (j < nmo)%nat ->
        nth j (nth ch mask []) true =
        negb ((Z.of_nat j <? f_occ / per_orbital)
              || (Z.of_nat nmo - f_vir / per_orbital <=? Z.of_nat j)))).
Proof.
  cbv zeta. intros Hlargest Hpart Hnz.
  destruct (capacity_of_largest mo_occ m orb_elec Hlargest Hpart) as (max_occ & Hmax & Hint).
  destruct (parse_active_mask_by_elec_run mo_occ f_occ f_vir max_occ orb_elec Hmax Hint Hnz)
    as [Hper Hrun].
  split; [ split | ].
  - intros Hraise [Hdo Hdv].
    destruct (parse_active_mask_by_elec_rows mo_occ f_occ f_vir max_occ orb_elec
                Hmax Hint Hnz Hdo Hdv) as (row & Heq & _).
    congruence.
  - intros Hnot. rewrite Hrun.
    destruct (Z.eqb_spec (f_occ mod (Z.of_nat (length mo_occ) * orb_elec)) 0) as [Ho | Ho];
      destruct (Z.eqb_spec (f_vir mod (Z.of_nat (length mo_occ) * orb_elec)) 0) as [Hv | Hv];
      cbn [andb negb]; try reflexivity.
    exfalso. apply Hnot. split; apply Z.mod_divide; assumption.
  - intros Hdo Hdv.
    destruct (parse_active_mask_by_elec_rows mo_occ f_occ f_vir max_occ orb_elec
                Hmax Hint Hnz Hdo Hdv) as (row & Heq & _).
    exists (repeat row (length mo_occ)).
    split; [ exact Heq | ]. split; [ apply repeat_length | ].
    intros Hpos Hocc Hvir ch j Hch Hj.
    destruct (parse_active_mask_by_elec_ok _ _ _ _ _ Hmax Hint Hpos Hocc Hvir Hdo Hdv)
      as (row' & Heq' & _ & Hrow).
    rewrite Heq' in Heq. injection Heq as Hsame.
    rewrite <- Hsame, nth_repeat_lt by assumption. now apply Hrow.
Qed.

Lemma parse_active_mask_by_elec_validation_witness :
  largest 1 (concat open_shell_occ) /\ integer_part 1 1 /\ 1 <> 0 /\
  let nset := length open_shell_occ in
  let nmo := length (hd [] open_shell_occ) in
  let per_orbital := Z.of_nat nset * 1 in
  (FrozenCore.parse_active_mask_by_elec open_shell_occ 2 4 = Raise ValueError <->
   ~ ((per_orbital | 2) /\ (per_orbital | 4))) /\
  ((per_orbital | 2) -> (per_orbital | 4) ->
   exists mask,
     FrozenCore.parse_active_mask_by_elec open_shell_occ 2 4 = Ok mask /\
     length mask = nset /\
     (0 < 1 -> 0 <= 2 -> 0 <= 4 ->
      forall ch j, (ch < nset)%nat -> (j < nmo)%nat ->
        nth j (nth ch mask []) true =
        negb ((Z.of_nat j <? 2 / per_orbital)
              || (Z.of_nat nmo - 4 / per_orbital <=? Z.of_nat j)))).
Proof.
  assert (Hlargest : largest 1 (concat open_shell_occ)).
  { split; [ now left | ]. repeat constructor; discriminate. }
  assert (Hpart : integer_part 1 1).
  { split; intros H; split; reflexivity || discriminate. }
  split; [ exact Hlargest | ]. split; [ exact Hpart | ]. split; [ lia | ].
  apply (parse_active_mask_by_elec_validation open_shell_occ 1 2 4 1);
    [ exact Hlargest | exact Hpart | lia ].
Defined.

(** C6 (as stated) fails where the largest occupation number is not whole.
    For the occupation numbers 2 + 2^-17 and 2 - 2^-17, which
    [check_sanity] lets pass for a molecule of four electrons, the largest
    one is 2 + 2^-17, and 2 is no whole multiple of it, yet the code, whose
    capacity is the integer part 2, returns a mask for two frozen electrons.  It fails as
    well where the capacity is zero: the test of divisibility then divides
    by zero, whatever the numbers of electrons are.  And a negative number
    of frozen electrons, which counts no orbitals, is read as an index from
    the end: for -2 electrons and the capacity 2 all orbitals but the last
    are frozen. *)
Lemma capacity_is_maximum_counterexample :
  largest (262145 # 131072) (concat nearly_whole_occ) /\
  FrozenCore.check_sanity
    (FrozenCore.init {| atoms := [(2, 2%nat); (2, 2%nat)]; nelectron := 4 |}
       (Arr2 nearly_whole_occ) RuleNone false None) = Ok tt /\
  FrozenCore.parse_active_mask_by_elec nearly_whole_occ 2 0 = Ok [[false; true]] /\
  ~ evenly_divisible 2 (inject_Z (Z.of_nat (length nearly_whole_occ)) * (262145 # 131072)) /\
  ~ (FrozenCore.parse_active_mask_by_elec nearly_whole_occ 2 0 = Raise ValueError <->
     ~ (evenly_divisible 2
          (inject_Z (Z.of_nat (length nearly_whole_occ)) * (262145 # 131072)) /\
        evenly_divisible 0
          (inject_Z (Z.of_nat (length nearly_whole_occ)) * (262145 # 131072)))) /\
  largest 0 (concat [[0; 0; 0]]%Q) /\
  evenly_divisible 0 (inject_Z 1 * 0) /\
  FrozenCore.parse_active_mask_by_elec [[0; 0; 0]]%Q 0 0 = Raise ZeroDivisionError /\
  FrozenCore.parse_active_mask_by_elec closed_shell_occ (-2) 0
  = Ok [[false; false; false; false; false; false; true]].
Proof.
  assert (Hnot : ~ evenly_divisible 2
                   (inject_Z (Z.of_nat (length nearly_whole_occ)) * (262145 # 131072))).
  { intros [k Hk]. unfold Qeq in Hk. cbn in Hk. lia. }
  split.
  { split; [ now left | ]. repeat constructor; discriminate. }
  split; [ vm_compute; reflexivity | ]. split; [ vm_compute; reflexivity | ].
  split; [ exact Hnot | ]. split.
  { intros [_ Hraise].
    assert (H : FrozenCore.parse_active_mask_by_elec nearly_whole_occ 2 0 = Raise ValueError)
      by (apply Hraise; intros [H _]; exact (Hnot H)).
    vm_compute in H. discriminate. }
  split.
  { split; [ now left | ]. repeat constructor; discriminate. }
  split; [ exists 0; reflexivity | ]. split; vm_compute; reflexivity.
Qed.

(** The two outcomes on an open-shell occupation of five orbitals. *)
Example parse_active_mask_by_elec_runs :
  FrozenCore.parse_active_mask_by_elec open_shell_occ 2 4
  = Ok [[false; true; true; false; false]; [false; true; true; false; false]] /\
  FrozenCore.parse_active_mask_by_elec open_shell_occ 1 0 = Raise ValueError /\
  FrozenCore.parse_active_mask_by_elec open_shell_occ 2 3 = Raise ValueError.
Proof. repeat split; reflexivity. Qed.

(** Outside the hypotheses of C6 other exceptions arise: an occupation array
    whose largest number has the integer part zero makes the test of
    divisibility divide by zero, and an occupation array without items has
    no maximum. *)
Example parse_active_mask_by_elec_degenerate :
  FrozenCore.parse_active_mask_by_elec [[0; 0; 0]]%Q 2 0 = Raise ZeroDivisionError /\
  FrozenCore.parse_active_mask_by_elec [[1 # 2; 1 # 2]]%Q 1 0 = Raise ZeroDivisionError /\
  FrozenCore.parse_active_mask_by_elec [[]] 0 0 = Raise ValueError.
Proof. repeat split; reflexivity. Qed.

(** C10.  When the frozen-virtual number of electrons amounts to zero
    orbitals ([n_vir_frz = 0]) and [n_occ_frz] is a column index,
    [parse_active_mask_by_elec] freezes no orbital of high index: in every
    occupation set, every entry of the mask from column [n_occ_frz] to the
    last column is [True]. *)
Theorem no_frozen_virtuals_when_count_is_zero
        (mo_occ : list (list Q)) (f_occ f_vir : Z) (max_occ : Q) (orb_elec : Z) :
  FrozenCore.np_max mo_occ = Ok max_occ ->
  int max_occ = orb_elec ->
  orb_elec <> 0 ->
  let nset := length mo_occ in
  let nmo := length (hd [] mo_occ) in
  let per_orbital := Z.of_nat nset * orb_elec in
  let n_occ_frz := f_occ / per_orbital in
  let n_vir_frz := f_vir / per_orbital in
  (per_orbital | f_occ) -> (per_orbital | f_vir) ->
  n_vir_frz = 0 ->
  0 <= n_occ_frz ->
  exists mask,
    FrozenCore.parse_active_mask_by_elec mo_occ f_occ f_vir = Ok mask /\
    length mask = nset /\
    forall ch j, (ch < nset)%nat -> n_occ_frz <= Z.of_nat j -> (j < nmo)%nat ->
      nth j (nth ch mask []) false = true.
Proof.
  cbv zeta. intros Hmax Hint Hnz Hdo Hdv Hzero Hocc.
  destruct (parse_active_mask_by_elec_rows mo_occ f_occ f_vir max_occ orb_elec
              Hmax Hint Hnz Hdo Hdv) as (row & Heq & Hlen & Hrow).
  exists (repeat row (length mo_occ)). split; [ exact Heq | ]. split; [ apply repeat_length | ].
  intros ch j Hch Hlo Hj. rewrite nth_repeat_lt by assumption.
  rewrite (nth_indep _ false true) by lia.
  rewrite Hrow by assumption. rewrite Hzero. cbn [Z.ltb Z.compare andb]. rewrite orb_false_r.
  unfold Np.slice_bound.
  destruct (Z.ltb_spec (f_occ / (Z.of_nat (length mo_occ) * orb_elec)) 0); [ lia | ].
  destruct (Nat.ltb_spec j
              (Nat.min (Z.to_nat (f_occ / (Z.of_nat (length mo_occ) * orb_elec)))
                       (length (hd [] mo_occ)))); [ lia | reflexivity ].
Qed.

Lemma no_frozen_virtuals_when_count_is_zero_witness :
  FrozenCore.np_max closed_shell_occ = Ok 2%Q /\ int 2 = 2 /\ 2 <> 0 /\
  let nset := length closed_shell_occ in
  let nmo := length (hd [] closed_shell_occ) in
  let per_orbital := Z.of_nat nset * 2 in
  let n_occ_frz := 4 / per_orbital in
  let n_vir_frz := 0 / per_orbital in
  (per_orbital | 4) /\ (per_orbital | 0) /\ n_vir_frz = 0 /\ 0 <= n_occ_frz /\
  exists mask,
    FrozenCore.parse_active_mask_by_elec closed_shell_occ 4 0 = Ok mask /\
    length mask = nset /\
    forall ch j, (ch < nset)%nat -> n_occ_frz <= Z.of_nat j -> (j < nmo)%nat ->
      nth j (nth ch mask []) false = true.
Proof.
  split; [ reflexivity | ]. split; [ reflexivity | ]. split; [ lia | ].
  cbv zeta.
  split; [ exists 2; reflexivity | ]. split; [ exists 0; reflexivity | ].
  split; [ reflexivity | ]. split; [ discriminate | ].
  apply (no_frozen_virtuals_when_count_is_zero closed_shell_occ 4 0 2%Q 2);
    [ reflexivity | reflexivity | lia | exists 2; reflexivity | exists 0; reflexivity
    | reflexivity | discriminate ].
Defined.

(** The rule [None] freezes nothing at all. *)
Example no_rule_freezes_nothing (CONFIGURATION : list (list Z)) :
  FrozenCore.get_active_mask CONFIGURATION
    (FrozenCore.init water (Arr1 [2; 2; 2; 2; 2; 0; 0]%Q) RuleNone false None)
  = Ok (Arr1 [true; true; true; true; true; true; true]).
Proof. reflexivity. Qed.

(** ** The frozen numbers of a molecule *)

Section FrozenNumbers.

Variable CONFIGURATION : list (list Z).
Variable rule : rule_spec.
Variable ecp_only : bool.

(** The exceptions of an iteration do not depend on the numbers collected so
    far, and its contribution is added to them. *)
Lemma add_atom_shift (x y dx dy : Z) (atom : Z * nat) :
  FrozenCore.add_atom CONFIGURATION rule ecp_only (x + dx, y + dy) atom
  = shift (dx, dy) (FrozenCore.add_atom CONFIGURATION rule ecp_only (x, y) atom).
Proof.
  unfold FrozenCore.add_atom. destruct atom as [nelec nchrg].
  destruct (FrozenCore.rule_of_atom rule nchrg) as [rule_atom|];
    cbn [bind shift]; [ | reflexivity ].
  destruct (FrozenCore.rule_numbers CONFIGURATION rule_atom nchrg) as [[f v]|];
    cbn [bind shift fst snd]; [ | reflexivity ].
  f_equal. f_equal; lia.
Qed.

Lemma for_each_add_atom_shift (l : list (Z * nat)) (x y dx dy : Z) :
  for_each (FrozenCore.add_atom CONFIGURATION rule ecp_only) l (x + dx, y + dy)
  = shift (dx, dy) (for_each (FrozenCore.add_atom CONFIGURATION rule ecp_only) l (x, y)).
Proof.
  revert x y. induction l as [|atom l IH]; intros x y; cbn [for_each].
  - reflexivity.
  - rewrite add_atom_shift.
    destruct (FrozenCore.add_atom CONFIGURATION rule ecp_only (x, y) atom) as [[F V]|];
      cbn [bind shift fst snd].
    + apply IH.
    + reflexivity.
Qed.

(** An atom that contributes [(c, v)] adds just that to the numbers of the
    molecule without it. *)
Lemma for_each_add_atom_insert (before after : list (Z * nat)) (atom : Z * nat)
      (acc : Z * Z) (c v F V : Z) :
  (forall x y, FrozenCore.add_atom CONFIGURATION rule ecp_only (x, y) atom
               = Ok (x + c, y + v)) ->
  for_each (FrozenCore.add_atom CONFIGURATION rule ecp_only) (before ++ after) acc
  = Ok (F, V) ->
  for_each (FrozenCore.add_atom CONFIGURATION rule ecp_only) (before ++ atom :: after) acc
  = Ok (F + c, V + v).
Proof.
  intros Hatom. revert acc.
  induction before as [|a before IH]; intros [x y]; cbn [app for_each].
  - intros Hrest. rewrite Hatom. cbn [bind].
    rewrite for_each_add_atom_shift, Hrest. reflexivity.
  - destruct (FrozenCore.add_atom CONFIGURATION rule ecp_only (x, y) a) as [acc'|];
      cbn [bind]; [ apply IH | discriminate ].
Qed.

End FrozenNumbers.

(** C5.  Take an atom with a pseudopotential (its number of electrons
    differs from its nuclear charge) whose rule gives the frozen numbers
    [(f, v)], in a molecule resolved atom by atom.  Compared with the
    molecule without it, the atom adds to the frozen-occupied number 0 when
    [ecp_only] is set and [f - min(f, nuclear charge - electrons)]
    otherwise, and this contribution is never negative. *)
Theorem ecp_atom_contribution
        (CONFIGURATION : list (list Z)) (rule : rule_spec) (ecp_only : bool)
        (before after : list (Z * nat)) (nelec : Z) (nchrg : nat) (n n' : Z)
        (rule_atom : atom_rule) (f v F V : Z) :
  resolved_per_atom rule = true ->
  nelec <> Z.of_nat nchrg ->
  FrozenCore.rule_of_atom rule nchrg = Ok rule_atom ->
  FrozenCore.rule_numbers CONFIGURATION rule_atom nchrg = Ok (f, v) ->
  FrozenCore.parse_frozen_numbers CONFIGURATION
    {| atoms := before ++ after; nelectron := n |} rule ecp_only = Ok (F, V) ->
  let contribution :=
    if ecp_only then 0 else f - Z.min f (Z.of_nat nchrg - nelec) in
  FrozenCore.parse_frozen_numbers CONFIGURATION
    {| atoms := before ++ (nelec, nchrg) :: after; nelectron := n' |} rule ecp_only
  = Ok (F + contribution, V + v)
  /\ 0 <= contribution.
Proof.
  intros Hrule Hecp Hatom Hnum Hrest contribution. split.
  - assert (Hloop : forall m,
               FrozenCore.parse_frozen_numbers CONFIGURATION m rule ecp_only
               = for_each (FrozenCore.add_atom CONFIGURATION rule ecp_only) (atoms m) (0, 0)).
    { intros m. destruct rule; try reflexivity; discriminate. }
    rewrite Hloop in *. cbn [atoms] in *.
    apply for_each_add_atom_insert; [ | assumption ].
    intros x y. unfold FrozenCore.add_atom. rewrite Hatom. cbn [bind]. rewrite Hnum. cbn [bind].
    replace (nelec =? Z.of_nat nchrg) with false by (symmetry; now apply Z.eqb_neq).
    cbn [negb andb]. unfold contribution. destruct ecp_only; reflexivity.
  - unfold contribution. destruct ecp_only; lia.
Qed.

(** The molecule of the self-test of the module: the rule freezes 36
    electrons of iodine, of which the pseudopotential has removed 28. *)
Lemma ecp_atom_contribution_witness :
  resolved_per_atom (RuleStr "FreezeNobleGasCore") = true /\
  25 <> Z.of_nat 53 /\
  FrozenCore.rule_of_atom (RuleStr "FreezeNobleGasCore") 53
  = Ok (AtomStr "FreezeNobleGasCore") /\
  FrozenCore.rule_numbers ground_state_configuration (AtomStr "FreezeNobleGasCore") 53
  = Ok (36, 0) /\
  FrozenCore.parse_frozen_numbers ground_state_configuration
    {| atoms := [] ++ [(1, 1%nat); (8, 8%nat)]; nelectron := 9 |}
    (RuleStr "FreezeNobleGasCore") false = Ok (2, 0) /\
  FrozenCore.parse_frozen_numbers ground_state_configuration
    {| atoms := [] ++ (25, 53%nat) :: [(1, 1%nat); (8, 8%nat)]; nelectron := 34 |}
    (RuleStr "FreezeNobleGasCore") false
  = Ok (2 + (36 - Z.min 36 (Z.of_nat 53 - 25)), 0 + 0)
  /\ 0 <= 36 - Z.min 36 (Z.of_nat 53 - 25).
Proof.
  split; [ reflexivity | ]. split; [ lia | ]. split; [ reflexivity | ].
  split; [ vm_compute; reflexivity | ]. split; [ vm_compute; reflexivity | ].
  apply (ecp_atom_contribution ground_state_configuration (RuleStr "FreezeNobleGasCore")
           false [] [(1, 1%nat); (8, 8%nat)] 25 53 9 34
           (AtomStr "FreezeNobleGasCore") 36 0 2 0);
    [ reflexivity | lia | reflexivity | vm_compute; reflexivity | vm_compute; reflexivity ].
Defined.

(** The scenario of an atom of 18 electrons of which a pseudopotential
    removes 10, under a rule that freezes 10: nothing is left to freeze, with
    or without [ecp_only]. *)
Example argon_with_pseudopotential :
  FrozenCore.rule_numbers ground_state_configuration (AtomStr "Freeze-Noble-Gas-Core") 18
  = Ok (10, 0) /\
  FrozenCore.parse_frozen_numbers ground_state_configuration
    {| atoms := [(8, 18%nat)]; nelectron := 8 |} (RuleStr "Freeze-Noble-Gas-Core") false
  = Ok (0, 0) /\
  FrozenCore.parse_frozen_numbers ground_state_configuration
    {| atoms := [(8, 18%nat)]; nelectron := 8 |} (RuleStr "Freeze-Noble-Gas-Core") true
  = Ok (0, 0).
Proof. repeat split; vm_compute; reflexivity. Qed.

(** ** The cache of the mask *)

Lemma get_active_mask_reset (CONFIGURATION : list (list Z)) (self : FrozenCore.t) :
  FrozenCore.get_active_mask CONFIGURATION (FrozenCore.reset self)
  = FrozenCore.get_active_mask CONFIGURATION self.
Proof. reflexivity. Qed.

(** C9.  Once the property [mask] has returned a mask, a further access
    returns the same mask and leaves the object as it is; the mask is the
    cached one, whatever the other attributes are; and after [reset] the
    next access returns what [get_active_mask] computes. *)
Theorem mask_cached_until_reset
        (CONFIGURATION : list (list Z)) (self self' : FrozenCore.t) (m : ndarray bool) :
  FrozenCore.mask CONFIGURATION self = (Ok m, self') ->
  FrozenCore.mask CONFIGURATION self' = (Ok m, self') /\
  (forall other,
      FrozenCore._mask other = FrozenCore._mask self' ->
      FrozenCore.mask CONFIGURATION other = (Ok m, other)) /\
  fst (FrozenCore.mask CONFIGURATION (FrozenCore.reset self'))
  = FrozenCore.get_active_mask CONFIGURATION self'.
Proof.
  intros Hfirst.
  assert (Hcache : FrozenCore._mask self' = Some m).
  { unfold FrozenCore.mask in Hfirst.
    destruct (FrozenCore._mask self) as [m0|] eqn:Hm.
    - injection Hfirst as -> ->. exact Hm.
    - destruct (FrozenCore.get_active_mask CONFIGURATION self) as [m1|];
        [ | discriminate ].
      injection Hfirst as -> <-. reflexivity. }
  split; [ | split ].
  - unfold FrozenCore.mask. rewrite Hcache. reflexivity.
  - intros other Hother. unfold FrozenCore.mask. rewrite Hother, Hcache. reflexivity.
  - unfold FrozenCore.mask. cbn [FrozenCore.reset FrozenCore._mask].
    rewrite get_active_mask_reset.
    destruct (FrozenCore.get_active_mask CONFIGURATION self'); reflexivity.
Qed.

Lemma mask_cached_until_reset_witness :
  FrozenCore.mask ground_state_configuration
    (FrozenCore.init beryllium (Arr1 [2; 2; 0]%Q) (RuleList [0]) false None)
  = (Ok (Arr1 [false; true; true]),
     FrozenCore.Build beryllium (Arr1 [2; 2; 0]%Q) None (RuleList [0]) false
       (Some (Arr1 [false; true; true])) None) /\
  FrozenCore.mask ground_state_configuration
    (FrozenCore.Build beryllium (Arr1 [2; 2; 0]%Q) None (RuleList [0]) false
       (Some (Arr1 [false; true; true])) None)
  = (Ok (Arr1 [false; true; true]),
     FrozenCore.Build beryllium (Arr1 [2; 2; 0]%Q) None (RuleList [0]) false
       (Some (Arr1 [false; true; true])) None).
Proof.
  split; [ reflexivity | ].
  apply (mask_cached_until_reset ground_state_configuration
           (FrozenCore.init beryllium (Arr1 [2; 2; 0]%Q) (RuleList [0]) false None)).
  reflexivity.
Defined.

(** The cache outlives a change of the rule, and [reset] ends it. *)
Example mask_after_change_of_rule :
  let cached :=
    FrozenCore.Build beryllium (Arr1 [2; 2; 0]%Q) None (RuleList [1]) false
      (Some (Arr1 [false; true; true])) None in
  fst (FrozenCore.mask ground_state_configuration cached) = Ok (Arr1 [false; true; true]) /\
  fst (FrozenCore.mask ground_state_configuration (FrozenCore.reset cached))
  = Ok (Arr1 [true; false; true]).
Proof. split; reflexivity. Qed.

(** ** Where the code departs from its documentation *)

(** C1.  For beryllium with the occupation [2, 2, 0] and the list [0] of
    frozen orbitals, the mask marks orbital 0 as frozen, and [frozen] returns
    the indices 1 and 2: those of the active orbitals, where the mask is
    true, not the list [0]. *)
Theorem frozen_returns_active_indices (CONFIGURATION : list (list Z)) :
  fst (FrozenCore.mask CONFIGURATION
         (FrozenCore.init beryllium (Arr1 [2; 2; 0]%Q) (RuleList [0]) false None))
  = Ok (Arr1 [false; true; true]) /\
  fst (FrozenCore.frozen CONFIGURATION
         (FrozenCore.init beryllium (Arr1 [2; 2; 0]%Q) (RuleList [0]) false None))
  = Ok (Arr1 [1; 2]%nat).
Proof. split; reflexivity. Qed.

Lemma in_enumerate_from {A : Type} (s : nat) (l : list A) (i : nat) (x : A) :
  In (i, x) (Np.enumerate_from s l) <-> (s <= i)%nat /\ nth_error l (i - s) = Some x.
Proof.
  revert s. induction l as [|y l IH]; intros s; cbn [Np.enumerate_from In].
  - split; [ intros [] | ]. intros [_ H]. destruct (i - s)%nat; discriminate.
  - rewrite IH. split.
    + intros [[= <- <-] | [Hle Hnth]].
      * split; [ lia | ]. now rewrite Nat.sub_diag.
      * split; [ lia | ]. replace (i - s)%nat with (S (i - S s)) by lia. exact Hnth.
    + intros [Hle Hnth]. destruct (Nat.eq_dec i s) as [-> | Hne].
      * left. rewrite Nat.sub_diag in Hnth. cbn in Hnth. now injection Hnth as ->.
      * right. split; [ lia | ].
        replace (i - s)%nat with (S (i - S s)) in Hnth by lia. exact Hnth.
Qed.

(** [where_true] lists the positions at which a row is true. *)
Lemma in_where_true (row : list bool) (i : nat) :
  In i (FrozenCore.where_true row) <-> nth_error row i = Some true.
Proof.
  unfold FrozenCore.where_true, Np.enumerate. rewrite in_map_iff. split.
  - intros ([j b] & Hfst & Hin). cbn in Hfst. subst j.
    apply filter_In in Hin as [Hin Hb]. cbn in Hb. subst b.
    apply in_enumerate_from in Hin as [_ Hnth]. now rewrite Nat.sub_0_r in Hnth.
  - intros Hnth. exists (i, true). split; [ reflexivity | ].
    apply filter_In. split; [ | reflexivity ].
    apply in_enumerate_from. split; [ lia | ]. now rewrite Nat.sub_0_r.
Qed.

(** The loop over a list of frozen orbitals leaves every listed orbital
    false in the row. *)
Lemma clear_listed_orbitals (nmo : nat) (l : list Z) (row row' : list bool) :
  length row = nmo ->
  for_each (fun mask k =>
              j <- Np.index nmo k ;;
              Ok (map (fun r => Np.set_item r j false) mask)) l [row] = Ok [row'] ->
  length row' = nmo /\
  (forall j, (j < nmo)%nat -> nth j row true = false -> nth j row' true = false) /\
  (forall k, In k l -> 0 <= k ->
             (Z.to_nat k < nmo)%nat /\ nth (Z.to_nat k) row' true = false).
Proof.
  revert row. induction l as [|k0 l IH]; intros row Hlen; cbn [for_each].
  - intros [= <-]. split; [ assumption | ]. split; [ intros; assumption | ].
    intros k [].
  - destruct (Np.index nmo k0) as [j0|] eqn:Hidx; cbn [bind map]; [ | discriminate ].
    intros Hrest.
    destruct (IH (Np.set_item row j0 false)) as (Hlen' & Hkeep & Hlisted);
      [ unfold Np.set_item; now rewrite length_set_range | exact Hrest | ].
    split; [ exact Hlen' | ]. split.
    + intros j Hj Hfalse. apply Hkeep; [ assumption | ].
      unfold Np.set_item. rewrite nth_set_range by lia.
      destruct (_ && _); [ reflexivity | assumption ].
    + intros k [<- | Hin] Hk; [ | now apply Hlisted ].
      unfold Np.index in Hidx.
      destruct (Z.leb_spec 0 k0), (Z.ltb_spec k0 (Z.of_nat nmo)); cbn [andb] in Hidx;
        try lia.
      * injection Hidx as <-. split; [ lia | ]. apply Hkeep; [ lia | ].
        unfold Np.set_item. rewrite nth_set_range by lia.
        destruct (Nat.leb_spec (Z.to_nat k0) (Z.to_nat k0)),
          (Nat.ltb_spec (Z.to_nat k0) (S (Z.to_nat k0))); cbn; try reflexivity; lia.
      * destruct (Z.ltb_spec k0 0); [ lia | discriminate ].
Qed.

(** X24.  For a list of frozen orbitals as rule and one-dimensional occupation
    numbers, whenever frozen returns, none of the non-negative indices of the
    list is among the indices it returns. *)
Lemma frozen_excludes_listed_orbitals
        (CONFIGURATION : list (list Z)) (mol : Mole) (occ : list Q) (l : list Z)
        (ecp_only : bool) (idx : list nat) (self' : FrozenCore.t) :
  FrozenCore.frozen CONFIGURATION
    (FrozenCore.init mol (Arr1 occ) (RuleList l) ecp_only None) = (Ok (Arr1 idx), self') ->
  forall k, In k l -> 0 <= k -> ~ In (Z.to_nat k) idx.
Proof.
  unfold FrozenCore.frozen, FrozenCore.mask, FrozenCore.init.
  cbn [FrozenCore._frozen FrozenCore._mask].
  destruct (FrozenCore.get_active_mask _ _) as [m|] eqn:Hmask; [ | discriminate ].
  cbn [FrozenCore._mask FrozenCore.mol FrozenCore.mo_occ FrozenCore.mo_energy
         FrozenCore.rule FrozenCore.ecp_only FrozenCore._frozen].
  unfold FrozenCore.get_active_mask in Hmask.
  destruct (FrozenCore.check_sanity _) as [[]|]; cbn [bind] in Hmask; [ | discriminate ].
  cbn [FrozenCore.mo_occ FrozenCore.mo_energy FrozenCore.rule bind] in Hmask.
  destruct l as [|k0 l]; cbn [bind] in Hmask; [ discriminate | ].
  unfold Np.full in Hmask. cbn [repeat] in Hmask.
  match type of Hmask with
  | bind ?loop _ = _ => destruct loop as [rows|] eqn:Hloop; cbn [bind] in Hmask; [ | discriminate ]
  end.
  injection Hmask as <-. cbn [FrozenCore.reshape_like].
  intros [= <- _] k Hin Hk Hidx.
  assert (Hrows : exists row', rows = [row']).
  { clear -Hloop. revert Hloop. generalize (repeat true (length occ)).
    generalize (k0 :: l). intros ks. induction ks as [|k ks IH]; intros row; cbn [for_each].
    - intros [= <-]. now exists row.
    - destruct (Np.index (length occ) k); cbn [bind map]; [ apply IH | discriminate ]. }
  destruct Hrows as [row' ->].
  apply clear_listed_orbitals in Hloop as (Hlen & _ & Hlisted); [ | apply repeat_length ].
  destruct (Hlisted k Hin Hk) as [Hlt Hfalse].
  cbn [concat] in Hidx. rewrite app_nil_r in Hidx.
  apply in_where_true in Hidx.
  rewrite (nth_error_nth _ _ true Hidx) in Hfalse. discriminate.
Qed.

(** C2.  For water with the occupation [2, 2, 2, 2, 2, 0, 0] and the rule
    (2, 0), [get_active_mask] raises [TypeError] in the test of its second
    branch; the two functions of the rule-based branch, which is not
    reached, would freeze orbital 0 alone. *)
Theorem pair_rule_raises_type_error (CONFIGURATION : list (list Z)) :
  FrozenCore.get_active_mask CONFIGURATION
    (FrozenCore.init water (Arr1 [2; 2; 2; 2; 2; 0; 0]%Q) (RuleTuple [TInt 2; TInt 0])
       false None)
  = Raise TypeError /\
  FrozenCore.parse_frozen_numbers CONFIGURATION water (RuleTuple [TInt 2; TInt 0]) false
  = Ok (2, 0) /\
  FrozenCore.parse_active_mask_by_elec closed_shell_occ 2 0
  = Ok [[false; true; true; true; true; true; true]].
Proof. repeat split; reflexivity. Qed.

(** X18.  get_active_mask returns no mask for any object whose rule is a
    tuple: every such call raises. *)
Lemma tuple_rule_never_returns
      (CONFIGURATION : list (list Z)) (self : FrozenCore.t) (items : list tuple_item) :
  FrozenCore.rule self = RuleTuple items ->
  exists e, FrozenCore.get_active_mask CONFIGURATION self = Raise e.
Proof.
  intros Hrule. unfold FrozenCore.get_active_mask.
  destruct (FrozenCore.check_sanity self) as [[]|e]; cbn [bind]; [ | now exists e ].
  match goal with
  | |- context [bind ?c _] => destruct c as [[]|e]; cbn [bind]; [ | now exists e ]
  end.
  rewrite Hrule. destruct items; cbn [bind]; eauto.
Qed.

(** C4.  For beryllium with the occupation [2, 2, 0], the array of indices
    [0] freezes nothing, whereas the list [0] freezes orbital 0. *)
Theorem index_array_freezes_nothing (CONFIGURATION : list (list Z)) :
  FrozenCore.get_active_mask CONFIGURATION
    (FrozenCore.init beryllium (Arr1 [2; 2; 0]%Q) (RuleArray [0]) false None)
  = Ok (Arr1 [true; true; true]) /\
  FrozenCore.get_active_mask CONFIGURATION
    (FrozenCore.init beryllium (Arr1 [2; 2; 0]%Q) (RuleList [0]) false None)
  = Ok (Arr1 [false; true; true]).
Proof. split; reflexivity. Qed.

(** ** Further properties of the configuration table *)

Lemma config_cell_bounds (c : nat) (e : Z) (r : nat) :
  0 <= e <= (Z.of_nat MAX_LEVEL - Z.of_nat c) * ElementConfiguration.angular_num c ->
  0 <= config_cell c e r <= ElementConfiguration.angular_num c /\
  ((r < c)%nat -> config_cell c e r = 0).
Proof.
  intros He. unfold config_cell.
  assert (Hcap : 0 < ElementConfiguration.angular_num c)
    by (unfold ElementConfiguration.angular_num; lia).
  pose proof (Z.mod_pos_bound e _ Hcap) as Hmod.
  assert (Hq : 0 <= e / ElementConfiguration.angular_num c) by (apply Z.div_pos; lia).
  destruct (Z.eqb_spec e 0); [ lia | ].
  destruct (Nat.leb_spec c r); cbn [andb].
  - destruct (_ <? _); [ lia | ]. destruct (_ =? _); lia.
  - destruct (Z.eqb_spec (Z.of_nat r) (Z.of_nat c + e / ElementConfiguration.angular_num c));
      lia.
Qed.

Lemma tab_shape (g : nat -> nat -> Z) :
  length (tab g) = MAX_LEVEL /\ Forall (fun row => length row = MAX_ANG) (tab g).
Proof. split; [ reflexivity | ]. repeat constructor. Qed.

(** X1.  For a CONFIGURATION table of 119 rows whose entries fit the seven
    levels and an element up to 118, get_configuration_table returns a table
    of 7 levels by 4 angular momenta in which the cell of level r and angular
    momentum c holds between 0 and 2 + 4c electrons and is empty where r < c. *)
Theorem configuration_table_cells (CONFIGURATION : list (list Z)) (elem : nat) :
  table_fits CONFIGURATION = true ->
  (elem <= 118)%nat ->
  exists cfg table,
    ElementConfiguration.init CONFIGURATION elem = Ok cfg /\
    ElementConfiguration.get_configuration_table CONFIGURATION cfg = Ok table /\
    length table = MAX_LEVEL /\
    Forall (fun row => length row = MAX_ANG) table /\
    forall r c, (r < MAX_LEVEL)%nat -> (c < MAX_ANG)%nat ->
      0 <= Np.get table r c <= 2 + 4 * Z.of_nat c /\
      ((r < c)%nat -> Np.get table r c = 0).
Proof.
  intros Hfit Hle.
  destruct (table_fits_row _ _ Hfit Hle) as (config & Hnth & Hrow).
  exists (ElementConfiguration.Build elem). eexists.
  split; [ now apply init_ok | ].
  split; [ apply get_configuration_table_tab; eassumption | ].
  split; [ apply tab_shape | ]. split; [ apply tab_shape | ].
  intros r c Hr Hc. rewrite get_tab by assumption.
  apply config_cell_bounds.
  destruct (row_fits_inv _ Hrow) as (e0 & e1 & e2 & e3 & -> & H0 & H1 & H2 & H3).
  unfold MAX_ANG in Hc. unfold MAX_LEVEL, ElementConfiguration.angular_num.
  nat_cases c 4%nat; cbn; lia.
Qed.

Lemma configuration_table_cells_witness :
  table_fits ground_state_configuration = true /\
  (26 <= 118)%nat /\
  exists cfg table,
    ElementConfiguration.init ground_state_configuration 26 = Ok cfg /\
    ElementConfiguration.get_configuration_table ground_state_configuration cfg = Ok table /\
    length table = MAX_LEVEL /\
    Forall (fun row => length row = MAX_ANG) table /\
    forall r c, (r < MAX_LEVEL)%nat -> (c < MAX_ANG)%nat ->
      0 <= Np.get table r c <= 2 + 4 * Z.of_nat c /\
      ((r < c)%nat -> Np.get table r c = 0).
Proof.
  split; [ vm_compute; reflexivity | ]. split; [ lia | ].
  apply (configuration_table_cells ground_state_configuration 26);
    [ vm_compute; reflexivity | lia ].
Defined.

(** ** The active table of a rule that strips the lowest levels *)

Lemma strip_angular_false_tab (g : nat -> nat -> Z) (c : nat) (N : Z) :
  (c < MAX_ANG)%nat -> 0 <= N ->
  ElementConfiguration.strip_angular false (tab g) (c, N) =
  if (N <=? 0) || (below_cut_sum (tab g) N c mod (2 + 4 * Z.of_nat c) =? 0)
  then Ok (tab (fun r c' => if (Z.of_nat r <? N) && (c' =? c)%nat then 0 else g r c'))
  else Raise ValueError.
Proof.
  intros Hc HN. unfold ElementConfiguration.strip_angular. cbn [negb].
  change (length (tab g)) with MAX_LEVEL.
  destruct (Z.leb_spec N 0) as [Hle | Hgt]; cbn [orb].
  - assert (N = 0) by lia. subst N.
    change (Np.slice_bound MAX_LEVEL 0) with 0%nat.
    change (Np.col_prefix_sum (tab g) 0 c) with 0.
    rewrite Z.mod_0_l by lia. cbn [Z.eqb negb].
    rewrite set_col_range_tab. f_equal.
  - rewrite col_prefix_sum_tab by assumption.
    destruct (_ =? 0); cbn [negb]; [ | reflexivity ].
    rewrite set_col_range_tab. f_equal. apply tab_ext. intros x c' Hx _.
    unfold Np.slice_bound. destruct (Z.ltb_spec N 0); [ lia | ].
    cbn [Nat.leb andb].
    replace (x <? Nat.min (Z.to_nat N) MAX_LEVEL)%nat with (Z.of_nat x <? N);
      [ reflexivity | ].
    destruct (Z.ltb_spec (Z.of_nat x) N), (Nat.ltb_spec x (Nat.min (Z.to_nat N) MAX_LEVEL));
      try reflexivity; lia.
Qed.

(** X2.  With is_active false and four non-negative levels n_c,
    get_active_table zeroes the first n_c levels of every column c of the
    configuration table and keeps the other cells; it raises ValueError
    instead when, for some column with n_c > 0, the electrons in those levels
    are not a multiple of 2 + 4c. *)
Theorem frozen_levels_table
        (CONFIGURATION : list (list Z)) (elem : nat) (n0 n1 n2 n3 : Z) :
  table_fits CONFIGURATION = true ->
  (elem <= 118)%nat ->
  0 <= n0 -> 0 <= n1 -> 0 <= n2 -> 0 <= n3 ->
  exists cfg table,
    ElementConfiguration.init CONFIGURATION elem = Ok cfg /\
    ElementConfiguration.get_configuration_table CONFIGURATION cfg = Ok table /\
    ElementConfiguration.get_active_table CONFIGURATION cfg (LevelVec [n0; n1; n2; n3]) false
    = active_table_with_cuts table (fun c => nth c [n0; n1; n2; n3] 0).
Proof.
  intros Hfit Hle H0 H1 H2 H3.
  destruct (table_fits_row _ _ Hfit Hle) as (config & Hnth & Hrow).
  exists (ElementConfiguration.Build elem). eexists.
  split; [ now apply init_ok | ].
  split; [ apply get_configuration_table_tab; eassumption | ].
  unfold ElementConfiguration.get_active_table.
  rewrite (get_configuration_table_tab _ _ _ Hnth Hrow). cbn [bind].
  set (G := fun r c : nat => config_cell c (nth c config 0) r).
  replace (check (length [n0; n1; n2; n3] =? MAX_ANG)%nat AssertionError) with (Ok tt)
    by reflexivity.
  cbn [bind hd fold_right].
  replace (0 <=? Z.min n0 (Z.min n1 (Z.min n2 (Z.min n3 n0)))) with true
    by (symmetry; apply Z.leb_le; lia).
  cbn [check bind Np.enumerate Np.enumerate_from for_each].
  unfold active_table_with_cuts. cbn [seq MAX_ANG forallb nth].
  rewrite (strip_angular_false_tab G 0 n0) by (unfold MAX_ANG; lia).
  destruct (_ || _); cbn [bind andb]; [ | reflexivity ].
  match goal with |- context [ElementConfiguration.strip_angular false (tab ?g1) _] =>
    set (G1 := g1) end.
  rewrite (strip_angular_false_tab G1 1 n1) by (unfold MAX_ANG; lia).
  rewrite (below_cut_sum_tab_ext G G1)
    by (unfold MAX_ANG; lia || (intros; unfold G1; now rewrite ?andb_false_r)).
  destruct (_ || _); cbn [bind andb]; [ | reflexivity ].
  match goal with |- context [ElementConfiguration.strip_angular false (tab ?g2) _] =>
    set (G2 := g2) end.
  rewrite (strip_angular_false_tab G2 2 n2) by (unfold MAX_ANG; lia).
  rewrite (below_cut_sum_tab_ext G G2)
    by (unfold MAX_ANG; lia || (intros; unfold G2, G1; now rewrite ?andb_false_r)).
  destruct (_ || _); cbn [bind andb]; [ | reflexivity ].
  match goal with |- context [ElementConfiguration.strip_angular false (tab ?g3) _] =>
    set (G3 := g3) end.
  rewrite (strip_angular_false_tab G3 3 n3) by (unfold MAX_ANG; lia).
  rewrite (below_cut_sum_tab_ext G G3)
    by (unfold MAX_ANG; lia || (intros; unfold G3, G2, G1; now rewrite ?andb_false_r)).
  destruct (_ || _); cbn [bind andb]; [ | reflexivity ].
  rewrite zero_below_tab. f_equal. apply tab_ext. intros r c _ Hc.
  unfold MAX_ANG in Hc. unfold G3, G2, G1.
  nat_cases c 4%nat; cbn [Nat.eqb nth]; rewrite ?andb_false_r, ?andb_true_r;
    destruct (_ <? _); reflexivity.
Qed.

Lemma frozen_levels_table_witness :
  table_fits ground_state_configuration = true /\
  (26 <= 118)%nat /\
  exists cfg table,
    ElementConfiguration.init ground_state_configuration 26 = Ok cfg /\
    ElementConfiguration.get_configuration_table ground_state_configuration cfg = Ok table /\
    ElementConfiguration.get_active_table ground_state_configuration cfg
      (LevelVec [2; 2; 3; 3]) false
    = active_table_with_cuts table (fun c => nth c [2; 2; 3; 3] 0).
Proof.
  split; [ vm_compute; reflexivity | ]. split; [ lia | ].
  apply (frozen_levels_table ground_state_configuration 26 2 2 3 3);
    [ vm_compute; reflexivity | lia | lia | lia | lia | lia ].
Defined.

(** ** Bounds on the number of core electrons *)

(** An iteration of the loop of [get_active_table] leaves every cell as it
    is or sets it to zero. *)
Lemma strip_angular_cells (is_active : bool) (g : nat -> nat -> Z) (item : nat * Z)
      (table : Np.array2 Z) :
  ElementConfiguration.strip_angular is_active (tab g) item = Ok table ->
  exists g', table = tab g' /\ forall r c, g' r c = g r c \/ g' r c = 0.
Proof.
  destruct item as [angular active]. unfold ElementConfiguration.strip_angular.
  assert (Hset : forall n,
             exists g', Np.set_col_range (tab g) 0 n angular 0 = tab g' /\
                        forall r c, g' r c = g r c \/ g' r c = 0).
  { intros n. rewrite set_col_range_tab. eexists. split; [ reflexivity | ].
    intros r c. cbv beta. destruct (_ && _); [ now right | now left ]. }
  assert (Hsame : exists g', tab g = tab g' /\ forall r c, g' r c = g r c \/ g' r c = 0)
    by (exists g; split; [ reflexivity | now left ]).
  destruct is_active; cbn [negb].
  - destruct (ElementConfiguration.non_empty_level (tab g)) as [|r others].
    + intros [= <-]. exact Hsame.
    + cbv zeta. destruct (_ <=? 0).
      * intros [= <-]. exact Hsame.
      * destruct (negb _); [ discriminate | ]. intros [= <-]. apply Hset.
  - cbv zeta. destruct (negb _); [ discriminate | ]. intros [= <-]. apply Hset.
Qed.

Lemma strip_loop_cells (is_active : bool) (items : list (nat * Z)) (g : nat -> nat -> Z)
      (table : Np.array2 Z) :
  for_each (ElementConfiguration.strip_angular is_active) items (tab g) = Ok table ->
  exists g', table = tab g' /\ forall r c, g' r c = g r c \/ g' r c = 0.
Proof.
  revert g. induction items as [|item items IH]; intros g; cbn [for_each].
  - intros [= <-]. exists g. split; [ reflexivity | now left ].
  - destruct (ElementConfiguration.strip_angular is_active (tab g) item) as [t1|] eqn:Hstep;
      cbn [bind]; [ | discriminate ].
    apply strip_angular_cells in Hstep as (g1 & -> & Hg1).
    intros Hrest. apply IH in Hrest as (g' & -> & Hg').
    exists g'. split; [ reflexivity | ].
    intros r c. destruct (Hg' r c) as [-> | ->]; [ apply Hg1 | now right ].
Qed.

Lemma sum2_tab_bounds (g g' : nat -> nat -> Z) :
  (forall r c, (r < MAX_LEVEL)%nat -> (c < MAX_ANG)%nat -> 0 <= g r c) ->
  (forall r c, g' r c = g r c \/ g' r c = 0) ->
  0 <= Np.sum2 (tab g') <= Np.sum2 (tab g).
Proof.
  intros Hpos Hcells.
  assert (Hcell : forall r c, (r < MAX_LEVEL)%nat -> (c < MAX_ANG)%nat ->
                              0 <= g' r c <= g r c).
  { intros r c Hr Hc. specialize (Hpos r c Hr Hc). destruct (Hcells r c); lia. }
  rewrite !sum2_tab. unfold MAX_LEVEL, MAX_ANG in *. cbn [seq map Np.sum fold_right].
  repeat match goal with
         | |- context [g' ?r ?c] =>
             lazymatch goal with
             | _ : 0 <= g' r c <= g r c |- _ => fail
             | _ => pose proof (Hcell r c ltac:(lia) ltac:(lia))
             end
         end.
  lia.
Qed.

(** X3.  For a CONFIGURATION table of 119 rows whose entries fit the seven
    levels: whenever get_num_core returns a number for a rule and an element,
    the element is at most 118 and the number lies between 0 and the number of
    electrons that CONFIGURATION gives the element, whatever levels the rule
    holds. *)
Theorem get_num_core_bounds
        (CONFIGURATION : list (list Z)) (rule : FrozenRule.t) (elem : nat) (n : Z) :
  table_fits CONFIGURATION = true ->
  FrozenRule.get_num_core CONFIGURATION rule elem = Ok n ->
  (elem <= 118)%nat /\ 0 <= n <= canonical_electron_count CONFIGURATION elem.
Proof.
  intros Hfit. unfold FrozenRule.get_num_core, ElementConfiguration.init.
  rewrite (table_fits_length _ Hfit).
  destruct (Z.ltb_spec (Z.of_nat 119 - 1) (Z.of_nat elem)) as [Hgt | Hle];
    cbn [bind]; [ discriminate | ].
  assert (Hle' : (elem <= 118)%nat) by lia.
  destruct (nth_error (FrozenRule.active_levels rule) _) as [level|]; [ | discriminate ].
  destruct (table_fits_row _ _ Hfit Hle') as (config & Hnth & Hrow).
  unfold ElementConfiguration.get_num_core_electrons, ElementConfiguration.get_active_table.
  rewrite (get_configuration_table_tab _ _ _ Hnth Hrow). cbn [bind].
  destruct (check _ _) as [[]|]; cbn [bind]; [ | discriminate ].
  destruct (check _ _) as [[]|]; cbn [bind]; [ | discriminate ].
  destruct (for_each _ _ _) as [active|] eqn:Hloop; cbn [bind]; [ | discriminate ].
  intros [= <-]. split; [ assumption | ].
  apply strip_loop_cells in Hloop as (g' & -> & Hcells).
  assert (Hfits : forall c, (c < MAX_ANG)%nat ->
                            0 <= nth c config 0
                            <= (Z.of_nat MAX_LEVEL - Z.of_nat c) * ElementConfiguration.angular_num c).
  { destruct (row_fits_inv _ Hrow) as (e0 & e1 & e2 & e3 & -> & H0 & H1 & H2 & H3).
    intros c Hc. unfold MAX_ANG in Hc. unfold MAX_LEVEL, ElementConfiguration.angular_num.
    nat_cases c 4%nat; cbn; lia. }
  pose proof (sum2_tab_bounds (fun r c => config_cell c (nth c config 0) r) g'
                (fun r c _ Hc => proj1 (proj1 (config_cell_bounds c _ r (Hfits c Hc))))
                Hcells) as Hsum.
  assert (Htotal : Np.sum2 (tab (fun r c => config_cell c (nth c config 0) r))
                   = canonical_electron_count CONFIGURATION elem).
  { rewrite sum2_tab. unfold canonical_electron_count. rewrite (nth_error_nth _ _ _ Hnth).
    destruct (row_fits_inv _ Hrow) as (e0 & e1 & e2 & e3 & -> & H0 & H1 & H2 & H3).
    cbn [seq MAX_ANG map nth].
    rewrite !config_cell_column_sum; unfold MAX_ANG; cbn; lia. }
  lia.
Qed.

Lemma get_num_core_bounds_witness :
  table_fits ground_state_configuration = true /\
  FrozenRule.get_num_core ground_state_configuration
    (FrozenRule.FrozenRuleNobleGasCore ground_state_configuration) 19 = Ok 18 /\
  (19 <= 118)%nat /\ 0 <= 18 <= canonical_electron_count ground_state_configuration 19.
Proof.
  split; [ vm_compute; reflexivity | ]. split; [ vm_compute; reflexivity | ].
  apply (get_num_core_bounds ground_state_configuration
           (FrozenRule.FrozenRuleNobleGasCore ground_state_configuration) 19 18);
    vm_compute; reflexivity.
Defined.

(** ** The sanity check *)

Lemma list_eqb_eq {A : Type} (eqb : A -> A -> bool) (l1 l2 : list A) :
  (forall x y, eqb x y = true <-> x = y) ->
  list_eqb eqb l1 l2 = true <-> l1 = l2.
Proof.
  intros Heqb. unfold list_eqb. revert l2.
  induction l1 as [|x l1 IH]; intros [|y l2]; cbn; try (split; [ discriminate | discriminate ]).
  - split; reflexivity.
  - specialize (IH l2). cbn in IH. rewrite andb_true_iff in *.
    rewrite Nat.eqb_eq in *. rewrite andb_true_iff, Heqb. split.
    + intros (Hlen & -> & Hall). f_equal. apply IH. split; [ lia | assumption ].
    + intros [= -> ->]. split; [ reflexivity | ]. split; [ reflexivity | ].
      apply IH. reflexivity.
Qed.

Lemma insert_sorted_perm (x : Z) (l : list Z) :
  Permutation (insert_sorted Z.leb x l) (x :: l).
Proof.
  induction l as [|y l IH]; cbn; [ reflexivity | ].
  destruct (x <=? y); [ reflexivity | ].
  rewrite IH. apply perm_swap.
Qed.

Lemma sort_perm (l : list Z) : Permutation (sort Z.leb l) l.
Proof.
  unfold sort. induction l as [|x l IH]; cbn; [ reflexivity | ].
  rewrite insert_sorted_perm. now constructor.
Qed.

Lemma insert_sorted_sorted (x : Z) (l : list Z) :
  StronglySorted Z.le l -> StronglySorted Z.le (insert_sorted Z.leb x l).
Proof.
  induction l as [|y l IH]; cbn; intros Hs.
  - repeat constructor.
  - apply StronglySorted_inv in Hs as [Hs Hall].
    destruct (Z.leb_spec x y).
    + constructor; [ now constructor | ].
      constructor; [ assumption | ].
      eapply Forall_impl; [ | exact Hall ]. cbv beta. intros; lia.
    + constructor; [ now apply IH | ].
      eapply Permutation_Forall; [ symmetry; apply insert_sorted_perm | ].
      constructor; [ lia | assumption ].
Qed.

Lemma sort_sorted (l : list Z) : StronglySorted Z.le (sort Z.leb l).
Proof.
  unfold sort. induction l as [|x l IH]; cbn; [ constructor | ].
  now apply insert_sorted_sorted.
Qed.

Lemma sorted_perm_unique (l1 l2 : list Z) :
  StronglySorted Z.le l1 -> StronglySorted Z.le l2 -> Permutation l1 l2 -> l1 = l2.
Proof.
  revert l2. induction l1 as [|a l1 IH]; intros l2 H1 H2 Hp.
  - apply Permutation_nil in Hp. now subst.
  - destruct l2 as [|b l2]; [ apply Permutation_sym, Permutation_nil in Hp; discriminate | ].
    apply StronglySorted_inv in H1 as [H1 Ha]. apply StronglySorted_inv in H2 as [H2 Hb].
    assert (a = b).
    { assert (Hina : In a (b :: l2)) by (apply (Permutation_in _ Hp); now left).
      assert (Hinb : In b (a :: l1))
        by (apply (Permutation_in _ (Permutation_sym Hp)); now left).
      rewrite Forall_forall in Ha, Hb.
      destruct Hina as [-> | Hina]; [ reflexivity | ].
      destruct Hinb as [-> | Hinb]; [ reflexivity | ].
      specialize (Ha b Hinb). specialize (Hb a Hina). lia. }
    subst b. f_equal. apply IH; try assumption.
    eapply Permutation_cons_inv; eassumption.
Qed.

Lemma strongly_sorted_snoc {A : Type} (R : A -> A -> Prop) (l : list A) (a : A) :
  StronglySorted R l -> Forall (fun x => R x a) l -> StronglySorted R (l ++ [a]).
Proof.
  induction l as [|x l IH]; cbn; intros Hs Hall.
  - repeat constructor.
  - apply StronglySorted_inv in Hs as [Hs Hx].
    apply Forall_cons_iff in Hall as [Hxa Hall].
    constructor; [ now apply IH | ].
    apply Forall_app. split; [ assumption | now constructor ].
Qed.

Lemma strongly_sorted_rev {A : Type} (R : A -> A -> Prop) (l : list A) :
  StronglySorted R l -> StronglySorted (fun a b => R b a) (rev l).
Proof.
  induction l as [|a l IH]; cbn; intros Hs; [ constructor | ].
  apply StronglySorted_inv in Hs as [Hs Ha].
  apply strongly_sorted_snoc; [ now apply IH | ].
  apply Forall_rev. exact Ha.
Qed.

Lemma rev_sort_iff (row : list Z) : rev (sort Z.leb row) = row <-> non_increasing row.
Proof.
  unfold non_increasing. split.
  - intros <-. apply StronglySorted_Sorted.
    apply (strongly_sorted_rev Z.le). apply sort_sorted.
  - intros Hs. apply Sorted_StronglySorted in Hs; [ | intros x y z; cbv beta; lia ].
    apply (strongly_sorted_rev (fun a b => b <= a)) in Hs. cbv beta in Hs.
    rewrite (sorted_perm_unique (sort Z.leb row) (rev row)).
    + apply rev_involutive.
    + apply sort_sorted.
    + exact Hs.
    + rewrite sort_perm. apply Permutation_rev.
Qed.

(** Whole numbers among the floats. *)
Lemma insert_sorted_inject_Z (x : Z) (l : list Z) :
  insert_sorted Qle_bool (inject_Z x) (map inject_Z l)
  = map inject_Z (insert_sorted Z.leb x l).
Proof.
  induction l as [|y l IH]; cbn [map insert_sorted]; [ reflexivity | ].
  replace (Qle_bool (inject_Z x) (inject_Z y)) with (x <=? y)
    by (unfold Qle_bool; cbn; now rewrite !Z.mul_1_r).
  destruct (x <=? y); cbn [map]; [ reflexivity | now rewrite IH ].
Qed.

Lemma sort_inject_Z (l : list Z) :
  sort Qle_bool (map inject_Z l) = map inject_Z (sort Z.leb l).
Proof.
  unfold sort. induction l as [|x l IH]; cbn [map fold_right]; [ reflexivity | ].
  rewrite IH. apply insert_sorted_inject_Z.
Qed.

Lemma fold_plus_inject_Z (l : list Z) (acc : Q) :
  (fold_left Qplus (map inject_Z l) acc == acc + inject_Z (Np.sum l))%Q.
Proof.
  unfold Np.sum. revert acc.
  induction l as [|x l IH]; intros acc; cbn [map fold_left fold_right].
  - change (inject_Z 0) with 0%Q. ring.
  - rewrite IH, inject_Z_plus. ring.
Qed.

Lemma sum_app (l1 l2 : list Z) : Np.sum (l1 ++ l2) = Np.sum l1 + Np.sum l2.
Proof.
  unfold Np.sum. induction l1 as [|x l1 IH]; cbn [app fold_right]; [ reflexivity | ].
  rewrite IH. ring.
Qed.

Lemma fsum_inject_Z (rows : list (list Z)) :
  (Np.fsum (concat (map (map inject_Z) rows)) == inject_Z (Np.sum2 rows))%Q.
Proof.
  unfold Np.fsum. rewrite <- concat_map, fold_plus_inject_Z.
  assert (H : Np.sum (concat rows) = Np.sum2 rows).
  { unfold Np.sum2. induction rows as [|row rows IH]; cbn [concat map]; [ reflexivity | ].
    rewrite sum_app, IH. reflexivity. }
  rewrite H. ring.
Qed.

Lemma round_inject_Z (n : Z) : Np.round (inject_Z n) = inject_Z n.
Proof.
  unfold Np.round. rewrite Qfloor_Z.
  replace (inject_Z n - inject_Z n ?= 1 # 2)%Q with Lt; [ reflexivity | ].
  symmetry. apply Qlt_alt.
  setoid_replace (inject_Z n - inject_Z n)%Q with 0%Q by ring. reflexivity.
Qed.

Lemma tolerance_nonneg (b : Q) : (0 <= Np.atol + Np.rtol * Qabs b)%Q.
Proof.
  pose proof (Qabs_nonneg b) as Hb. unfold Np.atol, Np.rtol.
  assert (0 <= (1 # 100000) * Qabs b)%Q by (apply Qmult_le_0_compat; [ discriminate | exact Hb ]).
  assert (0 <= 1 # 100000000)%Q by discriminate. lra.
Qed.

Lemma isclose_refl (a : Q) : Np.isclose a a = true.
Proof.
  unfold Np.isclose. apply Qle_bool_iff.
  setoid_replace (a - a)%Q with 0%Q by ring. apply tolerance_nonneg.
Qed.

(** Up to 99999 the tolerance stays below 1, and two whole numbers are
    close only if they are equal. *)
Lemma isclose_inject_Z (a b : Z) :
  Z.abs b < 100000 ->
  Np.isclose (inject_Z a) (inject_Z b) = true <-> a = b.
Proof.
  intros Hb. split; [ | intros ->; apply isclose_refl ].
  unfold Np.isclose. rewrite Qle_bool_iff. intros H.
  unfold Np.atol, Np.rtol, Qle, Qabs, Qminus, Qplus, Qmult, Qopp, inject_Z in H.
  cbn [Qnum Qden] in H. lia.
Qed.

Lemma allclose_inject_Z (l1 l2 : list Z) :
  length l1 = length l2 ->
  Forall (fun n => Z.abs n < 100000) l2 ->
  Np.allclose (map inject_Z l1) (map inject_Z l2) = true <-> l1 = l2.
Proof.
  unfold Np.allclose. revert l2.
  induction l1 as [|a l1 IH]; intros [|b l2] Hlen Hall; try discriminate.
  - split; reflexivity.
  - cbn [map combine forallb fst snd]. apply Forall_cons_iff in Hall as [Hb Hall].
    rewrite andb_true_iff, (isclose_inject_Z a b Hb), (IH l2) by (cbn in Hlen; lia || assumption).
    split; [ now intros [-> ->] | now intros [= -> ->] ].
Qed.

Lemma allclose_round_inject_Z (row : list Z) :
  Np.allclose (map Np.round (map inject_Z row)) (map inject_Z row) = true.
Proof.
  unfold Np.allclose. induction row as [|a row IH]; cbn [map combine forallb fst snd];
    [ reflexivity | ].
  now rewrite round_inject_Z, isclose_refl, IH.
Qed.

Lemma sorted_descending_iff (row : list Z) :
  Forall (fun n => Z.abs n < 100000) row ->
  FrozenCore.sorted_descending (map inject_Z row) = true <-> non_increasing row.
Proof.
  intros Hrow. unfold FrozenCore.sorted_descending.
  rewrite sort_inject_Z, <- map_rev, allclose_inject_Z, rev_sort_iff; [ reflexivity | | exact Hrow ].
  rewrite length_rev. apply Permutation_length, sort_perm.
Qed.

(** [check_sanity] raises nothing but [AssertionError], and lets no orbital
    energies pass whose shape is not that of the occupation numbers. *)
Lemma check_sanity_outcome (self : FrozenCore.t) :
  FrozenCore.check_sanity self = Ok tt \/
  FrozenCore.check_sanity self = Raise AssertionError.
Proof.
  unfold FrozenCore.check_sanity, check.
  repeat match goal with
         | |- context [if ?c then _ else _] => destruct c; cbn [bind]
         | |- context [match ?c with Some _ => _ | None => _ end] => destruct c; cbn [bind]
         end; auto.
Qed.

Lemma check_sanity_energy_shape (self : FrozenCore.t) (energy_shape : list nat) :
  FrozenCore.check_sanity self = Ok tt ->
  FrozenCore.mo_energy self = Some energy_shape ->
  energy_shape = shape (FrozenCore.mo_occ self).
Proof.
  unfold FrozenCore.check_sanity, check. intros Hsane Henergy. rewrite Henergy in Hsane.
  destruct (_ || _); cbn [bind] in Hsane; [ | discriminate ].
  destruct (Qeq_bool _ _); cbn [bind] in Hsane; [ | discriminate ].
  destruct (list_eqb Nat.eqb (shape (FrozenCore.mo_occ self)) energy_shape) eqn:Hshape;
    cbn [bind] in Hsane; [ | discriminate ].
  apply (list_eqb_eq Nat.eqb) in Hshape; [ now symmetry | apply Nat.eqb_eq ].
Qed.

Lemma ndim_one_or_two {A : Type} (a : ndarray A) :
  ((FrozenCore.ndim a =? 1)%nat || (FrozenCore.ndim a =? 2)%nat) = true.
Proof. destruct a; reflexivity. Qed.

(** X4.  For an occupation array of one or two dimensions whose entries are
    whole numbers of absolute value below 100000, check_sanity passes exactly
    when the occupation numbers add up to mol.nelectron, the orbital energies
    (if given) have the shape of the occupation numbers, and every row of
    occupation numbers is non-increasing; whatever the occupation numbers, it
    raises nothing but AssertionError. *)
Theorem check_sanity_accepts (self : FrozenCore.t) (rows : list (list Z)) :
  FrozenCore.rows_of (FrozenCore.mo_occ self) = map (map inject_Z) rows ->
  Forall (Forall (fun n => Z.abs n < 100000)) rows ->
  (FrozenCore.check_sanity self = Ok tt <->
   Np.sum2 rows = nelectron (FrozenCore.mol self) /\
   (forall energy_shape, FrozenCore.mo_energy self = Some energy_shape ->
                         energy_shape = shape (FrozenCore.mo_occ self)) /\
   Forall non_increasing rows) /\
  (FrozenCore.check_sanity self = Ok tt \/
   FrozenCore.check_sanity self = Raise AssertionError).
Proof.
  intros Hrows Hsmall. split; [ | apply check_sanity_outcome ].
  unfold FrozenCore.check_sanity, check. rewrite ndim_one_or_two, Hrows. cbn [bind].
  assert (Hsum : Qeq_bool (Np.fsum (concat (map (map inject_Z) rows)))
                          (inject_Z (nelectron (FrozenCore.mol self))) = true
                 <-> Np.sum2 rows = nelectron (FrozenCore.mol self)).
  { rewrite Qeq_bool_iff, fsum_inject_Z. split; [ apply inject_Z_injective | now intros -> ]. }
  assert (Hwhole : forallb (fun row => Np.allclose (map Np.round row) row)
                           (map (map inject_Z) rows) = true).
  { apply forallb_forall. intros row Hin. apply in_map_iff in Hin as (r & <- & _).
    apply allclose_round_inject_Z. }
  assert (Hsorted : forallb FrozenCore.sorted_descending (map (map inject_Z) rows) = true
                    <-> Forall non_increasing rows).
  { rewrite forallb_forall, Forall_forall. rewrite Forall_forall in Hsmall. split.
    - intros H r Hr. apply sorted_descending_iff; [ now apply Hsmall | ].
      apply H. now apply in_map.
    - intros H row Hin. apply in_map_iff in Hin as (r & <- & Hr).
      apply sorted_descending_iff; [ now apply Hsmall | now apply H ]. }
  rewrite Hwhole. clear Hwhole.
  destruct (Qeq_bool _ _) eqn:Hq; cbn [bind].
  2: { split; [ discriminate | ]. intros [H _]. apply Hsum in H. discriminate. }
  pose proof (proj1 Hsum eq_refl) as Hq'.
  destruct (FrozenCore.mo_energy self) as [energy_shape|].
  - destruct (list_eqb Nat.eqb (shape (FrozenCore.mo_occ self)) energy_shape) eqn:Hshape;
      cbn [bind].
    + apply (list_eqb_eq Nat.eqb) in Hshape; [ | apply Nat.eqb_eq ].
      destruct (forallb _ _) eqn:Hall.
      * split; [ | reflexivity ]. intros _.
        split; [ assumption | ]. split; [ now intros ? [= <-] | now apply Hsorted ].
      * split; [ discriminate | ]. intros (_ & _ & H). apply Hsorted in H. discriminate.
    + split; [ discriminate | ].
      intros (_ & H & _). specialize (H _ eq_refl). subst energy_shape.
      rewrite (proj2 (list_eqb_eq Nat.eqb _ _ Nat.eqb_eq) eq_refl) in Hshape. discriminate.
  - cbn [bind]. destruct (forallb _ _) eqn:Hall.
    + split; [ | reflexivity ]. intros _.
      split; [ assumption | ]. split; [ discriminate | now apply Hsorted ].
    + split; [ discriminate | ]. intros (_ & _ & H). apply Hsorted in H. discriminate.
Qed.

Lemma check_sanity_accepts_witness :
  Forall (Forall (fun n => Z.abs n < 100000)) [[2; 2; 0]] /\
  (FrozenCore.check_sanity beryllium_frozen_list = Ok tt <->
   Np.sum2 [[2; 2; 0]] = nelectron beryllium /\
   (forall energy_shape, FrozenCore.mo_energy beryllium_frozen_list = Some energy_shape ->
                         energy_shape = shape (FrozenCore.mo_occ beryllium_frozen_list)) /\
   Forall non_increasing [[2; 2; 0]]) /\
  (FrozenCore.check_sanity beryllium_frozen_list = Ok tt \/
   FrozenCore.check_sanity beryllium_frozen_list = Raise AssertionError).
Proof.
  assert (Hsmall : Forall (Forall (fun n => Z.abs n < 100000)) [[2; 2; 0]])
    by (repeat constructor).
  split; [ exact Hsmall | ].
  apply (check_sanity_accepts beryllium_frozen_list [[2; 2; 0]]);
    [ reflexivity | exact Hsmall ].
Defined.

(** Beyond that bound the tolerance of the comparison lets a rising row
    pass, and below it occupation numbers that are not whole are let pass
    only when they are close to a whole number. *)
Example check_sanity_tolerance :
  FrozenCore.check_sanity
    (FrozenCore.init {| atoms := []; nelectron := 200001 |}
       (Arr1 [100000; 100001]%Q) RuleNone false None) = Ok tt /\
  FrozenCore.check_sanity
    (FrozenCore.init {| atoms := []; nelectron := 3 |}
       (Arr1 [1; 2]%Q) RuleNone false None) = Raise AssertionError /\
  FrozenCore.check_sanity
    (FrozenCore.init {| atoms := []; nelectron := 2 |}
       (Arr1 [3 # 2; 1 # 2]%Q) RuleNone false None) = Raise AssertionError /\
  FrozenCore.check_sanity
    (FrozenCore.init {| atoms := []; nelectron := 4 |}
       (Arr2 nearly_whole_occ) RuleNone false None) = Ok tt.
Proof. repeat split; vm_compute; reflexivity. Qed.

(** ** The shape of the mask *)

Lemma parse_active_mask_by_elec_shape (mo_occ : list (list Q)) (f_occ f_vir : Z)
      (mask : list (list bool)) :
  FrozenCore.parse_active_mask_by_elec mo_occ f_occ f_vir = Ok mask ->
  length mask = length mo_occ /\ rows_have (length (hd [] mo_occ)) mask.
Proof.
  unfold FrozenCore.parse_active_mask_by_elec, rows_have.
  destruct (FrozenCore.np_max mo_occ); cbn [bind]; [ | discriminate ].
  destruct (check _ _); cbn [bind]; [ | discriminate ].
  destruct (negb _); [ discriminate | ]. cbv zeta.
  unfold Np.full. rewrite !map_repeat.
  destruct (0 <? _); intros [= <-]; (split; [ apply repeat_length | ]);
    apply Forall_forall; intros row Hrow; apply repeat_spec in Hrow; subst row;
    now rewrite ?length_set_range, repeat_length.
Qed.

Lemma list_loop_shape (nmo : nat) (l : list Z) (mask mask' : list (list bool)) :
  for_each (fun mask k =>
              j <- Np.index nmo k ;;
              Ok (map (fun row => Np.set_item row j false) mask)) l mask = Ok mask' ->
  length mask' = length mask /\ (rows_have nmo mask -> rows_have nmo mask').
Proof.
  revert mask. induction l as [|k l IH]; intros mask; cbn [for_each].
  - intros [= <-]. split; [ reflexivity | trivial ].
  - destruct (Np.index nmo k) as [j|]; cbn [bind]; [ | discriminate ].
    intros Hrest. apply IH in Hrest as [Hlen Hrows].
    rewrite length_map in Hlen. split; [ assumption | ].
    intros Hmask. apply Hrows. unfold rows_have in *. apply Forall_map.
    eapply Forall_impl; [ | exact Hmask ]. cbv beta. intros row Hrow.
    unfold Np.set_item. now rewrite length_set_range.
Qed.

Lemma clear_items_length (nmo : nat) (arr : list Z) (row row' : list bool) :
  FrozenCore.clear_items nmo arr row = Ok row' -> length row' = length row.
Proof.
  unfold FrozenCore.clear_items. revert row.
  induction arr as [|k arr IH]; intros row; cbn [for_each].
  - now intros [= <-].
  - destruct (Np.index nmo k) as [j|]; cbn [bind]; [ | discriminate ].
    intros Hrest. apply IH in Hrest. rewrite Hrest.
    unfold Np.set_item. apply length_set_range.
Qed.

Lemma clear_rows_shape (nmo : nat) (arr : list (list Z)) (mask mask' : list (list bool)) :
  FrozenCore.clear_rows nmo arr mask = Ok mask' ->
  length mask' = length mask /\ (rows_have nmo mask -> rows_have nmo mask').
Proof.
  revert mask mask'. induction arr as [|arr_i arr IH]; intros mask mask'; cbn [FrozenCore.clear_rows].
  - destruct mask; intros [= <-]; split; trivial.
  - destruct mask as [|row mask]; [ intros [= <-]; split; trivial | ].
    destruct (FrozenCore.clear_items nmo arr_i row) as [row'|] eqn:Hrow; cbn [bind];
      [ | discriminate ].
    destruct (FrozenCore.clear_rows nmo arr mask) as [rest|] eqn:Hrest; cbn [bind];
      [ | discriminate ].
    intros [= <-]. apply IH in Hrest as [Hlen Hrows]. apply clear_items_length in Hrow.
    split; [ cbn; lia | ]. unfold rows_have in *. intros Hmask.
    apply Forall_cons_iff in Hmask as [Hr Hmask].
    constructor; [ lia | now apply Hrows ].
Qed.

Lemma full_shape {A : Type} (rows cols : nat) (v : A) :
  length (Np.full rows cols v) = rows /\ rows_have cols (Np.full rows cols v).
Proof.
  unfold Np.full, rows_have. split; [ apply repeat_length | ].
  apply Forall_forall. intros row Hrow. apply repeat_spec in Hrow. subst row.
  apply repeat_length.
Qed.

Lemma get_active_mask_keeps_shape
        (CONFIGURATION : list (list Z)) (self : FrozenCore.t) (m : ndarray bool) :
  FrozenCore.get_active_mask CONFIGURATION self = Ok m ->
  shape m = shape (FrozenCore.mo_occ self) /\
  rows_have (last (shape (FrozenCore.mo_occ self)) 0%nat) (FrozenCore.rows_of m).
Proof.
  unfold FrozenCore.get_active_mask.
  destruct (FrozenCore.check_sanity self); cbn [bind]; [ | discriminate ].
  set (nset := match FrozenCore.mo_occ self with
               | Arr1 _ => 1%nat | Arr2 rows => length rows end).
  set (nmo := match FrozenCore.mo_occ self with
              | Arr1 items => length items | Arr2 rows => length (hd [] rows) end).
  match goal with |- context [bind ?c _] => destruct c; cbn [bind]; [ | discriminate ] end.
  match goal with |- bind ?c _ = _ -> _ => destruct c as [mask|] eqn:Hmask end;
    cbn [bind]; [ | discriminate ].
  intros [= <-].
  assert (Hshape : length mask = nset /\ rows_have nmo mask).
  { destruct (full_shape nset nmo true) as [Hlen0 Hrows0].
    assert (Hocc : length (FrozenCore.rows_of (FrozenCore.mo_occ self)) = nset /\
                   length (hd [] (FrozenCore.rows_of (FrozenCore.mo_occ self))) = nmo)
      by (unfold nset, nmo; destruct (FrozenCore.mo_occ self); split; reflexivity).
    destruct Hocc as [Hocc1 Hocc2].
    destruct (FrozenCore.rule self) as [|l|l|arr|items|d|s|r|n];
      try (destruct (FrozenCore.parse_frozen_numbers _ _ _ _) as [numbers|];
           cbn [bind] in Hmask; [ | discriminate ];
           apply parse_active_mask_by_elec_shape in Hmask; rewrite Hocc1, Hocc2 in Hmask;
           exact Hmask).
    - destruct l as [|k l]; [ discriminate | ].
      apply list_loop_shape in Hmask as [Hlen Hrows]. split; [ lia | now apply Hrows ].
    - destruct l as [|arr_0 l]; [ discriminate | ].
      destruct (check _ _); cbn [bind] in Hmask; [ | discriminate ].
      apply clear_rows_shape in Hmask as [Hlen Hrows]. split; [ lia | now apply Hrows ].
    - destruct items; discriminate. }
  destruct Hshape as [Hlen Hrows]. unfold nset, nmo in *.
  destruct (FrozenCore.mo_occ self) as [items|rows]; cbn [FrozenCore.reshape_like shape last
                                                          FrozenCore.rows_of].
  - destruct mask as [|row [|? ?]]; try discriminate.
    cbn [concat]. rewrite app_nil_r.
    unfold rows_have in *. apply Forall_cons_iff in Hrows as [Hrow _].
    split; [ now rewrite Hrow | now repeat constructor ].
  - split; [ | exact Hrows ].
    rewrite Hlen. f_equal. f_equal.
    destruct mask as [|row mask]; destruct rows as [|r0 rows]; try discriminate;
      [ reflexivity | ].
    unfold rows_have in Hrows. apply Forall_cons_iff in Hrows as [Hrow _]. exact Hrow.
Qed.

(** X5.  Every mask that get_active_mask returns has the shape of mo_occ: the
    same number of dimensions and rows, and every row as long as the last
    dimension of mo_occ. *)
Theorem get_active_mask_shape
        (CONFIGURATION : list (list Z)) (self : FrozenCore.t) (m : ndarray bool) :
  FrozenCore.get_active_mask CONFIGURATION self = Ok m ->
  shape m = shape (FrozenCore.mo_occ self) /\
  rows_have (last (shape (FrozenCore.mo_occ self)) 0%nat) (FrozenCore.rows_of m).
Proof. exact (get_active_mask_keeps_shape CONFIGURATION self m). Qed.

Lemma get_active_mask_shape_witness :
  FrozenCore.get_active_mask ground_state_configuration water_noble_gas_core
  = Ok (Arr1 [false; true; true; true; true; true; true]) /\
  shape (Arr1 [false; true; true; true; true; true; true]) = [7%nat] /\
  rows_have 7 [[false; true; true; true; true; true; true]].
Proof.
  split; [ vm_compute; reflexivity | ].
  apply (get_active_mask_shape ground_state_configuration water_noble_gas_core
           (Arr1 [false; true; true; true; true; true; true])).
  vm_compute; reflexivity.
Defined.

(** ** Orbital energies *)

(** X6.  When orbital energies are given, get_active_mask raises
    AssertionError unless mo_occ is a two-dimensional array of exactly one
    row; in particular it raises for every one-dimensional mo_occ and for
    every unrestricted mo_occ of two rows. *)
Theorem energies_need_one_row
        (CONFIGURATION : list (list Z)) (self : FrozenCore.t) (energy_shape : list nat) :
  FrozenCore.mo_energy self = Some energy_shape ->
  (forall row, FrozenCore.mo_occ self <> Arr2 [row]) ->
  FrozenCore.get_active_mask CONFIGURATION self = Raise AssertionError.
Proof.
  intros Henergy Hocc. unfold FrozenCore.get_active_mask.
  destruct (check_sanity_outcome self) as [Hsane | Hsane]; rewrite Hsane; cbn [bind];
    [ | reflexivity ].
  pose proof (check_sanity_energy_shape self energy_shape Hsane Henergy) as Hshape.
  subst energy_shape. rewrite Henergy.
  destruct (FrozenCore.mo_occ self) as [items|rows]; cbn [shape].
  - reflexivity.
  - destruct rows as [|row [|row' rows]].
    + reflexivity.
    + exfalso. now apply (Hocc row).
    + cbn [length hd fold_right list_eqb Nat.eqb andb check bind]. reflexivity.
Qed.

Lemma energies_need_one_row_witness :
  FrozenCore.get_active_mask ground_state_configuration
    (FrozenCore.init water (Arr1 [2; 2; 2; 2; 2; 0; 0]%Q) RuleNone false (Some [7%nat]))
  = Raise AssertionError.
Proof.
  apply (energies_need_one_row ground_state_configuration
           (FrozenCore.init water (Arr1 [2; 2; 2; 2; 2; 0; 0]%Q) RuleNone false (Some [7%nat]))
           [7%nat]);
    [ reflexivity | intros row; discriminate ].
Defined.

(** X7.  When mo_occ is a two-dimensional array of one row and orbital
    energies of the same shape are given, get_active_mask returns what it
    returns without the energies, whatever the rule. *)
Theorem energies_with_one_row
        (CONFIGURATION : list (list Z)) (self : FrozenCore.t) (row : list Q) :
  FrozenCore.mo_occ self = Arr2 [row] ->
  FrozenCore.mo_energy self = Some [1%nat; length row] ->
  FrozenCore.get_active_mask CONFIGURATION self
  = FrozenCore.get_active_mask CONFIGURATION (without_energy self).
Proof.
  intros Hocc Henergy.
  unfold FrozenCore.get_active_mask, FrozenCore.check_sanity, without_energy.
  cbn [FrozenCore.mol FrozenCore.mo_occ FrozenCore.mo_energy FrozenCore.rule
         FrozenCore.ecp_only].
  rewrite Henergy, Hocc. cbn [shape length hd fold_right].
  rewrite Nat.mul_1_r, Nat.mul_1_l.
  rewrite (proj2 (list_eqb_eq Nat.eqb [1%nat; length row] _ Nat.eqb_eq) eq_refl).
  reflexivity.
Qed.

Lemma energies_with_one_row_witness :
  FrozenCore.get_active_mask ground_state_configuration
    (FrozenCore.init water (Arr2 closed_shell_occ) RuleNone false (Some [1; 7]%nat))
  = FrozenCore.get_active_mask ground_state_configuration
      (FrozenCore.init water (Arr2 closed_shell_occ) RuleNone false None).
Proof.
  apply (energies_with_one_row ground_state_configuration
           (FrozenCore.init water (Arr2 closed_shell_occ) RuleNone false (Some [1; 7]%nat))
           [2; 2; 2; 2; 2; 0; 0]%Q);
    reflexivity.
Defined.

(** ** The indices that [frozen] returns *)

Lemma where_true_from_sorted (s : nat) (row : list bool) :
  StronglySorted lt (map fst (filter snd (Np.enumerate_from s row))) /\
  Forall (fun i => (s <= i)%nat) (map fst (filter snd (Np.enumerate_from s row))).
Proof.
  revert s. induction row as [|b row IH]; intros s; cbn [Np.enumerate_from filter map].
  - split; constructor.
  - destruct (IH (S s)) as [Hs Hall].
    assert (Hall' : Forall (fun i => (s <= i)%nat)
                           (map fst (filter snd (Np.enumerate_from (S s) row))))
      by (eapply Forall_impl; [ | exact Hall ]; cbv beta; intros; lia).
    destruct b; cbn [snd fst map].
    + split; [ | constructor; [ lia | assumption ] ].
      constructor; [ assumption | ].
      eapply Forall_impl; [ | exact Hall ]. cbv beta. intros; lia.
    + split; assumption.
Qed.

Lemma where_true_sorted (row : list bool) : StronglySorted lt (FrozenCore.where_true row).
Proof. apply where_true_from_sorted. Qed.

(** X8.  When frozen computes its result, it stores the mask and the result in
    the object, and for every channel the indices it returns are strictly
    increasing and are exactly the positions at which the mask is True, that
    is the active orbitals. *)
Theorem frozen_lists_true_positions
        (CONFIGURATION : list (list Z)) (self self' : FrozenCore.t) (f : ndarray nat) :
  FrozenCore._frozen self = None ->
  FrozenCore.frozen CONFIGURATION self = (Ok f, self') ->
  exists m,
    fst (FrozenCore.mask CONFIGURATION self) = Ok m /\
    FrozenCore._mask self' = Some m /\
    FrozenCore._frozen self' = Some f /\
    length (FrozenCore.rows_of f) = length (FrozenCore.rows_of m) /\
    forall ch idx row,
      nth_error (FrozenCore.rows_of f) ch = Some idx ->
      nth_error (FrozenCore.rows_of m) ch = Some row ->
      StronglySorted lt idx /\
      forall i, In i idx <-> nth_error row i = Some true.
Proof.
  intros Hnone. unfold FrozenCore.frozen. rewrite Hnone.
  destruct (FrozenCore.mask CONFIGURATION self) as [[m|e] self1] eqn:Hmask; [ | discriminate ].
  intros [= <- <-]. exists m. cbn [fst FrozenCore._mask FrozenCore._frozen].
  assert (Hcache : FrozenCore._mask self1 = Some m).
  { unfold FrozenCore.mask in Hmask. destruct (FrozenCore._mask self) eqn:Hm.
    - now injection Hmask as -> <-.
    - destruct (FrozenCore.get_active_mask CONFIGURATION self); [ | discriminate ].
      now injection Hmask as -> <-. }
  split; [ reflexivity | ]. split; [ assumption | ]. split; [ reflexivity | ].
  destruct m as [items|rows]; cbn [FrozenCore.rows_of].
  - split; [ reflexivity | ].
    intros [|ch] idx row; cbn [nth_error]; [ | destruct ch; discriminate ].
    intros [= <-] [= <-]. split; [ apply where_true_sorted | apply in_where_true ].
  - split; [ apply length_map | ].
    intros ch idx row Hidx Hrow. rewrite nth_error_map, Hrow in Hidx.
    injection Hidx as <-. split; [ apply where_true_sorted | apply in_where_true ].
Qed.

Lemma frozen_lists_true_positions_witness :
  FrozenCore.frozen ground_state_configuration beryllium_frozen_list
  = (Ok (Arr1 [1; 2]%nat), beryllium_frozen_list_done) /\
  exists m,
    fst (FrozenCore.mask ground_state_configuration beryllium_frozen_list) = Ok m /\
    FrozenCore._mask beryllium_frozen_list_done = Some m /\
    FrozenCore._frozen beryllium_frozen_list_done = Some (Arr1 [1; 2]%nat) /\
    length (FrozenCore.rows_of (Arr1 [1; 2]%nat)) = length (FrozenCore.rows_of m) /\
    forall ch idx row,
      nth_error (FrozenCore.rows_of (Arr1 [1; 2]%nat)) ch = Some idx ->
      nth_error (FrozenCore.rows_of m) ch = Some row ->
      StronglySorted lt idx /\
      forall i, In i idx <-> nth_error row i = Some true.
Proof.
  split; [ vm_compute; reflexivity | ].
  apply (frozen_lists_true_positions ground_state_configuration
           beryllium_frozen_list beryllium_frozen_list_done (Arr1 [1; 2]%nat));
    vm_compute; reflexivity.
Defined.

(** X9.  Once frozen has returned, it returns the stored result again without
    reading the molecule, the occupation or the rule, for any object with that
    stored result; after reset both stored values are None and frozen computes
    what a newly built object computes. *)
Theorem frozen_cached_until_reset
        (CONFIGURATION : list (list Z)) (self self' : FrozenCore.t) (f : ndarray nat) :
  FrozenCore.frozen CONFIGURATION self = (Ok f, self') ->
  FrozenCore.frozen CONFIGURATION self' = (Ok f, self') /\
  (forall other,
      FrozenCore._frozen other = FrozenCore._frozen self' ->
      FrozenCore.frozen CONFIGURATION other = (Ok f, other)) /\
  FrozenCore._mask (FrozenCore.reset self') = None /\
  FrozenCore._frozen (FrozenCore.reset self') = None /\
  FrozenCore.frozen CONFIGURATION (FrozenCore.reset self')
  = FrozenCore.frozen CONFIGURATION
      (FrozenCore.init (FrozenCore.mol self) (FrozenCore.mo_occ self) (FrozenCore.rule self)
         (FrozenCore.ecp_only self) (FrozenCore.mo_energy self)).
Proof.
  intros Hfirst.
  assert (Hcache : FrozenCore._frozen self' = Some f /\
                   FrozenCore.reset self' = FrozenCore.reset self).
  { unfold FrozenCore.frozen in Hfirst.
    destruct (FrozenCore._frozen self) eqn:Hf.
    - injection Hfirst as -> <-. now split.
    - unfold FrozenCore.mask in Hfirst.
      destruct (FrozenCore._mask self).
      + injection Hfirst as <- <-. now split.
      + destruct (FrozenCore.get_active_mask CONFIGURATION self); [ | discriminate ].
        injection Hfirst as <- <-. now split. }
  destruct Hcache as [Hcache Hreset].
  split; [ | split; [ | split; [ | split ] ] ]; try reflexivity.
  - unfold FrozenCore.frozen. now rewrite Hcache.
  - intros other Hother. unfold FrozenCore.frozen. now rewrite Hother, Hcache.
  - rewrite Hreset. reflexivity.
Qed.

Lemma frozen_cached_until_reset_witness :
  FrozenCore.frozen ground_state_configuration beryllium_frozen_list
  = (Ok (Arr1 [1; 2]%nat), beryllium_frozen_list_done) /\
  FrozenCore.frozen ground_state_configuration beryllium_frozen_list_done
  = (Ok (Arr1 [1; 2]%nat), beryllium_frozen_list_done) /\
  (forall other,
      FrozenCore._frozen other = FrozenCore._frozen beryllium_frozen_list_done ->
      FrozenCore.frozen ground_state_configuration other = (Ok (Arr1 [1; 2]%nat), other)) /\
  FrozenCore._mask (FrozenCore.reset beryllium_frozen_list_done) = None /\
  FrozenCore._frozen (FrozenCore.reset beryllium_frozen_list_done) = None /\
  FrozenCore.frozen ground_state_configuration (FrozenCore.reset beryllium_frozen_list_done)
  = FrozenCore.frozen ground_state_configuration beryllium_frozen_list.
Proof.
  split; [ vm_compute; reflexivity | ].
  apply (frozen_cached_until_reset ground_state_configuration
           beryllium_frozen_list beryllium_frozen_list_done (Arr1 [1; 2]%nat)).
  vm_compute; reflexivity.
Defined.

(** ** Explicit lists of frozen orbitals *)

Lemma index_ok (nmo : nat) (k : Z) :
  in_axis nmo k ->
  exists j, Np.index nmo k = Ok j /\ (j < nmo)%nat /\
            Z.of_nat j = if k <? 0 then k + Z.of_nat nmo else k.
Proof.
  unfold in_axis, Np.index. intros Hk.
  destruct (Z.leb_spec 0 k), (Z.ltb_spec k (Z.of_nat nmo)), (Z.ltb_spec k 0);
    cbn [andb]; try lia.
  - eexists. split; [ reflexivity | ]. lia.
  - destruct (Z.leb_spec (- Z.of_nat nmo) k); [ | lia ].
    eexists. split; [ reflexivity | ]. lia.
Qed.

Lemma index_raises (nmo : nat) (k : Z) :
  ~ in_axis nmo k -> Np.index nmo k = Raise IndexError.
Proof.
  unfold in_axis, Np.index. intros Hk.
  destruct (Z.leb_spec 0 k), (Z.ltb_spec k (Z.of_nat nmo)), (Z.ltb_spec k 0),
    (Z.leb_spec (- Z.of_nat nmo) k); cbn [andb]; try reflexivity; lia.
Qed.

Lemma index_inv (nmo : nat) (k : Z) (j : nat) :
  Np.index nmo k = Ok j -> in_axis nmo k /\ (j < nmo)%nat.
Proof.
  intros Hidx. destruct (Z_le_dec (- Z.of_nat nmo) k) as [Hlo | Hlo];
    [ destruct (Z_lt_dec k (Z.of_nat nmo)) as [Hhi | Hhi] | ].
  - destruct (index_ok nmo k (conj Hlo Hhi)) as (j' & Hj' & Hlt & _).
    rewrite Hj' in Hidx. injection Hidx as <-. split; [ split | ]; assumption.
  - rewrite index_raises in Hidx by (unfold in_axis; lia). discriminate.
  - rewrite index_raises in Hidx by (unfold in_axis; lia). discriminate.
Qed.

Lemma length_clear_all (nmo : nat) (l : list Z) (row : list bool) :
  length (clear_all nmo l row) = length row.
Proof.
  unfold clear_all. revert row. induction l as [|k l IH]; intros row; cbn [fold_left].
  - reflexivity.
  - rewrite IH. destruct (Np.index nmo k); [ | reflexivity ].
    unfold Np.set_item. apply length_set_range.
Qed.

Lemma nth_set_item (row : list bool) (j i : nat) :
  (i < length row)%nat ->
  nth i (Np.set_item row j false) true = if (i =? j)%nat then false else nth i row true.
Proof.
  intros Hi. unfold Np.set_item. rewrite nth_set_range by assumption.
  destruct (Nat.leb_spec j i), (Nat.ltb_spec i (S j)), (Nat.eqb_spec i j);
    cbn [andb]; try reflexivity; lia.
Qed.

Lemma nth_clear_all (nmo : nat) (l : list Z) (row : list bool) (i : nat) :
  (i < length row)%nat ->
  (nth i (clear_all nmo l row) true = false <->
   nth i row true = false \/ exists k, In k l /\ Np.index nmo k = Ok i).
Proof.
  unfold clear_all. revert row. induction l as [|k l IH]; intros row Hi; cbn [fold_left].
  - split; [ now left | ]. intros [H | (k & [] & _)]. exact H.
  - destruct (Np.index nmo k) as [j|e] eqn:Hidx.
    + rewrite IH by (unfold Np.set_item; now rewrite length_set_range).
      rewrite nth_set_item by assumption.
      destruct (Nat.eqb_spec i j) as [-> | Hne].
      * split; [ | now left ]. intros _. right. exists k. split; [ now left | assumption ].
      * split.
        -- intros [H | (k' & Hin & Hk')]; [ now left | ].
           right. exists k'. split; [ now right | assumption ].
        -- intros [H | (k' & [<- | Hin] & Hk')]; [ now left | | ].
           ++ rewrite Hidx in Hk'. injection Hk' as ->. contradiction.
           ++ right. exists k'. split; assumption.
    + rewrite IH by assumption. split.
      * intros [H | (k' & Hin & Hk')]; [ now left | ].
        right. exists k'. split; [ now right | assumption ].
      * intros [H | (k' & [<- | Hin] & Hk')]; [ now left | | ].
        -- rewrite Hidx in Hk'. discriminate.
        -- right. exists k'. split; assumption.
Qed.

(** The loop over one list of frozen orbitals. *)
Lemma list_loop_run (nmo : nat) (l : list Z) (mask : list (list bool)) :
  for_each (fun mask k =>
              j <- Np.index nmo k ;;
              Ok (map (fun row => Np.set_item row j false) mask)) l mask
  = if forallb (fun k => (- Z.of_nat nmo <=? k) && (k <? Z.of_nat nmo)) l
    then Ok (map (clear_all nmo l) mask)
    else Raise IndexError.
Proof.
  revert mask. induction l as [|k l IH]; intros mask; cbn [for_each forallb].
  - unfold clear_all. cbn [fold_left]. now rewrite map_id.
  - destruct (Z.leb_spec (- Z.of_nat nmo) k) as [Hlo | Hlo];
      [ destruct (Z.ltb_spec k (Z.of_nat nmo)) as [Hhi | Hhi] | ]; cbn [andb].
    + destruct (index_ok nmo k (conj Hlo Hhi)) as (j & Hj & _).
      rewrite Hj. cbn [bind]. rewrite IH.
      destruct (forallb _ l); [ | reflexivity ].
      rewrite map_map. f_equal. apply map_ext. intros row.
      unfold clear_all. cbn [fold_left]. now rewrite Hj.
    + rewrite index_raises by (unfold in_axis; lia). reflexivity.
    + rewrite index_raises by (unfold in_axis; lia). reflexivity.
Qed.

Lemma in_axis_forallb (nmo : nat) (l : list Z) :
  forallb (fun k => (- Z.of_nat nmo <=? k) && (k <? Z.of_nat nmo)) l = true <->
  Forall (in_axis nmo) l.
Proof.
  rewrite forallb_forall, Forall_forall. unfold in_axis.
  split; intros H k Hk; specialize (H k Hk);
    [ apply andb_prop in H as [H1 H2]; lia | apply andb_true_intro; split; lia ].
Qed.

(** X10.  For a non-empty list of integers as rule, a sane object and no
    orbital energies, get_active_mask raises IndexError if some index k is
    outside -nmo <= k < nmo; otherwise it returns a mask of the shape of
    mo_occ in which, in every channel, orbital j is False exactly when the
    list holds j or j - nmo. *)
Theorem explicit_list_mask
        (CONFIGURATION : list (list Z)) (self : FrozenCore.t) (k0 : Z) (l : list Z) :
  FrozenCore.rule self = RuleList (k0 :: l) ->
  FrozenCore.check_sanity self = Ok tt ->
  FrozenCore.mo_energy self = None ->
  let nmo := last (shape (FrozenCore.mo_occ self)) 0%nat in
  (~ Forall (in_axis nmo) (k0 :: l) ->
   FrozenCore.get_active_mask CONFIGURATION self = Raise IndexError) /\
  (Forall (in_axis nmo) (k0 :: l) ->
   exists m,
     FrozenCore.get_active_mask CONFIGURATION self = Ok m /\
     shape m = shape (FrozenCore.mo_occ self) /\
     forall ch row j,
       nth_error (FrozenCore.rows_of m) ch = Some row -> (j < nmo)%nat ->
       (nth j row true = false <-> exists k, In k (k0 :: l) /\ Np.index nmo k = Ok j)).
Proof.
  intros Hrule Hsane Henergy nmo.
  assert (Hrun : FrozenCore.get_active_mask CONFIGURATION self =
                 if forallb (fun k => (- Z.of_nat nmo <=? k) && (k <? Z.of_nat nmo)) (k0 :: l)
                 then Ok (FrozenCore.reshape_like (FrozenCore.mo_occ self)
                            (map (clear_all nmo (k0 :: l))
                                 (Np.full (length (FrozenCore.rows_of (FrozenCore.mo_occ self)))
                                          nmo true)))
                 else Raise IndexError).
  { unfold FrozenCore.get_active_mask. rewrite Hsane, Henergy, Hrule. cbn [bind].
    replace (match FrozenCore.mo_occ self with
             | Arr1 items => length items
             | Arr2 rows => length (hd [] rows)
             end) with nmo by (unfold nmo; destruct (FrozenCore.mo_occ self); reflexivity).
    replace (match FrozenCore.mo_occ self with
             | Arr1 _ => 1%nat
             | Arr2 rows => length rows
             end) with (length (FrozenCore.rows_of (FrozenCore.mo_occ self)))
      by (destruct (FrozenCore.mo_occ self); reflexivity).
    rewrite list_loop_run. destruct (forallb _ _); reflexivity. }
  split.
  - intros Hnot. rewrite Hrun.
    destruct (forallb _ _) eqn:Hall; [ | reflexivity ].
    apply in_axis_forallb in Hall. contradiction.
  - intros Hall. pose proof Hall as Hall'. apply in_axis_forallb in Hall'.
    rewrite Hrun, Hall'. eexists. split; [ reflexivity | ].
    split.
    { eapply get_active_mask_keeps_shape. rewrite Hrun, Hall'. reflexivity. }
    intros ch row j Hrow Hj.
    assert (Hrow' : row = clear_all nmo (k0 :: l) (repeat true nmo)).
    { unfold nmo in *. unfold Np.full in Hrow. rewrite map_repeat in Hrow.
      destruct (FrozenCore.mo_occ self) as [items|rows];
        cbn [FrozenCore.reshape_like FrozenCore.rows_of length repeat concat] in Hrow.
      - rewrite app_nil_r in Hrow. destruct ch as [|ch]; cbn in Hrow;
          [ now injection Hrow as <- | destruct ch; discriminate ].
      - apply nth_error_In, repeat_spec in Hrow. exact Hrow. }
    subst row. rewrite nth_clear_all by (now rewrite repeat_length).
    rewrite nth_repeat. split; [ intros [H | H]; [ discriminate | exact H ] | now right ].
Qed.

Lemma explicit_list_mask_witness :
  FrozenCore.check_sanity
    (FrozenCore.init beryllium (Arr1 [2; 2; 0]%Q) (RuleList [0; -1]) false None) = Ok tt /\
  Forall (in_axis 3) [0; -1] /\
  exists m,
    FrozenCore.get_active_mask ground_state_configuration
      (FrozenCore.init beryllium (Arr1 [2; 2; 0]%Q) (RuleList [0; -1]) false None) = Ok m /\
    shape m = [3%nat] /\
    forall ch row j,
      nth_error (FrozenCore.rows_of m) ch = Some row -> (j < 3)%nat ->
      (nth j row true = false <-> exists k, In k [0; -1] /\ Np.index 3 k = Ok j).
Proof.
  split; [ reflexivity | ].
  assert (Haxis : Forall (in_axis 3) [0; -1])
    by (repeat constructor; unfold in_axis; lia).
  split; [ exact Haxis | ].
  apply (explicit_list_mask ground_state_configuration
           (FrozenCore.init beryllium (Arr1 [2; 2; 0]%Q) (RuleList [0; -1]) false None)
           0 [-1]);
    [ reflexivity | reflexivity | reflexivity | exact Haxis ].
Defined.

Lemma clear_items_run (nmo : nat) (arr : list Z) (row : list bool) :
  FrozenCore.clear_items nmo arr row
  = if forallb (fun k => (- Z.of_nat nmo <=? k) && (k <? Z.of_nat nmo)) arr
    then Ok (clear_all nmo arr row)
    else Raise IndexError.
Proof.
  unfold FrozenCore.clear_items. revert row.
  induction arr as [|k arr IH]; intros row; cbn [for_each forallb].
  - reflexivity.
  - destruct (Z.leb_spec (- Z.of_nat nmo) k) as [Hlo | Hlo];
      [ destruct (Z.ltb_spec k (Z.of_nat nmo)) as [Hhi | Hhi] | ]; cbn [andb].
    + destruct (index_ok nmo k (conj Hlo Hhi)) as (j & Hj & _).
      rewrite Hj. cbn [bind]. rewrite IH.
      destruct (forallb _ arr); [ | reflexivity ].
      unfold clear_all. cbn [fold_left]. now rewrite Hj.
    + rewrite index_raises by (unfold in_axis; lia). reflexivity.
    + rewrite index_raises by (unfold in_axis; lia). reflexivity.
Qed.

Lemma clear_rows_run (nmo : nat) (arr : list (list Z)) (mask : list (list bool)) :
  length arr = length mask ->
  FrozenCore.clear_rows nmo arr mask
  = if forallb (forallb (fun k => (- Z.of_nat nmo <=? k) && (k <? Z.of_nat nmo))) arr
    then Ok (map (fun p => clear_all nmo (fst p) (snd p)) (combine arr mask))
    else Raise IndexError.
Proof.
  revert mask. induction arr as [|arr_i arr IH]; intros [|row mask] Hlen;
    try discriminate; cbn [FrozenCore.clear_rows forallb combine map].
  - reflexivity.
  - rewrite clear_items_run. destruct (forallb _ arr_i); cbn [bind andb]; [ | reflexivity ].
    rewrite IH by (cbn in Hlen; lia).
    destruct (forallb _ arr); reflexivity.
Qed.

Lemma nth_error_combine {A B : Type} (l1 : list A) (l2 : list B) (n : nat) (a : A) (b : B) :
  nth_error (combine l1 l2) n = Some (a, b) ->
  nth_error l1 n = Some a /\ nth_error l2 n = Some b.
Proof.
  revert l2 n. induction l1 as [|x l1 IH]; intros [|y l2] [|n]; cbn; try discriminate.
  - intros [= -> ->]. now split.
  - apply IH.
Qed.

(** X11.  For a non-empty list of lists as rule, a sane object and no orbital
    energies, get_active_mask raises AssertionError if the number of lists
    differs from the number of channels, IndexError if some index is outside
    -nmo <= k < nmo, and otherwise returns a mask in which orbital j of
    channel ch is False exactly when the list of that channel holds j or j -
    nmo. *)
Theorem per_channel_lists_mask
        (CONFIGURATION : list (list Z)) (self : FrozenCore.t)
        (arr_0 : list Z) (arr : list (list Z)) :
  FrozenCore.rule self = RuleLists (arr_0 :: arr) ->
  FrozenCore.check_sanity self = Ok tt ->
  FrozenCore.mo_energy self = None ->
  let nset := length (FrozenCore.rows_of (FrozenCore.mo_occ self)) in
  let nmo := last (shape (FrozenCore.mo_occ self)) 0%nat in
  (length (arr_0 :: arr) <> nset ->
   FrozenCore.get_active_mask CONFIGURATION self = Raise AssertionError) /\
  (length (arr_0 :: arr) = nset -> ~ Forall (Forall (in_axis nmo)) (arr_0 :: arr) ->
   FrozenCore.get_active_mask CONFIGURATION self = Raise IndexError) /\
  (length (arr_0 :: arr) = nset -> Forall (Forall (in_axis nmo)) (arr_0 :: arr) ->
   exists m,
     FrozenCore.get_active_mask CONFIGURATION self = Ok m /\
     shape m = shape (FrozenCore.mo_occ self) /\
     forall ch arr_ch row j,
       nth_error (arr_0 :: arr) ch = Some arr_ch ->
       nth_error (FrozenCore.rows_of m) ch = Some row -> (j < nmo)%nat ->
       (nth j row true = false <-> exists k, In k arr_ch /\ Np.index nmo k = Ok j)).
Proof.
  intros Hrule Hsane Henergy nset nmo.
  set (rng := fun k => (- Z.of_nat nmo <=? k) && (k <? Z.of_nat nmo)).
  assert (Hall : forallb (forallb rng) (arr_0 :: arr) = true <->
                 Forall (Forall (in_axis nmo)) (arr_0 :: arr)).
  { rewrite forallb_forall, Forall_forall. split; intros H x Hx;
      apply in_axis_forallb; now apply H. }
  assert (Hrun : FrozenCore.get_active_mask CONFIGURATION self =
                 if (length (arr_0 :: arr) =? nset)%nat
                 then
                   if forallb (forallb rng) (arr_0 :: arr)
                   then Ok (FrozenCore.reshape_like (FrozenCore.mo_occ self)
                              (map (fun p => clear_all nmo (fst p) (snd p))
                                   (combine (arr_0 :: arr) (Np.full nset nmo true))))
                   else Raise IndexError
                 else Raise AssertionError).
  { unfold FrozenCore.get_active_mask. rewrite Hsane, Henergy, Hrule. cbn [bind].
    replace (match FrozenCore.mo_occ self with
             | Arr1 items => length items
             | Arr2 rows => length (hd [] rows)
             end) with nmo by (unfold nmo; destruct (FrozenCore.mo_occ self); reflexivity).
    replace (match FrozenCore.mo_occ self with
             | Arr1 _ => 1%nat
             | Arr2 rows => length rows
             end) with nset by (unfold nset; destruct (FrozenCore.mo_occ self); reflexivity).
    destruct (Nat.eqb_spec (length (arr_0 :: arr)) nset) as [Hlen | Hlen];
      cbn [check bind]; [ | reflexivity ].
    rewrite clear_rows_run by (unfold Np.full; now rewrite repeat_length).
    fold rng. destruct (forallb (forallb rng) (arr_0 :: arr)); reflexivity. }
  split; [ | split ].
  - intros Hlen. rewrite Hrun.
    destruct (Nat.eqb_spec (length (arr_0 :: arr)) nset); [ contradiction | reflexivity ].
  - intros Hlen Hnot. rewrite Hrun, Hlen, Nat.eqb_refl.
    assert (Hb : forallb (forallb rng) (arr_0 :: arr) = false)
      by (apply not_true_iff_false; intros Hb; apply Hnot, Hall, Hb).
    now rewrite Hb.
  - intros Hlen Hin. pose proof (proj2 Hall Hin) as Hb.
    assert (Hm : FrozenCore.get_active_mask CONFIGURATION self =
                 Ok (FrozenCore.reshape_like (FrozenCore.mo_occ self)
                       (map (fun p => clear_all nmo (fst p) (snd p))
                            (combine (arr_0 :: arr) (Np.full nset nmo true)))))
      by (rewrite Hrun, Hlen, Nat.eqb_refl, Hb; reflexivity).
    eexists. split; [ exact Hm | ]. split; [ eapply get_active_mask_keeps_shape; exact Hm | ].
    intros ch arr_ch row j Harr Hrow Hj.
    assert (Hrows : FrozenCore.rows_of
                      (FrozenCore.reshape_like (FrozenCore.mo_occ self)
                         (map (fun p => clear_all nmo (fst p) (snd p))
                              (combine (arr_0 :: arr) (Np.full nset nmo true))))
                    = map (fun p => clear_all nmo (fst p) (snd p))
                          (combine (arr_0 :: arr) (Np.full nset nmo true))).
    { unfold nset in *. destruct (FrozenCore.mo_occ self) as [items|rows];
        cbn [FrozenCore.reshape_like FrozenCore.rows_of]; [ | reflexivity ].
      cbn [FrozenCore.rows_of length] in Hlen. destruct arr; [ | discriminate ].
      cbn. now rewrite app_nil_r. }
    rewrite Hrows in Hrow. rewrite nth_error_map in Hrow.
    destruct (nth_error (combine (arr_0 :: arr) (Np.full nset nmo true)) ch)
      as [[arr' row0]|] eqn:Hcomb; [ | discriminate ].
    injection Hrow as <-. cbn [fst snd].
    pose proof (nth_error_In _ _ Hcomb) as Hin0. apply in_combine_r in Hin0.
    unfold Np.full in Hin0. apply repeat_spec in Hin0. subst row0.
    apply nth_error_combine in Hcomb as [Harr' _].
    assert (arr' = arr_ch) by congruence.
    subst arr'. rewrite nth_clear_all by (now rewrite repeat_length).
    rewrite nth_repeat. split; [ intros [H | H]; [ discriminate | exact H ] | now right ].
Qed.

Lemma per_channel_lists_mask_witness :
  FrozenCore.check_sanity
    (FrozenCore.init boron (Arr2 open_shell_occ) (RuleLists [[0]; [0; -4]]) false None)
  = Ok tt /\
  length [[0]; [0; -4]] = 2%nat /\
  Forall (Forall (in_axis 5)) [[0]; [0; -4]] /\
  exists m,
    FrozenCore.get_active_mask ground_state_configuration
      (FrozenCore.init boron (Arr2 open_shell_occ) (RuleLists [[0]; [0; -4]]) false None)
    = Ok m /\
    shape m = [2; 5]%nat /\
    forall ch arr_ch row j,
      nth_error [[0]; [0; -4]] ch = Some arr_ch ->
      nth_error (FrozenCore.rows_of m) ch = Some row -> (j < 5)%nat ->
      (nth j row true = false <-> exists k, In k arr_ch /\ Np.index 5 k = Ok j).
Proof.
  split; [ reflexivity | ]. split; [ reflexivity | ].
  assert (Haxis : Forall (Forall (in_axis 5)) [[0]; [0; -4]])
    by (repeat constructor; unfold in_axis; lia).
  split; [ exact Haxis | ].
  apply (per_channel_lists_mask ground_state_configuration
           (FrozenCore.init boron (Arr2 open_shell_occ) (RuleLists [[0]; [0; -4]]) false None)
           [0] [[0; -4]]);
    [ reflexivity | reflexivity | reflexivity | reflexivity | exact Haxis ].
Defined.

(** ** Further properties of the frozen numbers *)

Lemma parse_frozen_numbers_loop (CONFIGURATION : list (list Z)) (mol : Mole)
      (rule : rule_spec) (ecp_only : bool) :
  resolved_per_atom rule = true ->
  FrozenCore.parse_frozen_numbers CONFIGURATION mol rule ecp_only
  = for_each (FrozenCore.add_atom CONFIGURATION rule ecp_only) (atoms mol) (0, 0).
Proof. destruct rule; try reflexivity; discriminate. Qed.

Lemma for_each_app {A S : Type} (body : S -> A -> result S) (l1 l2 : list A) (s : S) :
  for_each body (l1 ++ l2) s = (s' <- for_each body l1 s ;; for_each body l2 s').
Proof.
  revert s. induction l1 as [|x l1 IH]; intros s; cbn [app for_each bind].
  - reflexivity.
  - destruct (body s x); cbn [bind]; [ apply IH | reflexivity ].
Qed.

(** X12.  For a rule that is resolved atom by atom, parse_frozen_numbers
    returns for the atoms of two molecules put together exactly when it
    returns for each of them, and then the frozen occupied and virtual numbers
    are the sums of the two; mol.nelectron plays no part. *)
Theorem frozen_numbers_additive
        (CONFIGURATION : list (list Z)) (rule : rule_spec) (ecp_only : bool)
        (atoms1 atoms2 : list (Z * nat)) (n1 n2 n : Z) (F V : Z) :
  resolved_per_atom rule = true ->
  (FrozenCore.parse_frozen_numbers CONFIGURATION
     {| atoms := atoms1 ++ atoms2; nelectron := n |} rule ecp_only = Ok (F, V) <->
   exists F1 V1 F2 V2,
     FrozenCore.parse_frozen_numbers CONFIGURATION
       {| atoms := atoms1; nelectron := n1 |} rule ecp_only = Ok (F1, V1) /\
     FrozenCore.parse_frozen_numbers CONFIGURATION
       {| atoms := atoms2; nelectron := n2 |} rule ecp_only = Ok (F2, V2) /\
     F = F1 + F2 /\ V = V1 + V2).
Proof.
  intros Hrule. rewrite !parse_frozen_numbers_loop by assumption. cbn [atoms].
  rewrite for_each_app.
  destruct (for_each _ atoms1 (0, 0)) as [[F1 V1]|e1]; cbn [bind].
  - replace (F1, V1) with (0 + F1, 0 + V1) at 1 by (f_equal; lia).
    rewrite for_each_add_atom_shift.
    destruct (for_each _ atoms2 (0, 0)) as [[F2 V2]|e2]; cbn [shift fst snd].
    + split.
      * intros [= <- <-]. exists F1, V1, F2, V2. repeat split; lia.
      * intros (F1' & V1' & F2' & V2' & [= <- <-] & [= <- <-] & -> & ->).
        f_equal. f_equal; lia.
    + split; [ discriminate | ].
      intros (? & ? & ? & ? & _ & H & _). discriminate.
  - split; [ discriminate | ].
    intros (? & ? & ? & ? & H & _). discriminate.
Qed.

Lemma frozen_numbers_additive_witness :
  resolved_per_atom (RuleStr "FreezeNobleGasCore") = true /\
  (FrozenCore.parse_frozen_numbers ground_state_configuration
     {| atoms := [(8, 8%nat)] ++ [(1, 1%nat); (1, 1%nat)]; nelectron := 10 |}
     (RuleStr "FreezeNobleGasCore") false = Ok (2, 0) <->
   exists F1 V1 F2 V2,
     FrozenCore.parse_frozen_numbers ground_state_configuration
       {| atoms := [(8, 8%nat)]; nelectron := 8 |}
       (RuleStr "FreezeNobleGasCore") false = Ok (F1, V1) /\
     FrozenCore.parse_frozen_numbers ground_state_configuration
       {| atoms := [(1, 1%nat); (1, 1%nat)]; nelectron := 2 |}
       (RuleStr "FreezeNobleGasCore") false = Ok (F2, V2) /\
     2 = F1 + F2 /\ 0 = V1 + V2).
Proof.
  split; [ reflexivity | ].
  apply (frozen_numbers_additive ground_state_configuration (RuleStr "FreezeNobleGasCore")
           false [(8, 8%nat)] [(1, 1%nat); (1, 1%nat)] 8 2 10 2 0).
  reflexivity.
Defined.

(** The contribution of an atom with [ecp_only] set is at most the one
    without, and the exceptions are the same. *)
Lemma add_atom_ecp_only (CONFIGURATION : list (list Z)) (rule : rule_spec)
      (x x' y : Z) (atom : Z * nat) :
  x <= x' ->
  match FrozenCore.add_atom CONFIGURATION rule true (x, y) atom,
        FrozenCore.add_atom CONFIGURATION rule false (x', y) atom with
  | Ok (F, V), Ok (F', V') =>
      F <= F' /\ V = V' /\ (fst atom = Z.of_nat (snd atom) -> F' - x' = F - x)
  | Raise e, Raise e' => e = e'
  | _, _ => False
  end.
Proof.
  intros Hle. unfold FrozenCore.add_atom. destruct atom as [nelec nchrg].
  destruct (FrozenCore.rule_of_atom rule nchrg) as [rule_atom|]; cbn [bind]; [ | reflexivity ].
  destruct (FrozenCore.rule_numbers CONFIGURATION rule_atom nchrg) as [[f v]|];
    cbn [bind fst snd]; [ | reflexivity ].
  destruct (Z.eqb_spec nelec (Z.of_nat nchrg)); cbn [negb andb]; lia.
Qed.

Lemma for_each_ecp_only (CONFIGURATION : list (list Z)) (rule : rule_spec)
      (l : list (Z * nat)) (x x' y : Z) :
  x <= x' ->
  match for_each (FrozenCore.add_atom CONFIGURATION rule true) l (x, y),
        for_each (FrozenCore.add_atom CONFIGURATION rule false) l (x', y) with
  | Ok (F, V), Ok (F', V') =>
      F <= F' /\ V = V' /\
      (Forall (fun atom => fst atom = Z.of_nat (snd atom)) l -> F' - x' = F - x)
  | Raise e, Raise e' => e = e'
  | _, _ => False
  end.
Proof.
  revert x x' y. induction l as [|atom l IH]; intros x x' y Hle; cbn [for_each].
  - repeat split; lia.
  - pose proof (add_atom_ecp_only CONFIGURATION rule x x' y atom Hle) as Hstep.
    destruct (FrozenCore.add_atom CONFIGURATION rule true (x, y) atom) as [[F1 V1]|e1],
      (FrozenCore.add_atom CONFIGURATION rule false (x', y) atom) as [[F1' V1']|e1'];
      cbn [bind]; try contradiction; [ | assumption ].
    destruct Hstep as (Hle1 & <- & Hsame).
    specialize (IH F1 F1' V1 Hle1).
    destruct (for_each _ l (F1, V1)) as [[F V]|e], (for_each _ l (F1', V1)) as [[F' V']|e'];
      try contradiction; [ | assumption ].
    destruct IH as (HleF & HV & Hsame').
    split; [ assumption | ]. split; [ assumption | ].
    intros Hall. apply Forall_cons_iff in Hall as [Hatom Hall].
    specialize (Hsame Hatom). specialize (Hsame' Hall). lia.
Qed.

(** X13.  Whenever parse_frozen_numbers returns with ecp_only true, it also
    returns with ecp_only false, with the same number of frozen virtual
    electrons and at least as many frozen occupied electrons; the two agree
    when no atom has a pseudopotential. *)
Theorem ecp_only_freezes_no_more
        (CONFIGURATION : list (list Z)) (mol : Mole) (rule : rule_spec) (F V : Z) :
  FrozenCore.parse_frozen_numbers CONFIGURATION mol rule true = Ok (F, V) ->
  exists F',
    FrozenCore.parse_frozen_numbers CONFIGURATION mol rule false = Ok (F', V) /\
    F <= F' /\
    (Forall (fun atom => fst atom = Z.of_nat (snd atom)) (atoms mol) -> F' = F).
Proof.
  destruct (resolved_per_atom rule) eqn:Hrule.
  - rewrite !parse_frozen_numbers_loop by assumption.
    pose proof (for_each_ecp_only CONFIGURATION rule (atoms mol) 0 0 0 (Z.le_refl 0)) as H.
    destruct (for_each _ (atoms mol) (0, 0)) as [[F1 V1]|e]; [ | discriminate ].
    intros [= -> ->].
    destruct (for_each _ (atoms mol) (0, 0)) as [[F' V']|e']; [ | contradiction ].
    destruct H as (Hle & -> & Hsame). exists F'.
    split; [ reflexivity | ]. split; [ assumption | ].
    intros Hall. specialize (Hsame Hall). lia.
  - destruct rule; try discriminate; cbn [FrozenCore.parse_frozen_numbers].
    + intros [= <- <-]. exists 0. repeat split; lia.
    + intros H. exists F. split; [ exact H | ]. split; [ lia | reflexivity ].
Qed.

Lemma ecp_only_freezes_no_more_witness :
  FrozenCore.parse_frozen_numbers ground_state_configuration hypoiodous_acid
    (RuleStr "FreezeNobleGasCore") true = Ok (2, 0) /\
  exists F',
    FrozenCore.parse_frozen_numbers ground_state_configuration hypoiodous_acid
      (RuleStr "FreezeNobleGasCore") false = Ok (F', 0) /\
    2 <= F' /\
    (Forall (fun atom => fst atom = Z.of_nat (snd atom)) (atoms hypoiodous_acid) -> F' = 2).
Proof.
  split; [ vm_compute; reflexivity | ].
  apply (ecp_only_freezes_no_more ground_state_configuration hypoiodous_acid
           (RuleStr "FreezeNobleGasCore") 2 0).
  vm_compute; reflexivity.
Defined.

(** ** Names of rules *)

Lemma lower_ascii_idempotent (c : ascii) : lower_ascii (lower_ascii c) = lower_ascii c.
Proof. destruct c as [[] [] [] [] [] [] [] []]; vm_compute; reflexivity. Qed.

Lemma lower_separator (c : ascii) : is_separator c = true -> lower_ascii c = c.
Proof. destruct c as [[] [] [] [] [] [] [] []]; vm_compute; congruence. Qed.

Lemma normalize_name_app (s1 s2 : string) :
  normalize_name (s1 ++ s2) = (normalize_name s1 ++ normalize_name s2)%string.
Proof.
  induction s1 as [|c s1 IH]; cbn [String.append normalize_name]; [ reflexivity | ].
  rewrite IH. destruct (_ || _)%bool; reflexivity.
Qed.

(** X14.  The numbers a rule name resolves to do not change when a character
    of the name is replaced by its lower case, nor when a hyphen, an
    underscore or a space is removed from the name. *)
Theorem rule_names_are_normalized
        (CONFIGURATION : list (list Z)) (s1 s2 : string) (c : ascii) (nchrg : nat) :
  FrozenCore.rule_numbers CONFIGURATION (AtomStr (s1 ++ String c s2)) nchrg
  = FrozenCore.rule_numbers CONFIGURATION
      (AtomStr (s1 ++ String (lower_ascii c) s2)) nchrg /\
  (is_separator c = true ->
   FrozenCore.rule_numbers CONFIGURATION (AtomStr (s1 ++ String c s2)) nchrg
   = FrozenCore.rule_numbers CONFIGURATION (AtomStr (s1 ++ s2)) nchrg).
Proof.
  unfold FrozenCore.rule_numbers. rewrite !normalize_name_app.
  cbn [normalize_name]. rewrite lower_ascii_idempotent.
  split; [ reflexivity | ].
  intros Hsep. fold (is_separator (lower_ascii c)).
  rewrite (lower_separator c Hsep), Hsep. reflexivity.
Qed.

Lemma registry_keys (CONFIGURATION : list (list Z)) (registry : list (string * FrozenRule.t)) :
  FrozenRule.FrozenRules CONFIGURATION = Ok registry -> map fst registry = registry_names.
Proof.
  unfold FrozenRule.FrozenRules.
  destruct (FrozenRule.FrozenRuleORCA CONFIGURATION); cbn [bind]; [ | discriminate ].
  destruct (FrozenRule.FrozenRuleSmallCore CONFIGURATION); cbn [bind]; [ | discriminate ].
  destruct (FrozenRule.FrozenRuleLargeCore CONFIGURATION); cbn [bind]; [ | discriminate ].
  intros [= <-]. reflexivity.
Qed.

Lemma dict_get_spec {K V : Type} (eqb : K -> K -> bool) (d : list (K * V)) (key : K) :
  match dict_get eqb d key with
  | Ok v => exists k, In (k, v) d /\ eqb k key = true
  | Raise e => e = KeyError /\ forall k v, In (k, v) d -> eqb k key = false
  end.
Proof.
  induction d as [|[k v] d IH]; cbn [dict_get].
  - split; [ reflexivity | ]. intros ? ? [].
  - destruct (dict_get eqb d key) as [v'|e].
    + destruct IH as (k' & Hin & Hk'). exists k'. split; [ now right | assumption ].
    + destruct IH as [-> Hnone]. destruct (eqb k key) eqn:Hk.
      * exists k. split; [ now left | assumption ].
      * split; [ reflexivity | ]. intros k' v' [[= <- <-] | Hin]; [ assumption | ].
        eapply Hnone; eassumption.
Qed.

Lemma registry_builds (CONFIGURATION : list (list Z)) :
  length CONFIGURATION = 119%nat ->
  exists registry, FrozenRule.FrozenRules CONFIGURATION = Ok registry.
Proof.
  intros Hlen.
  unfold FrozenRule.FrozenRules, FrozenRule.FrozenRuleORCA, FrozenRule.FrozenRuleSmallCore,
    FrozenRule.FrozenRuleLargeCore, FrozenRule.FrozenRuleNone,
    FrozenRule.FrozenRuleNobleGasCore, FrozenRule.FrozenRuleInnerNobleGasCore,
    FrozenRule.zeros.
  rewrite Hlen. eexists. reflexivity.
Qed.

(** X15.  With a CONFIGURATION table of 119 rows, a rule name that is none of
    the seven registered names after normalization makes parse_frozen_numbers
    raise KeyError for every molecule with at least one atom, while for a
    molecule without atoms it returns (0, 0) without looking the name up. *)
Theorem unknown_rule_name
        (CONFIGURATION : list (list Z)) (name : string) (ecp_only : bool)
        (atom : Z * nat) (rest : list (Z * nat)) (n : Z) :
  length CONFIGURATION = 119%nat ->
  ~ In (normalize_name name) registry_names ->
  FrozenCore.parse_frozen_numbers CONFIGURATION
    {| atoms := atom :: rest; nelectron := n |} (RuleStr name) ecp_only = Raise KeyError /\
  FrozenCore.parse_frozen_numbers CONFIGURATION
    {| atoms := []; nelectron := n |} (RuleStr name) ecp_only = Ok (0, 0).
Proof.
  intros Hlen Hname. split; [ | reflexivity ].
  destruct (registry_builds _ Hlen) as [registry Hreg].
  cbn [FrozenCore.parse_frozen_numbers atoms for_each].
  unfold FrozenCore.add_atom. destruct atom as [nelec nchrg].
  cbn [FrozenCore.rule_of_atom bind FrozenCore.rule_numbers]. rewrite Hreg. cbn [bind].
  pose proof (dict_get_spec String.eqb registry (normalize_name name)) as Hget.
  destruct (dict_get String.eqb registry (normalize_name name)) as [r|e].
  - exfalso. destruct Hget as (k & Hin & Hk). apply String.eqb_eq in Hk. subst k.
    apply Hname. rewrite <- (registry_keys _ _ Hreg).
    apply (in_map fst) in Hin. exact Hin.
  - destruct Hget as [-> _]. reflexivity.
Qed.

Lemma unknown_rule_name_witness :
  length ground_state_configuration = 119%nat /\
  ~ In (normalize_name "Frozen-Core") registry_names /\
  FrozenCore.parse_frozen_numbers ground_state_configuration
    {| atoms := [(4, 4%nat)]; nelectron := 4 |} (RuleStr "Frozen-Core") false
  = Raise KeyError /\
  FrozenCore.parse_frozen_numbers ground_state_configuration
    {| atoms := []; nelectron := 4 |} (RuleStr "Frozen-Core") false = Ok (0, 0).
Proof.
  split; [ reflexivity | ].
  assert (Hname : ~ In (normalize_name "Frozen-Core") registry_names)
    by (vm_compute; intuition discriminate).
  split; [ exact Hname | ].
  apply (unknown_rule_name ground_state_configuration "Frozen-Core" false
           (4, 4%nat) [] 4);
    [ reflexivity | exact Hname ].
Defined.

(** ** Rules given per element *)

(** X16.  With a dict as rule, parse_frozen_numbers raises for every molecule
    that contains an atom whose nuclear charge is not a key of the dict. *)
Theorem mapping_rule_must_cover_the_elements
        (CONFIGURATION : list (list Z)) (mol : Mole) (d : list (nat * atom_rule))
        (ecp_only : bool) (nelec : Z) (nchrg : nat) :
  In (nelec, nchrg) (atoms mol) ->
  ~ In nchrg (map fst d) ->
  exists e, FrozenCore.parse_frozen_numbers CONFIGURATION mol (RuleDict d) ecp_only = Raise e.
Proof.
  intros Hin Hkey. cbn [FrozenCore.parse_frozen_numbers].
  generalize (0, 0). induction (atoms mol) as [|atom l IH]; [ destruct Hin | ].
  intros acc. cbn [for_each].
  destruct (FrozenCore.add_atom CONFIGURATION (RuleDict d) ecp_only acc atom) as [acc'|e] eqn:Hstep;
    cbn [bind]; [ | now exists e ].
  destruct Hin as [-> | Hin]; [ exfalso | now apply IH ].
  unfold FrozenCore.add_atom in Hstep. destruct acc as [x y].
  cbn [FrozenCore.rule_of_atom] in Hstep.
  pose proof (dict_get_spec Nat.eqb d nchrg) as Hget.
  destruct (dict_get Nat.eqb d nchrg) as [r|]; [ | discriminate ].
  destruct Hget as (k & Hk & Heq). apply Nat.eqb_eq in Heq. subst k.
  apply Hkey. apply (in_map fst) in Hk. exact Hk.
Qed.

Lemma mapping_rule_must_cover_the_elements_witness :
  In (1, 1%nat) (atoms water) /\
  ~ In 1%nat (map fst [(8%nat, AtomStr "SmallCore")]) /\
  exists e,
    FrozenCore.parse_frozen_numbers ground_state_configuration water
      (RuleDict [(8%nat, AtomStr "SmallCore")]) false = Raise e.
Proof.
  assert (Hin : In (1, 1%nat) (atoms water)) by (right; left; reflexivity).
  assert (Hout : ~ In 1%nat (map fst [(8%nat, AtomStr "SmallCore")]))
    by (cbn; intuition discriminate).
  split; [ exact Hin | ]. split; [ exact Hout | ].
  apply (mapping_rule_must_cover_the_elements ground_state_configuration water
           [(8%nat, AtomStr "SmallCore")] false 1 1);
    [ exact Hin | exact Hout ].
Defined.

(** ** Rules of other types *)

(** X17.  parse_frozen_numbers returns (0, 0) for every rule that is a list,
    an array or an integer, for every molecule whose atoms have no more
    electrons than their nuclear charge: such a rule reaches the loop over the
    atoms and matches none of its cases. *)
Theorem untyped_rule_freezes_nothing
        (CONFIGURATION : list (list Z)) (mol : Mole) (rule : rule_spec) (ecp_only : bool) :
  untyped_rule rule = true ->
  Forall (fun atom => fst atom <= Z.of_nat (snd atom)) (atoms mol) ->
  FrozenCore.parse_frozen_numbers CONFIGURATION mol rule ecp_only = Ok (0, 0).
Proof.
  intros Hrule Hatoms.
  assert (Hloop : FrozenCore.parse_frozen_numbers CONFIGURATION mol rule ecp_only
                  = for_each (FrozenCore.add_atom CONFIGURATION rule ecp_only) (atoms mol) (0, 0))
    by (destruct rule; try discriminate; reflexivity).
  rewrite Hloop. clear Hloop.
  induction Hatoms as [|[nelec nchrg] l Hatom Hatoms IH]; cbn [for_each]; [ reflexivity | ].
  assert (Hstep : FrozenCore.add_atom CONFIGURATION rule ecp_only (0, 0) (nelec, nchrg)
                  = Ok (0, 0)).
  { unfold FrozenCore.add_atom.
    replace (FrozenCore.rule_of_atom rule nchrg) with (@Ok atom_rule AtomOther)
      by (destruct rule; try discriminate; reflexivity).
    cbn [bind FrozenCore.rule_numbers]. cbn [fst snd] in Hatom.
    destruct (negb _), ecp_only; cbn [andb]; f_equal; f_equal; lia. }
  rewrite Hstep. cbn [bind]. exact IH.
Qed.

Lemma untyped_rule_freezes_nothing_witness :
  untyped_rule (RuleInt 2) = true /\
  Forall (fun atom => fst atom <= Z.of_nat (snd atom)) (atoms water) /\
  FrozenCore.parse_frozen_numbers ground_state_configuration water (RuleInt 2) false
  = Ok (0, 0).
Proof.
  assert (Hatoms : Forall (fun atom => fst atom <= Z.of_nat (snd atom)) (atoms water))
    by (repeat constructor; cbn; lia).
  split; [ reflexivity | ]. split; [ exact Hatoms | ].
  apply (untyped_rule_freezes_nothing ground_state_configuration water (RuleInt 2) false);
    [ reflexivity | exact Hatoms ].
Defined.

(** ** The mask of a rule that is resolved to frozen numbers *)

Lemma get_active_mask_rule_based (CONFIGURATION : list (list Z)) (self : FrozenCore.t) :
  rule_based (FrozenCore.rule self) = true ->
  FrozenCore.check_sanity self = Ok tt ->
  FrozenCore.mo_energy self = None ->
  FrozenCore.get_active_mask CONFIGURATION self =
  (numbers <- FrozenCore.parse_frozen_numbers CONFIGURATION (FrozenCore.mol self)
                (FrozenCore.rule self) (FrozenCore.ecp_only self) ;;
   mask <- FrozenCore.parse_active_mask_by_elec (FrozenCore.rows_of (FrozenCore.mo_occ self))
             (fst numbers) (snd numbers) ;;
   Ok (FrozenCore.reshape_like (FrozenCore.mo_occ self) mask)).
Proof.
  intros Hrule Hsane Henergy. unfold FrozenCore.get_active_mask.
  rewrite Hsane, Henergy. cbn [bind].
  destruct (FrozenCore.rule self); try discriminate;
    (destruct (FrozenCore.parse_frozen_numbers _ _ _ _); reflexivity).
Qed.

Lemma rows_of_reshape_repeat {A B : Type} (occ : ndarray A) (row : list B) :
  FrozenCore.rows_of
    (FrozenCore.reshape_like occ (repeat row (length (FrozenCore.rows_of occ))))
  = repeat row (length (FrozenCore.rows_of occ)).
Proof.
  destruct occ; cbn [FrozenCore.rows_of FrozenCore.reshape_like length repeat concat];
    [ now rewrite app_nil_r | reflexivity ].
Qed.

Lemma last_dimension {A : Type} (occ : ndarray A) :
  last (shape occ) 0%nat = length (hd [] (FrozenCore.rows_of occ)).
Proof. destruct occ; reflexivity. Qed.

(** X19.  For a rule that is neither a list nor a tuple and that resolves to
    non-negative frozen numbers (F, V), a sane object without orbital
    energies, and a capacity c > 0 (the integer part of the largest occupation
    number) such that nset * c divides F and V, get_active_mask returns a mask
    of the shape of mo_occ whose orbital j is False, in every channel, exactly
    when j < F / (nset * c) or j >= nmo - V / (nset * c). *)
Theorem rule_based_mask
        (CONFIGURATION : list (list Z)) (self : FrozenCore.t) (F V : Z) (m : Q)
        (orb_elec : Z) :
  rule_based (FrozenCore.rule self) = true ->
  FrozenCore.check_sanity self = Ok tt ->
  FrozenCore.mo_energy self = None ->
  FrozenCore.parse_frozen_numbers CONFIGURATION (FrozenCore.mol self)
    (FrozenCore.rule self) (FrozenCore.ecp_only self) = Ok (F, V) ->
  largest m (concat (FrozenCore.rows_of (FrozenCore.mo_occ self))) ->
  integer_part m orb_elec ->
  0 < orb_elec -> 0 <= F -> 0 <= V ->
  let nset := length (FrozenCore.rows_of (FrozenCore.mo_occ self)) in
  let nmo := last (shape (FrozenCore.mo_occ self)) 0%nat in
  let per_orbital := Z.of_nat nset * orb_elec in
  (per_orbital | F) -> (per_orbital | V) ->
  exists mask,
    FrozenCore.get_active_mask CONFIGURATION self = Ok mask /\
    shape mask = shape (FrozenCore.mo_occ self) /\
    forall ch row j,
      nth_error (FrozenCore.rows_of mask) ch = Some row -> (j < nmo)%nat ->
      nth j row true =
      negb ((Z.of_nat j <? F / per_orbital) || (Z.of_nat nmo - V / per_orbital <=? Z.of_nat j)).
Proof.
  cbv zeta. intros Hrule Hsane Henergy Hnum Hlargest Hpart Hpos HF HV HdF HdV.
  destruct (capacity_of_largest _ m orb_elec Hlargest Hpart) as (max_occ & Hmax & Hint).
  destruct (parse_active_mask_by_elec_ok _ _ _ _ _ Hmax Hint Hpos HF HV HdF HdV)
    as (row & Hmask & Hlen & Hrow).
  assert (Hm : FrozenCore.get_active_mask CONFIGURATION self =
               Ok (FrozenCore.reshape_like (FrozenCore.mo_occ self)
                     (repeat row (length (FrozenCore.rows_of (FrozenCore.mo_occ self)))))).
  { rewrite get_active_mask_rule_based by assumption.
    rewrite Hnum. cbn [bind fst snd]. rewrite Hmask. reflexivity. }
  eexists. split; [ exact Hm | ]. split; [ eapply get_active_mask_keeps_shape; exact Hm | ].
  intros ch row' j Hrow' Hj. rewrite rows_of_reshape_repeat in Hrow'.
  apply nth_error_In, repeat_spec in Hrow'. subst row'.
  rewrite last_dimension in *. now apply Hrow.
Qed.

Lemma rule_based_mask_witness :
  FrozenCore.parse_frozen_numbers ground_state_configuration water
    (RuleStr "FreezeNobleGasCore") false = Ok (2, 0) /\
  largest 2 (concat (FrozenCore.rows_of (FrozenCore.mo_occ water_noble_gas_core))) /\
  integer_part 2 2 /\
  (1 * 2 | 2) /\ (1 * 2 | 0) /\
  exists mask,
    FrozenCore.get_active_mask ground_state_configuration water_noble_gas_core = Ok mask /\
    shape mask = [7%nat] /\
    forall ch row j,
      nth_error (FrozenCore.rows_of mask) ch = Some row -> (j < 7)%nat ->
      nth j row true =
      negb ((Z.of_nat j <? 2 / (1 * 2)) || (7 - 0 / (1 * 2) <=? Z.of_nat j)).
Proof.
  assert (Hlargest : largest 2 (concat (FrozenCore.rows_of
                                          (FrozenCore.mo_occ water_noble_gas_core)))).
  { split; [ now left | ]. repeat constructor; discriminate. }
  assert (Hpart : integer_part 2 2).
  { split; intros H; split; reflexivity || discriminate. }
  split; [ vm_compute; reflexivity | ]. split; [ exact Hlargest | ]. split; [ exact Hpart | ].
  split; [ exists 1; reflexivity | ]. split; [ exists 0; reflexivity | ].
  apply (rule_based_mask ground_state_configuration water_noble_gas_core 2 0 2%Q 2);
    [ reflexivity | reflexivity | reflexivity | vm_compute; reflexivity | exact Hlargest
    | exact Hpart | lia | lia | lia | exists 1; reflexivity | exists 0; reflexivity ].
Defined.

(** X20.  For a rule that is neither a list nor a tuple and a sane object
    without orbital energies, get_active_mask raises whatever
    parse_frozen_numbers raises; when parse_frozen_numbers returns, it raises
    ZeroDivisionError if the largest occupation number lies strictly between
    -1 and 1 (the capacity, its integer part, is then zero), and ValueError if
    mo_occ has no entries. *)
Theorem selection_without_electrons (CONFIGURATION : list (list Z)) (self : FrozenCore.t) :
  rule_based (FrozenCore.rule self) = true ->
  FrozenCore.check_sanity self = Ok tt ->
  FrozenCore.mo_energy self = None ->
  (forall e,
      FrozenCore.parse_frozen_numbers CONFIGURATION (FrozenCore.mol self)
        (FrozenCore.rule self) (FrozenCore.ecp_only self) = Raise e ->
      FrozenCore.get_active_mask CONFIGURATION self = Raise e) /\
  (forall numbers,
      FrozenCore.parse_frozen_numbers CONFIGURATION (FrozenCore.mol self)
        (FrozenCore.rule self) (FrozenCore.ecp_only self) = Ok numbers ->
      (forall m,
          largest m (concat (FrozenCore.rows_of (FrozenCore.mo_occ self))) ->
          (- (1) < m)%Q -> (m < 1)%Q ->
          FrozenCore.get_active_mask CONFIGURATION self = Raise ZeroDivisionError) /\
      (concat (FrozenCore.rows_of (FrozenCore.mo_occ self)) = [] ->
       FrozenCore.get_active_mask CONFIGURATION self = Raise ValueError)).
Proof.
  intros Hrule Hsane Henergy.
  rewrite get_active_mask_rule_based by assumption. split.
  - intros e ->. reflexivity.
  - intros numbers ->. cbn [bind]. unfold FrozenCore.parse_active_mask_by_elec. split.
    + intros m Hlargest Hlo Hhi.
      assert (Hpart : integer_part m 0).
      { unfold integer_part. change (inject_Z 0) with 0%Q. split; intros H; split; lra. }
      destruct (capacity_of_largest _ m 0 Hlargest Hpart) as (max_occ & Hmax & Hint).
      rewrite Hmax. cbn [bind]. rewrite Hint, Z.mul_0_r. reflexivity.
    + intros Hempty. unfold FrozenCore.np_max. rewrite Hempty. reflexivity.
Qed.

Lemma selection_without_electrons_witness :
  FrozenCore.check_sanity (FrozenCore.init proton (Arr1 [0; 0]%Q) RuleNone false None)
  = Ok tt /\
  largest 0 [0; 0]%Q /\
  FrozenCore.get_active_mask ground_state_configuration
    (FrozenCore.init proton (Arr1 [0; 0]%Q) RuleNone false None) = Raise ZeroDivisionError.
Proof.
  assert (Hlargest : largest 0 [0; 0]%Q).
  { split; [ now left | ]. repeat constructor; discriminate. }
  split; [ reflexivity | ]. split; [ exact Hlargest | ].
  apply (proj1 (proj2 (selection_without_electrons ground_state_configuration
                         (FrozenCore.init proton (Arr1 [0; 0]%Q) RuleNone false None)
                         eq_refl eq_refl eq_refl) (0, 0) eq_refl) 0%Q Hlargest);
    reflexivity.
Defined.

(** ** The groups of elements and the registered rules *)

(** X21.  The index lists idx_alk_metal, idx_transition, idx_p_main, idx_la
    and idx_ac of FrozenRuleBase together hold every element from 3 to 118
    exactly once and no other number, and every element of idx_p_metal_loid is
    in idx_p_main. *)
Theorem element_groups_partition (z : nat) :
  length (filter (Nat.eqb z) element_groups)
  = (if (3 <=? z)%nat && (z <=? 118)%nat then 1 else 0)%nat /\
  (In z FrozenRule.idx_p_metal_loid -> In z FrozenRule.idx_p_main).
Proof.
  split.
  - do 119 (destruct z as [|z]; [ vm_compute; reflexivity | ]).
    vm_compute. reflexivity.
  - intros Hin. cbn in Hin.
    repeat (destruct Hin as [<- | Hin]; [ vm_compute; tauto | ]). destruct Hin.
Qed.

Lemma levels_well_formed_inv (r : FrozenRule.t) (elem : nat) :
  levels_well_formed r = true -> (elem <= 118)%nat ->
  exists n0 n1 n2 n3,
    nth_error (FrozenRule.active_levels r) elem = Some [n0; n1; n2; n3] /\
    0 <= n0 /\ 0 <= n1 /\ 0 <= n2 /\ 0 <= n3 /\
    (FrozenRule.is_active r = true -> 1 <= n0).
Proof.
  unfold levels_well_formed. intros H Hle. apply andb_prop in H as [Hlen Hrows].
  apply Nat.eqb_eq in Hlen.
  destruct (nth_error (FrozenRule.active_levels r) elem) as [row|] eqn:Hnth;
    [ | apply nth_error_None in Hnth; lia ].
  rewrite forallb_forall in Hrows. specialize (Hrows row (nth_error_In _ _ Hnth)).
  apply andb_prop in Hrows as [Hrows Hs]. apply andb_prop in Hrows as [Hlen4 Hpos].
  apply Nat.eqb_eq in Hlen4.
  destruct row as [|n0 [|n1 [|n2 [|n3 [|? ?]]]]]; try discriminate.
  exists n0, n1, n2, n3. split; [ reflexivity | ].
  cbn in Hpos. repeat (apply andb_prop in Hpos as [? Hpos]).
  repeat (split; [ lia | ]).
  intros Hact. rewrite Hact in Hs. cbn in Hs. lia.
Qed.

(** X22.  With a CONFIGURATION table of 119 rows, the registry FrozenRules is
    built without error and has the seven keys none, pyscf, orca,
    freezenoblegascore, freezeinnernoblegascore, smallcore, largecore; every
    registered rule has one row of four non-negative levels per element, and a
    rule that counts active levels keeps at least one s level. *)
Theorem registered_rules_are_populated
        (CONFIGURATION : list (list Z)) (elem : nat) :
  length CONFIGURATION = 119%nat ->
  (elem <= 118)%nat ->
  exists registry,
    FrozenRule.FrozenRules CONFIGURATION = Ok registry /\
    map fst registry = registry_names /\
    forall name r, In (name, r) registry ->
      length (FrozenRule.active_levels r) = length CONFIGURATION /\
      exists n0 n1 n2 n3,
        nth_error (FrozenRule.active_levels r) elem = Some [n0; n1; n2; n3] /\
        0 <= n0 /\ 0 <= n1 /\ 0 <= n2 /\ 0 <= n3 /\
        (FrozenRule.is_active r = true -> 1 <= n0).
Proof.
  intros Hlen Hle.
  assert (Hreg : exists registry,
             FrozenRule.FrozenRules CONFIGURATION = Ok registry /\
             forallb (fun entry => levels_well_formed (snd entry)) registry = true).
  { unfold FrozenRule.FrozenRules, FrozenRule.FrozenRuleORCA, FrozenRule.FrozenRuleSmallCore,
      FrozenRule.FrozenRuleLargeCore, FrozenRule.FrozenRuleNone,
      FrozenRule.FrozenRuleNobleGasCore, FrozenRule.FrozenRuleInnerNobleGasCore,
      FrozenRule.zeros.
    rewrite Hlen. eexists. split; [ reflexivity | vm_compute; reflexivity ]. }
  destruct Hreg as (registry & Hreg & Hwf). exists registry.
  split; [ exact Hreg | ]. split; [ now apply registry_keys with CONFIGURATION | ].
  intros name r Hin. rewrite forallb_forall in Hwf. specialize (Hwf _ Hin). cbn [snd] in Hwf.
  split.
  - unfold levels_well_formed in Hwf. apply andb_prop in Hwf as [Hl _].
    apply Nat.eqb_eq in Hl. lia.
  - now apply levels_well_formed_inv.
Qed.

Lemma registered_rules_are_populated_witness :
  length ground_state_configuration = 119%nat /\
  (26 <= 118)%nat /\
  exists registry,
    FrozenRule.FrozenRules ground_state_configuration = Ok registry /\
    map fst registry = registry_names /\
    forall name r, In (name, r) registry ->
      length (FrozenRule.active_levels r) = length ground_state_configuration /\
      exists n0 n1 n2 n3,
        nth_error (FrozenRule.active_levels r) 26 = Some [n0; n1; n2; n3] /\
        0 <= n0 /\ 0 <= n1 /\ 0 <= n2 /\ 0 <= n3 /\
        (FrozenRule.is_active r = true -> 1 <= n0).
Proof.
  split; [ reflexivity | ]. split; [ lia | ].
  apply (registered_rules_are_populated ground_state_configuration 26);
    [ reflexivity | lia ].
Defined.

(** ** Orbital counts and the reshuffling of orbitals *)

Lemma where_true_from_partition (s : nat) (m : list bool) :
  Permutation (map fst (filter snd (Np.enumerate_from s (map negb m)))
               ++ map fst (filter snd (Np.enumerate_from s m)))
              (seq s (length m)).
Proof.
  revert s. induction m as [|b m IH]; intros s;
    cbn [map Np.enumerate_from filter length seq app]; [ reflexivity | ].
  destruct b; cbn [negb snd fst map app].
  - rewrite <- Permutation_middle. constructor. apply IH.
  - constructor. apply IH.
Qed.

(** X25.  get_shuffle_frz raises IndexError when the mask of active orbitals
    is not nmo long; otherwise it returns a permutation of 0, ..., nmo - 1,
    whatever the mask and the number of occupied orbitals. *)
Theorem shuffle_is_a_permutation (self : RDHBase.t) :
  (length (RDHBase.mask_act self) <> RDHBase.nmo self ->
   RDHBase.get_shuffle_frz self = Raise IndexError) /\
  (length (RDHBase.mask_act self) = RDHBase.nmo self ->
   exists shuffle,
     RDHBase.get_shuffle_frz self = Ok shuffle /\
     Permutation shuffle (seq 0 (RDHBase.nmo self))).
Proof.
  unfold RDHBase.get_shuffle_frz. split.
  - intros Hlen. apply Nat.eqb_neq in Hlen. now rewrite Hlen.
  - intros Hlen. rewrite Hlen, Nat.eqb_refl. cbn [check bind].
    eexists. split; [ reflexivity | ].
    set (F := FrozenCore.where_true (map negb (RDHBase.mask_act self))).
    set (A := FrozenCore.where_true (RDHBase.mask_act self)).
    set (n := RDHBase.nocc self).
    transitivity (F ++ A)%list.
    + rewrite <- (firstn_skipn n F) at 3. rewrite <- (firstn_skipn n A) at 3.
      rewrite <- !app_assoc. apply Permutation_app_head.
      rewrite (Permutation_app_comm (skipn n F)).
      rewrite <- !app_assoc. reflexivity.
    + rewrite <- Hlen. apply where_true_from_partition.
Qed.

Lemma count_true_app (a b : list bool) :
  RDHBase.count_true (a ++ b) = (RDHBase.count_true a + RDHBase.count_true b)%nat.
Proof. unfold RDHBase.count_true. now rewrite filter_app, length_app. Qed.

Lemma count_true_negb (a : list bool) :
  (RDHBase.count_true (map negb a) + RDHBase.count_true a)%nat = length a.
Proof.
  unfold RDHBase.count_true. induction a as [|b a IH]; cbn; [ reflexivity | ].
  destruct b; cbn; lia.
Qed.

(** X26.  nCore + nOcc is the smaller of nocc and the length of the mask, nVir
    + nFrzvir is the number of mask entries from position nocc on, and nact =
    nOcc + nVir; when nocc is at most the length of the mask,
    get_idx_frz_categories returns the four numbers (nCore, nCore + nOcc,
    nCore + nOcc + nVir, nmo) of its docstring. *)
Theorem orbital_counts (self : RDHBase.t) :
  (RDHBase.nCore self + RDHBase.nOcc self)%nat
  = Nat.min (RDHBase.nocc self) (length (RDHBase.mask_act self)) /\
  (RDHBase.nVir self + RDHBase.nFrzvir self)%nat
  = (length (RDHBase.mask_act self) - RDHBase.nocc self)%nat /\
  RDHBase.nact self = (RDHBase.nOcc self + RDHBase.nVir self)%nat /\
  ((RDHBase.nocc self <= length (RDHBase.mask_act self))%nat ->
   RDHBase.get_idx_frz_categories self
   = (RDHBase.nCore self,
      (RDHBase.nCore self + RDHBase.nOcc self)%nat,
      (RDHBase.nCore self + RDHBase.nOcc self + RDHBase.nVir self)%nat,
      RDHBase.nmo self)).
Proof.
  unfold RDHBase.nCore, RDHBase.nOcc, RDHBase.nVir, RDHBase.nFrzvir, RDHBase.nact,
    RDHBase.get_idx_frz_categories.
  set (m := RDHBase.mask_act self). set (n := RDHBase.nocc self).
  pose proof (count_true_negb (firstn n m)) as H1. rewrite length_firstn in H1.
  pose proof (count_true_negb (skipn n m)) as H2. rewrite length_skipn in H2.
  assert (H3 : RDHBase.count_true m
               = (RDHBase.count_true (firstn n m) + RDHBase.count_true (skipn n m))%nat)
    by (rewrite <- count_true_app, firstn_skipn; reflexivity).
  repeat split; try lia.
  intros Hle. repeat f_equal; lia.
Qed.

Lemma length_where_true_from (s : nat) (m : list bool) :
  length (map fst (filter snd (Np.enumerate_from s m))) = RDHBase.count_true m.
Proof.
  unfold RDHBase.count_true. revert s.
  induction m as [|b m IH]; intros s; cbn [Np.enumerate_from filter map length];
    [ reflexivity | ].
  destruct b; cbn [snd map length filter]; now rewrite IH.
Qed.

Lemma length_where_true (m : list bool) :
  length (FrozenCore.where_true m) = RDHBase.count_true m.
Proof. apply length_where_true_from. Qed.

Lemma count_true_all_false (a : list bool) :
  Forall (fun b => b = false) a -> RDHBase.count_true a = 0%nat.
Proof.
  unfold RDHBase.count_true. induction 1 as [|b a Hb _ IH]; cbn; [ reflexivity | ].
  now rewrite Hb.
Qed.

Lemma shuffle_frozen_then_active (self : RDHBase.t) :
  length (RDHBase.mask_act self) = RDHBase.nmo self ->
  Forall (fun b => b = true) (skipn (RDHBase.nocc self) (RDHBase.mask_act self)) ->
  RDHBase.get_shuffle_frz self
  = Ok (FrozenCore.where_true (map negb (RDHBase.mask_act self))
        ++ FrozenCore.where_true (RDHBase.mask_act self))%list /\
  length (FrozenCore.where_true (map negb (RDHBase.mask_act self))) = RDHBase.nCore self /\
  length (FrozenCore.where_true (RDHBase.mask_act self)) = RDHBase.nact self.
Proof.
  intros Hlen Hvir. unfold RDHBase.get_shuffle_frz.
  rewrite Hlen, Nat.eqb_refl. cbn [check bind].
  set (m := RDHBase.mask_act self) in *. set (n := RDHBase.nocc self) in *.
  assert (Hcore : length (FrozenCore.where_true (map negb m)) = RDHBase.nCore self).
  { rewrite length_where_true. unfold RDHBase.nCore. fold m n.
    rewrite <- (firstn_skipn n m) at 1. rewrite map_app, count_true_app.
    rewrite (count_true_all_false (map negb (skipn n m))); [ lia | ].
    apply Forall_map. eapply Forall_impl; [ | exact Hvir ]. cbv beta. now intros b ->. }
  assert (Hle : (length (FrozenCore.where_true (map negb m)) <= n)%nat).
  { rewrite Hcore. unfold RDHBase.nCore. fold m n.
    pose proof (count_true_negb (firstn n m)) as H. rewrite length_firstn in H. lia. }
  split; [ | split; [ exact Hcore | apply length_where_true ] ].
  f_equal. rewrite (firstn_all2 (FrozenCore.where_true (map negb m)) Hle).
  rewrite (skipn_all2 (FrozenCore.where_true (map negb m)) Hle).
  rewrite app_nil_r, <- app_assoc, firstn_skipn. reflexivity.
Qed.

Lemma take_app {A : Type} (a : list A) (l1 l2 : list nat) :
  RDHBase.take a (l1 ++ l2)
  = (r1 <- RDHBase.take a l1 ;; r2 <- RDHBase.take a l2 ;; Ok (r1 ++ r2)%list).
Proof.
  induction l1 as [|i l1 IH]; cbn [app RDHBase.take bind].
  - destruct (RDHBase.take a l2); reflexivity.
  - destruct (nth_error a i); [ | reflexivity ]. rewrite IH.
    destruct (RDHBase.take a l1); cbn [bind]; [ | reflexivity ].
    destruct (RDHBase.take a l2); reflexivity.
Qed.

Lemma take_in_range {A : Type} (a : list A) (idx : list nat) :
  Forall (fun i => (i < length a)%nat) idx ->
  exists r, RDHBase.take a idx = Ok r /\ length r = length idx /\
            Forall2 (fun i x => nth_error a i = Some x) idx r.
Proof.
  induction 1 as [|i idx Hi _ (r & Hr & Hlen & Hall)]; cbn [RDHBase.take].
  - exists []. repeat split. constructor.
  - destruct (nth_error a i) as [x|] eqn:Hx; [ | apply nth_error_None in Hx; lia ].
    rewrite Hr. cbn [bind]. exists (x :: r). repeat split.
    + cbn [length]. now rewrite Hlen.
    + now constructor.
Qed.

Lemma where_true_in_range (m : list bool) :
  Forall (fun i => (i < length m)%nat) (FrozenCore.where_true m).
Proof.
  apply Forall_forall. intros i Hi. apply in_where_true in Hi.
  apply nth_error_Some. now rewrite Hi.
Qed.

(** X27.  When the mask and the orbital energies are nmo long and no virtual
    orbital is frozen, get_shuffle_frz lists the nCore frozen orbitals in
    ascending order followed by the active orbitals in ascending order, and
    mo_energy_act returns the nact energies of the active orbitals in that
    order. *)
Theorem active_energies_with_active_virtuals
        {A : Type} (self : RDHBase.t) (scf_mo_energy : list A) :
  length (RDHBase.mask_act self) = RDHBase.nmo self ->
  length scf_mo_energy = RDHBase.nmo self ->
  Forall (fun b => b = true) (skipn (RDHBase.nocc self) (RDHBase.mask_act self)) ->
  RDHBase.get_shuffle_frz self
  = Ok (FrozenCore.where_true (map negb (RDHBase.mask_act self))
        ++ FrozenCore.where_true (RDHBase.mask_act self))%list /\
  length (FrozenCore.where_true (map negb (RDHBase.mask_act self))) = RDHBase.nCore self /\
  exists energies,
    RDHBase.mo_energy_act self scf_mo_energy = Ok energies /\
    length energies = RDHBase.nact self /\
    Forall2 (fun i e => nth_error scf_mo_energy i = Some e)
            (FrozenCore.where_true (RDHBase.mask_act self)) energies.
Proof.
  intros Hlen Hlen' Hvir.
  destruct (shuffle_frozen_then_active self Hlen Hvir) as (Hshuffle & Hcore & Hact).
  split; [ exact Hshuffle | ]. split; [ exact Hcore | ].
  unfold RDHBase.mo_energy_act, RDHBase.reshuffled. rewrite Hshuffle. cbn [bind].
  rewrite take_app.
  destruct (take_in_range scf_mo_energy
              (FrozenCore.where_true (map negb (RDHBase.mask_act self))))
    as (rF & HrF & HlenF & _).
  { pose proof (where_true_in_range (map negb (RDHBase.mask_act self))) as H.
    rewrite length_map in H. now rewrite Hlen', <- Hlen. }
  destruct (take_in_range scf_mo_energy (FrozenCore.where_true (RDHBase.mask_act self)))
    as (rA & HrA & HlenA & HallA).
  { rewrite Hlen', <- Hlen. apply where_true_in_range. }
  rewrite HrF, HrA. cbn [bind]. exists rA. split; [ | split ].
  - f_equal. rewrite <- Hcore, <- HlenF, skipn_app, skipn_all, Nat.sub_diag.
    cbn [skipn app]. apply firstn_all2. rewrite <- Hact. lia.
  - now rewrite HlenA.
  - exact HallA.
Qed.

Lemma active_energies_with_active_virtuals_witness :
  length (RDHBase.mask_act two_frozen_of_six) = RDHBase.nmo two_frozen_of_six /\
  Forall (fun b => b = true)
         (skipn (RDHBase.nocc two_frozen_of_six) (RDHBase.mask_act two_frozen_of_six)) /\
  RDHBase.get_shuffle_frz two_frozen_of_six = Ok ([0; 2] ++ [1; 3; 4; 5])%nat /\
  length [0; 2]%nat = RDHBase.nCore two_frozen_of_six /\
  exists energies,
    RDHBase.mo_energy_act two_frozen_of_six [-20; -11; -10; 1; 2; 3] = Ok energies /\
    length energies = RDHBase.nact two_frozen_of_six /\
    Forall2 (fun i e => nth_error [-20; -11; -10; 1; 2; 3] i = Some e)
            [1; 3; 4; 5]%nat energies.
Proof.
  assert (Hvir : Forall (fun b => b = true)
                   (skipn (RDHBase.nocc two_frozen_of_six)
                      (RDHBase.mask_act two_frozen_of_six)))
    by (repeat constructor).
  split; [ reflexivity | ]. split; [ exact Hvir | ].
  apply (active_energies_with_active_virtuals two_frozen_of_six [-20; -11; -10; 1; 2; 3]);
    [ reflexivity | reflexivity | exact Hvir ].
Defined.

Example frozen_virtual_counted_as_core :
  let self := RDHBase.Build [true; true; false] 3 1 in
  RDHBase.get_shuffle_frz self = Ok [2; 0; 1]%nat /\
  RDHBase.get_idx_frz_categories self = (0, 1, 2, 3)%nat /\
  RDHBase.mo_energy_act self [10; 20; 30] = Ok [30; 10].
Proof. repeat split; reflexivity. Qed.

(** ** Instances of the earlier properties *)

Lemma tuple_rule_never_returns_witness :
  exists e,
    FrozenCore.get_active_mask ground_state_configuration
      (FrozenCore.init water (Arr1 [2; 2; 2; 2; 2; 0; 0]%Q) (RuleTuple [TStr "EnergyWindow"])
         false None) = Raise e.
Proof.
  apply (tuple_rule_never_returns ground_state_configuration
           (FrozenCore.init water (Arr1 [2; 2; 2; 2; 2; 0; 0]%Q)
              (RuleTuple [TStr "EnergyWindow"]) false None)
           [TStr "EnergyWindow"]).
  reflexivity.
Defined.

Lemma frozen_excludes_listed_orbitals_witness :
  FrozenCore.frozen ground_state_configuration beryllium_frozen_list
  = (Ok (Arr1 [1; 2]%nat), beryllium_frozen_list_done) /\
  forall k, In k [0] -> 0 <= k -> ~ In (Z.to_nat k) [1; 2]%nat.
Proof.
  split; [ vm_compute; reflexivity | ].
  apply (frozen_excludes_listed_orbitals ground_state_configuration beryllium [2; 2; 0]%Q [0]
           false [1; 2]%nat beryllium_frozen_list_done).
  vm_compute; reflexivity.
Defined.
